(** * Employee Data Analysis System: a shallow embedding of employee_system.py

    The Python program generates synthetic employee records, aggregates them
    per department, ranks them, renders a text report and saves/reloads the
    records as CSV.  This file embeds the program in Gallina and states the
    properties of its specification as theorems.

    Layout: the Python run-time notions the program relies on (exceptions,
    [int] and [float] numbers, [str] formatting, [sorted], slicing, the [csv]
    module) come first, then one module per class of the source and the
    program [main], then the lemmas and theorems. *)

From Stdlib Require Import ZArith QArith Qround List String Ascii Bool Lia.
From Stdlib Require Import Sorting.Permutation Sorting.Sorted.
From Stdlib Require Import Floats.SpecFloat.
From Stdlib Require Import DecimalString DecimalZ DecimalPos.
From Stdlib Require DecimalFacts.
Import ListNotations.

Local Open Scope string_scope.
Local Open Scope list_scope.
Local Open Scope Z_scope.

(** Concatenation of Python strings. *)
Infix "+++" := String.append (right associativity, at level 60).

(* ================================================================== *)
(** * Exceptions and the error monad *)

(** The exceptions the modelled code can raise. *)
Inductive exn : Type :=
| ZeroDivisionError
| OverflowError
| ValueError
| TypeError
| KeyError
| IndexError
| FileNotFoundError
| CsvError
| OSError
| UnicodeEncodeError.

(** A computation either returns a value or raises. *)
Inductive result (A : Type) : Type :=
| Ok (a : A)
| Raise (e : exn).

Arguments Ok {A} a.
Arguments Raise {A} e.

Definition bind {A B : Type} (c : result A) (k : A -> result B) : result B :=
  match c with
  | Ok a => k a
  | Raise e => Raise e
  end.

Declare Scope py_scope.
Delimit Scope py_scope with py.
Notation "x <- c ;; k" := (bind c (fun x => k))
  (at level 61, c at next level, right associativity) : py_scope.
Notation "' p <- c ;; k" := (bind c (fun x => let p := x in k))
  (at level 61, p pattern, c at next level, right associativity) : py_scope.
Local Open Scope py_scope.

(** [for x in l: acc = body(acc, x)] where the body may raise. *)
Fixpoint foldM {A B : Type} (body : B -> A -> result B) (l : list A) (acc : B)
  : result B :=
  match l with
  | [] => Ok acc
  | x :: l' => acc' <- body acc x ;; foldM body l' acc'
  end.

(** [[f(x) for x in l]] where [f] may raise. *)
Fixpoint mapM {A B : Type} (f : A -> result B) (l : list A) : result (list B) :=
  match l with
  | [] => Ok []
  | x :: l' => y <- f x ;; ys <- mapM f l' ;; Ok (y :: ys)
  end.

Definition is_ok {A : Type} (c : result A) : bool :=
  match c with Ok _ => true | Raise _ => false end.

(* ================================================================== *)
(** * Python floats: IEEE 754 binary64 *)

Module Float64.

Definition prec : Z := 53.
Definition emax : Z := 1024.

(** A Python [float] is a binary64 value. *)
Definition float : Type := spec_float.

Definition add : float -> float -> float := SFadd prec emax.
Definition mul : float -> float -> float := SFmul prec emax.
Definition div : float -> float -> float := SFdiv prec emax.

(** The integer [z] rounded to the nearest float, ties to even. *)
Definition of_Z (z : Z) : float := binary_normalize prec emax z 0 false.

(** The correctly rounded quotient of two positive integers, with sign [s];
    the division core works on mantissas of any size. *)
Definition of_ratio (s : bool) (a b : positive) : float :=
  SFdiv prec emax (S754_finite s a 0) (S754_finite false b 0).

(** Integers of this magnitude or more round to infinity
    (the midpoint between the largest float and [2^1024]). *)
Definition overflow_bound : Z := 2 ^ 1024 - 2 ^ 970.

Definition is_zero (f : float) : bool :=
  match f with S754_zero _ => true | _ => false end.

Definition is_nan (f : float) : bool :=
  match f with S754_nan => true | _ => false end.

Definition sign (f : float) : bool :=
  match f with
  | S754_zero s | S754_infinity s | S754_finite s _ _ => s
  | S754_nan => false
  end.

(** Zero or a finite non-zero float. *)
Definition is_finite (f : float) : bool :=
  match f with
  | S754_zero _ | S754_finite _ _ _ => true
  | _ => false
  end.

End Float64.

(** ** Exact values *)

(** The real number [m * 2^e] as a rational. *)
Definition dyadic (m e : Z) : Q :=
  if 0 <=? e then inject_Z (m * 2 ^ e) else Qmake m (Z.to_pos (2 ^ (- e))).

(** The value of a number that is not NaN: a rational or an infinity. *)
Inductive xvalue : Type :=
| NegInf
| Fin (q : Q)
| PosInf.

Definition float_value (f : Float64.float) : option xvalue :=
  match f with
  | S754_nan => None
  | S754_infinity s => Some (if s then NegInf else PosInf)
  | S754_zero _ => Some (Fin 0%Q)
  | S754_finite s m e => Some (Fin (dyadic (cond_Zopp s (Zpos m)) e))
  end.

Definition xcompare (a b : xvalue) : comparison :=
  match a, b with
  | NegInf, NegInf => Eq
  | NegInf, _ => Lt
  | _, NegInf => Gt
  | PosInf, PosInf => Eq
  | PosInf, _ => Gt
  | _, PosInf => Lt
  | Fin p, Fin q => Qcompare p q
  end.

(* ================================================================== *)
(** * Python numbers *)

(** The numeric fields of an employee hold an [int] (the generator's
    salaries) or a [float] (scores, and everything read back from CSV). *)
Inductive number : Type :=
| Int (z : Z)
| Float (f : Float64.float).

Definition value (n : number) : option xvalue :=
  match n with
  | Int z => Some (Fin (inject_Z z))
  | Float f => float_value f
  end.

(** Python compares an [int] with a [float] by exact value; every
    comparison with NaN is false. *)
Definition py_compare (a b : number) : option comparison :=
  match value a, value b with
  | Some x, Some y => Some (xcompare x y)
  | _, _ => None
  end.

Definition py_lt (a b : number) : bool :=
  match py_compare a b with Some Lt => true | _ => false end.

Definition py_gt (a b : number) : bool := py_lt b a.

Definition py_eq (a b : number) : bool :=
  match py_compare a b with Some Eq => true | _ => false end.

Definition py_le (a b : number) : bool :=
  match py_compare a b with Some Lt | Some Eq => true | _ => false end.

(** [float(n)]: converting an [int] raises OverflowError when it rounds
    to infinity. *)
Definition to_float (n : number) : result Float64.float :=
  match n with
  | Int z =>
      if Z.abs z <? Float64.overflow_bound then Ok (Float64.of_Z z)
      else Raise OverflowError
  | Float f => Ok f
  end.

(** [a + b] *)
Definition py_add (a b : number) : result number :=
  match a, b with
  | Int x, Int y => Ok (Int (x + y))
  | _, _ =>
      fa <- to_float a ;;
      fb <- to_float b ;;
      Ok (Float (Float64.add fa fb))
  end.

(** [a * b] *)
Definition py_mul (a b : number) : result number :=
  match a, b with
  | Int x, Int y => Ok (Int (x * y))
  | _, _ =>
      fa <- to_float a ;;
      fb <- to_float b ;;
      Ok (Float (Float64.mul fa fb))
  end.

(** [x / y] on two [int]s: the correctly rounded quotient. *)
Definition int_truediv (x y : Z) : result Float64.float :=
  let negate := xorb (x <? 0) (y <? 0) in
  match x, y with
  | _, Z0 => Raise ZeroDivisionError
  | Z0, _ => Ok (S754_zero negate)
  | (Zpos a | Zneg a), (Zpos b | Zneg b) =>
      if Z.abs x <? Float64.overflow_bound * Z.abs y
      then Ok (Float64.of_ratio negate a b)
      else Raise OverflowError
  end.

(** [a / b]: true division always yields a [float]. *)
Definition py_truediv (a b : number) : result number :=
  match a, b with
  | Int x, Int y => f <- int_truediv x y ;; Ok (Float f)
  | _, _ =>
      fa <- to_float a ;;
      fb <- to_float b ;;
      if Float64.is_zero fb then Raise ZeroDivisionError
      else Ok (Float (Float64.div fa fb))
  end.

(** [int(f)]: truncation toward zero. *)
Definition int_of_float (f : Float64.float) : result Z :=
  match f with
  | S754_nan => Raise ValueError
  | S754_infinity _ => Raise OverflowError
  | S754_zero _ => Ok 0
  | S754_finite s m e =>
      Ok (cond_Zopp s (if 0 <=? e then Zpos m * 2 ^ e else Zpos m / 2 ^ (- e)))
  end.

(** [int(n)] *)
Definition py_int (n : number) : result Z :=
  match n with
  | Int z => Ok z
  | Float f => int_of_float f
  end.

(** The floor of a finite float's exact value ([math.floor]). *)
Definition float_floor (f : Float64.float) : option Z :=
  match float_value f with
  | Some (Fin q) => Some (Qfloor q)
  | _ => None
  end.

(* ================================================================== *)
(** * Python strings *)

(** A [str] is held as its UTF-8 text. *)

Definition LF : ascii := "010"%char.
Definition CR : ascii := "013"%char.
Definition QUOTE : ascii := "034"%char.

Definition chars (s : string) : list ascii := list_ascii_of_string s.
Definition text (l : list ascii) : string := string_of_list_ascii l.

(** A byte [10xxxxxx] continues a multi-byte character. *)
Definition is_continuation (c : ascii) : bool :=
  let n := Z.of_nat (nat_of_ascii c) in (128 <=? n) && (n <? 192).

(** [len(s)]: the number of characters (code points). *)
Definition py_len (s : string) : Z :=
  Z.of_nat (List.length (filter (fun c => negb (is_continuation c)) (chars s))).

(** [s * n] *)
Fixpoint repeat_str (s : string) (n : nat) : string :=
  match n with
  | O => ""
  | S n' => s +++ repeat_str s n'
  end.

Definition py_str_mul (s : string) (n : Z) : string := repeat_str s (Z.to_nat n).

Definition spaces (n : Z) : string := py_str_mul " " n.

(** [sep.join(l)] *)
Fixpoint join (sep : string) (l : list string) : string :=
  match l with
  | [] => ""
  | [s] => s
  | s :: l' => s +++ sep +++ join sep l'
  end.

(** [str(z)] for an [int]. *)
Definition str_of_int (z : Z) : string := NilZero.string_of_int (Z.to_int z).

(** [f"{s:{width}s}"]: left-aligned, padded with spaces, never truncated. *)
Definition format_s (width : Z) (s : string) : string :=
  s +++ spaces (width - py_len s).

(** Right alignment, the default for numbers. *)
Definition rjust (width : Z) (s : string) : string :=
  spaces (width - py_len s) +++ s.

(** [f"{z:{width}d}"] *)
Definition format_d (width : Z) (z : Z) : string := rjust width (str_of_int z).

(** [z] in decimal, zero-padded on the left to [width] digits ([z >= 0]). *)
Definition zero_pad (width : Z) (z : Z) : string :=
  let s := str_of_int z in py_str_mul "0" (width - py_len s) +++ s.

(** Lexicographic order of strings by character code, as [<] on [str]
    (UTF-8 keeps the order of code points). *)
Fixpoint str_ltb (a b : string) : bool :=
  match a, b with
  | _, EmptyString => false
  | EmptyString, String _ _ => true
  | String x a', String y b' =>
      match Nat.compare (nat_of_ascii x) (nat_of_ascii y) with
      | Lt => true
      | Gt => false
      | Eq => str_ltb a' b'
      end
  end.

(* ================================================================== *)
(** * Formatting and parsing floats *)

(** Rounding a non-negative rational to the nearest integer, ties to even. *)
Definition round_half_even (q : Q) : Z :=
  let n := Qnum q in
  let d := Zpos (Qden q) in
  let fl := n / d in
  match 2 * (n mod d) ?= d with
  | Lt => fl
  | Gt => fl + 1
  | Eq => if Z.even fl then fl else fl + 1
  end.

(** The magnitude of a finite non-zero float. *)
Definition magnitude (m : positive) (e : Z) : Q := dyadic (Zpos m) e.

(** Commas between groups of three digits, counted from the right. *)
Fixpoint group_digits (ds : list ascii) : list ascii :=
  match ds with
  | [] => []
  | c :: r =>
      c :: (if (negb (Nat.eqb (List.length r) 0) && Nat.eqb (Nat.modulo (List.length r) 3) 0)%bool
            then ","%char :: group_digits r
            else group_digits r)
  end.

(** The digits of [n / 10^places], a point, and [places] fractional digits. *)
Definition fixed_digits (grouping : bool) (places : Z) (n : Z) : string :=
  let ip := str_of_int (n / 10 ^ places) in
  let ip := if grouping then text (group_digits (chars ip)) else ip in
  if places =? 0 then ip
  else ip +++ "." +++ zero_pad places (n mod 10 ^ places).

(** [format(f, ".{places}f")], with [","] grouping when asked: the exact
    value correctly rounded to [places] decimals, ties to even. *)
Definition float_fixed (grouping : bool) (places : Z) (f : Float64.float) : string :=
  match f with
  | S754_nan => "nan"
  | S754_infinity s => if s then "-inf" else "inf"
  | S754_zero s => (if s then "-" else "") +++ fixed_digits grouping places 0
  | S754_finite s m e =>
      let n := round_half_even (magnitude m e * inject_Z (10 ^ places)) in
      (if s then "-" else "") +++ fixed_digits grouping places n
  end.

(** [f"{x:{width}{,}.{places}f}"] for a number: an [int] is first
    converted to [float]. *)
Definition format_f (width : Z) (grouping : bool) (places : Z) (x : number)
  : result string :=
  f <- to_float x ;;
  Ok (rjust width (float_fixed grouping places f)).

(** The float nearest to [n * 10^e10], with sign [s] ([n >= 0]): what
    reading a decimal numeral yields. *)
Definition float_of_decimal (s : bool) (n : Z) (e10 : Z) : Float64.float :=
  match n with
  | Zpos p =>
      if 0 <=? e10 then Float64.of_ratio s (p * Z.to_pos (10 ^ e10)) 1
      else Float64.of_ratio s p (Z.to_pos (10 ^ (- e10)))
  | _ => S754_zero s
  end.

(** [round(f, 1)]: the float is written with one decimal, correctly
    rounded, and read back. *)
Definition py_round1 (f : Float64.float) : Float64.float :=
  match f with
  | S754_finite s m e =>
      float_of_decimal s (round_half_even (magnitude m e * 10)) (-1)
  | _ => f
  end.

(** ** [repr] of a float: the shortest decimal that reads back *)

Definition Qltb (a b : Q) : bool := negb (Qle_bool b a).

Definition pow10Q (k : Z) : Q :=
  if 0 <=? k then inject_Z (10 ^ k) else Qmake 1 (Z.to_pos (10 ^ (- k))).

(** The least [k], from [k0] on, with [q < 10^k]. *)
Fixpoint find_decpt (fuel : nat) (q : Q) (k : Z) : Z :=
  match fuel with
  | O => k
  | S fuel' => if Qltb q (pow10Q k) then k else find_decpt fuel' q (k + 1)
  end.

(** The decimal exponent of a float's magnitude: [10^(k-1) <= q < 10^k].
    The search starts just below [log10 (2^(b-1))], [b] the binary
    exponent of the magnitude ([30103/100000] approximates [log10 2]). *)
Definition decpt_of (m : positive) (e : Z) : Z :=
  let b := Zpos (digits2_pos m) + e in
  find_decpt 8 (magnitude m e) ((b - 1) * 30103 / 100000 - 1).

Definition float_same (a b : Float64.float) : bool :=
  match a, b with
  | S754_zero s, S754_zero t => Bool.eqb s t
  | S754_infinity s, S754_infinity t => Bool.eqb s t
  | S754_nan, S754_nan => true
  | S754_finite s m e, S754_finite t n f =>
      Bool.eqb s t && Pos.eqb m n && Z.eqb e f
  | _, _ => false
  end.

(** The [d]-digit decimals just below and just above [q]; the one that
    reads back as the float, the closer when both do. *)
Definition candidate (m : positive) (e : Z) (k : Z) (d : Z) : option (Z * Z) :=
  let e10 := k - d in
  let t := (magnitude m e * pow10Q (- e10))%Q in
  let lo := Qfloor t in
  let hi := lo + 1 in
  let back n := float_same (float_of_decimal false n e10) (S754_finite false m e) in
  match back lo, back hi with
  | true, true =>
      match Qcompare (t + t) (inject_Z (lo + hi)) with
      | Lt => Some (lo, e10)
      | Gt => Some (hi, e10)
      | Eq => Some (if Z.even lo then lo else hi, e10)
      end
  | true, false => Some (lo, e10)
  | false, true => Some (hi, e10)
  | false, false => None
  end.

(** Precisions 1, 2, ... are tried in turn; 17 digits always read back. *)
Fixpoint shortest (fuel : nat) (m : positive) (e : Z) (k : Z) (d : Z) : Z * Z :=
  match fuel with
  | O => (round_half_even (magnitude m e * pow10Q (d - k)), k - d)
  | S fuel' =>
      match candidate m e k d with
      | Some r => r
      | None => shortest fuel' m e k (d + 1)
      end
  end.

Fixpoint strip_zeros_rev (l : list ascii) : list ascii :=
  match l with
  | "0"%char :: l' => strip_zeros_rev l'
  | _ => l
  end.

(** The digits of [n * 10^e10] without trailing zeros, and the position
    of the decimal point relative to their start. *)
Definition digits_decpt (n e10 : Z) : list ascii * Z :=
  let ds := chars (str_of_int n) in
  (rev (strip_zeros_rev (rev ds)), Z.of_nat (List.length ds) + e10).

Definition zeros (n : Z) : list ascii := repeat "0"%char (Z.to_nat n).

(** Fixed notation for [-4 < decpt <= 16], exponent notation otherwise. *)
Definition repr_digits (ds : list ascii) (decpt : Z) : string :=
  let nd := Z.of_nat (List.length ds) in
  if (decpt <=? -4) || (16 <? decpt) then
    let x := decpt - 1 in
    let mant :=
      match ds with
      | [] => []
      | [c] => [c]
      | c :: r => c :: "."%char :: r
      end in
    text mant +++ "e" +++ (if x <? 0 then "-" else "+") +++ zero_pad 2 (Z.abs x)
  else if decpt <=? 0 then
    text ("0"%char :: "."%char :: zeros (- decpt) ++ ds)
  else if nd <=? decpt then
    text (ds ++ zeros (decpt - nd) ++ [ "."%char; "0"%char ])
  else
    text (firstn (Z.to_nat decpt) ds ++ "."%char :: skipn (Z.to_nat decpt) ds).

(** [repr(f)], which is also [str(f)]. *)
Definition float_repr (f : Float64.float) : string :=
  match f with
  | S754_nan => "nan"
  | S754_infinity s => if s then "-inf" else "inf"
  | S754_zero s => if s then "-0.0" else "0.0"
  | S754_finite s m e =>
      let '(n, e10) := shortest 16 m e (decpt_of m e) 1 in
      let '(ds, decpt) := digits_decpt n e10 in
      (if s then "-" else "") +++ repr_digits ds decpt
  end.

(** [str(x)], what an f-string field without format writes.  (CPython
    3.11 and later raise ValueError on an [int] of more than 4300 digits;
    the function has no such case, and the properties that depend on it
    are stated for [int]s below that size.) *)
Definition py_str (x : number) : string :=
  match x with
  | Int z => str_of_int z
  | Float f => float_repr f
  end.

(** ** [float(s)]: reading a decimal numeral *)

Definition code (c : ascii) : Z := Z.of_nat (nat_of_ascii c).

Definition is_digit (c : ascii) : bool := (48 <=? code c) && (code c <=? 57).

Definition is_underscore (c : ascii) : bool := code c =? 95.

(** The white space [float] skips at both ends: blank, tab, line feed,
    vertical tab, form feed, carriage return. *)
Definition is_space (c : ascii) : bool :=
  let n := code c in
  ((9 <=? n) && (n <=? 13)) || (n =? 32).

(** The code points of a UTF-8 text; [acc] and [need] carry a character
    whose bytes are not yet all read. *)
Fixpoint code_points_from (acc : Z) (need : nat) (l : list ascii) : option (list Z) :=
  match l with
  | [] => match need with O => Some [] | S _ => None end
  | c :: r =>
      let n := code c in
      match need with
      | O =>
          if n <? 128 then option_map (cons n) (code_points_from 0 0 r)
          else if (192 <=? n) && (n <? 224) then code_points_from (n - 192) 1 r
          else if (224 <=? n) && (n <? 240) then code_points_from (n - 224) 2 r
          else if (240 <=? n) && (n <? 248) then code_points_from (n - 240) 3 r
          else None
      | S k =>
          if (128 <=? n) && (n <? 192) then
            let acc' := 64 * acc + (n - 128) in
            match k with
            | O => option_map (cons acc') (code_points_from 0 0 r)
            | S _ => code_points_from acc' k r
            end
          else None
      end
  end.

Definition code_points (l : list ascii) : option (list Z) := code_points_from 0 0 l.

(** White space outside ASCII. *)
Definition UNICODE_SPACES : list Z :=
  [133; 160; 5760; 8192; 8193; 8194; 8195; 8196; 8197; 8198; 8199; 8200;
   8201; 8202; 8232; 8233; 8239; 8287; 12288].

(** The code point of the digit zero of every decimal digit block outside
    ASCII (Unicode 14); the nine that follow it are the digits 1 to 9. *)
Definition UNICODE_ZEROS : list Z :=
  [1632; 1776; 1984; 2406; 2534; 2662; 2790; 2918; 3046; 3174; 3302; 3430;
   3558; 3664; 3792; 3872; 4160; 4240; 6112; 6160; 6470; 6608; 6784; 6800;
   6992; 7088; 7232; 7248; 42528; 43216; 43264; 43472; 43504; 43600; 44016;
   65296; 66720; 68912; 69734; 69872; 69942; 70096; 70384; 70736; 70864;
   71248; 71360; 71472; 71904; 72016; 72784; 73040; 73120; 92768; 92864;
   93008; 120782; 120792; 120802; 120812; 120822; 123200; 123632; 125264;
   130032].

Definition unicode_decimal (cp : Z) : option Z :=
  match find (fun z => (z <=? cp) && (cp <? z + 10)) UNICODE_ZEROS with
  | Some z => Some (cp - z)
  | None => None
  end.

(** [float] reads its text in ASCII: a space outside ASCII counts as a
    blank and a decimal digit of another script as its ASCII digit; any
    other character outside ASCII makes the text no numeral. *)
Definition ascii_of_code_point (cp : Z) : option ascii :=
  if cp <? 128 then Some (ascii_of_nat (Z.to_nat cp))
  else if existsb (Z.eqb cp) UNICODE_SPACES then Some " "%char
  else option_map (fun d => ascii_of_nat (Z.to_nat (48 + d))) (unicode_decimal cp).

Fixpoint to_ascii (cps : list Z) : option (list ascii) :=
  match cps with
  | [] => Some []
  | cp :: r =>
      match ascii_of_code_point cp, to_ascii r with
      | Some c, Some l => Some (c :: l)
      | _, _ => None
      end
  end.

Definition lower (c : ascii) : ascii :=
  let n := code c in
  if (65 <=? n) && (n <=? 90) then ascii_of_nat (Z.to_nat (n + 32)) else c.

Fixpoint lstrip (l : list ascii) : list ascii :=
  match l with
  | c :: r => if is_space c then lstrip r else l
  | [] => []
  end.

Definition strip (l : list ascii) : list ascii := rev (lstrip (rev (lstrip l))).

Fixpoint span_digits (l : list ascii) : list ascii * list ascii :=
  match l with
  | c :: r =>
      if is_digit c then let '(ds, rest) := span_digits r in (c :: ds, rest)
      else ([], l)
  | [] => ([], [])
  end.

Definition digits_value (ds : list ascii) : Z :=
  fold_left (fun acc c => 10 * acc + (code c - 48)) ds 0.

(** An underscore may only stand between two digits; the numeral is read
    without them. *)
Fixpoint drop_underscores (prev : ascii) (l : list ascii) : option (list ascii) :=
  match l with
  | [] => if is_underscore prev then None else Some []
  | c :: r =>
      if is_underscore c then
        if is_digit prev then drop_underscores c r else None
      else if is_underscore prev && negb (is_digit c) then None
      else option_map (cons c) (drop_underscores c r)
  end.

Definition take_sign (l : list ascii) : bool * list ascii :=
  match l with
  | "-"%char :: r => (true, r)
  | "+"%char :: r => (false, r)
  | _ => (false, l)
  end.

(** The float of sign [s], digits [ip.fp] and decimal exponent [ex].
    Values far outside the float range are settled without computing
    their powers of ten. *)
Definition decimal_float (s : bool) (ip fp : list ascii) (ex : Z) : Float64.float :=
  let n := digits_value (ip ++ fp) in
  let e10 := ex - Z.of_nat (List.length fp) in
  let nd := Z.of_nat (List.length (chars (str_of_int n))) in
  if n =? 0 then S754_zero s
  else if 400 <? nd + e10 then S754_infinity s
  else if nd + e10 <? -400 then S754_zero s
  else float_of_decimal s n e10.

Definition parse_numeral (s : bool) (l : list ascii) : option Float64.float :=
  let '(ip, l1) := span_digits l in
  let '(fp, l2) :=
    match l1 with
    | "."%char :: r => span_digits r
    | _ => ([], l1)
    end in
  match ip, fp with
  | [], [] => None
  | _, _ =>
      match l2 with
      | [] => Some (decimal_float s ip fp 0)
      | c :: r =>
          if code (lower c) =? 101 then
            let '(es, r1) := take_sign r in
            match span_digits r1 with
            | ((_ :: _) as ed, []) =>
                Some (decimal_float s ip fp (cond_Zopp es (digits_value ed)))
            | _ => None
            end
          else None
      end
  end.

Definition parse_ascii (l : list ascii) : option Float64.float :=
  match drop_underscores "000"%char (strip l) with
  | None => None
  | Some l0 =>
      let '(s, l1) := take_sign l0 in
      let word := text (map lower l1) in
      if String.eqb word "inf" || String.eqb word "infinity" then Some (S754_infinity s)
      else if String.eqb word "nan" then Some S754_nan
      else parse_numeral s l1
  end.

Definition parse_float (l : list ascii) : option Float64.float :=
  match code_points l with
  | Some cps =>
      match to_ascii cps with
      | Some l0 => parse_ascii l0
      | None => None
      end
  | None => None
  end.

(** [float(s)] for a string; ValueError when it is not a numeral. *)
Definition float_of_string (s : string) : result Float64.float :=
  match parse_float (chars s) with
  | Some f => Ok f
  | None => Raise ValueError
  end.

(* ================================================================== *)
(** * Dates *)

(** A [datetime]: the proleptic Gregorian ordinal of its day (day 1 is
    0001-01-01) and the time of day. *)
Record datetime : Type := mk_datetime {
  ordinal : Z;
  hour : Z;
  minute : Z;
  second : Z
}.

(** Year, month and day of an ordinal. *)
Definition civil_of_ordinal (n : Z) : Z * Z * Z :=
  let z := n + 305 in
  let era := z / 146097 in
  let doe := z - era * 146097 in
  let yoe := (doe - doe / 1460 + doe / 36524 - doe / 146096) / 365 in
  let doy := doe - (365 * yoe + yoe / 4 - yoe / 100) in
  let mp := (5 * doy + 2) / 153 in
  let d := doy - (153 * mp + 2) / 5 + 1 in
  let m := if mp <? 10 then mp + 3 else mp - 9 in
  let y := yoe + era * 400 + (if m <=? 2 then 1 else 0) in
  (y, m, d).

(** The largest ordinal, 9999-12-31. *)
Definition max_ordinal : Z := 3652059.

(** [dt - timedelta(days=k)]; dates outside years 1..9999 raise. *)
Definition minus_days (dt : datetime) (k : Z) : result datetime :=
  let n := ordinal dt - k in
  if (1 <=? n) && (n <=? max_ordinal)
  then Ok (mk_datetime n (hour dt) (minute dt) (second dt))
  else Raise OverflowError.

(** [dt.strftime('%Y-%m-%d')] *)
Definition strftime_date (dt : datetime) : string :=
  let '(y, m, d) := civil_of_ordinal (ordinal dt) in
  zero_pad 4 y +++ "-" +++ zero_pad 2 m +++ "-" +++ zero_pad 2 d.

(** [dt.strftime('%Y-%m-%d %H:%M:%S')] *)
Definition strftime_datetime (dt : datetime) : string :=
  strftime_date dt +++ " " +++ zero_pad 2 (hour dt) +++ ":" +++
  zero_pad 2 (minute dt) +++ ":" +++ zero_pad 2 (second dt).

(** [f"{z:0{width}d}"]: zero-padded after the sign. *)
Definition format_0d (width : Z) (z : Z) : string :=
  if z <? 0 then "-" +++ zero_pad (width - 1) (- z) else zero_pad width z.

(* ================================================================== *)
(** * Built-ins on sequences *)

Section StableSort.
Context {A : Type}.
Variable less : A -> A -> bool.

(** [x] goes in front of the first element that is not less than it,
    so it stays ahead of the equal elements that came after it. *)
Fixpoint insert (x : A) (l : list A) : list A :=
  match l with
  | [] => [x]
  | y :: l' => if less y x then y :: insert x l' else x :: y :: l'
  end.

Definition sort_asc (l : list A) : list A := fold_right insert [] l.
End StableSort.

(** [sorted(l, key=key, reverse=reverse)].  Python's sort is stable and
    compares keys with [<] only; whenever [<] is a total preorder on the
    keys the stable sorted arrangement is unique, and this is the one
    computed here.  A reverse sort reverses the list, sorts it ascending
    and reverses the outcome, which keeps equal keys in source order.
    (With a NaN among the keys [<] is no preorder and Python's
    arrangement depends on its merge strategy; the properties that depend
    on the arrangement are stated for keys without NaN.) *)
Definition sorted {A K : Type} (lt : K -> K -> bool) (key : A -> K)
  (reverse : bool) (l : list A) : list A :=
  let less a b := lt (key a) (key b) in
  if reverse then rev (sort_asc less (rev l)) else sort_asc less l.

(** [len(l)] *)
Definition len {A : Type} (l : list A) : Z := Z.of_nat (List.length l).

(** [l[:n]]: a negative stop counts from the end. *)
Definition slice_to {A : Type} (l : list A) (n : Z) : list A :=
  let stop := if n <? 0 then Z.max 0 (len l + n) else n in
  firstn (Z.to_nat stop) l.

(** [l[i]] *)
Definition py_index {A : Type} (l : list A) (i : Z) : result A :=
  let j := if i <? 0 then i + len l else i in
  if j <? 0 then Raise IndexError
  else match nth_error l (Z.to_nat j) with
       | Some x => Ok x
       | None => Raise IndexError
       end.

(** [range(a, b)] *)
Definition py_range (a b : Z) : list Z :=
  map (fun k => a + Z.of_nat k) (seq 0 (Z.to_nat (b - a))).

(** [sum(l)]: the numbers are added from left to right, starting from the
    [int] 0.  (CPython 3.12 and later compensate the rounding error of
    float sums; no property below depends on the last bits of a sum.) *)
Definition py_sum (l : list number) : result number := foldM py_add l (Int 0).

(** [min(l)]: the first least element. *)
Definition py_min (l : list number) : result number :=
  match l with
  | [] => Raise ValueError
  | x :: r => Ok (fold_left (fun m y => if py_lt y m then y else m) r x)
  end.

(** [max(l)]: the first greatest element. *)
Definition py_max (l : list number) : result number :=
  match l with
  | [] => Raise ValueError
  | x :: r => Ok (fold_left (fun m y => if py_gt y m then y else m) r x)
  end.

(** ** Dictionaries keyed by strings, in insertion order *)

Definition dict (V : Type) : Type := list (string * V).

Fixpoint dict_get {V : Type} (d : dict V) (k : string) : option V :=
  match d with
  | [] => None
  | (k', v) :: d' => if String.eqb k' k then Some v else dict_get d' k
  end.

Definition dict_mem {V : Type} (d : dict V) (k : string) : bool :=
  match dict_get d k with Some _ => true | None => false end.

(** [d[k] = v]: an existing key keeps its place, a new one goes last. *)
Fixpoint dict_set {V : Type} (d : dict V) (k : string) (v : V) : dict V :=
  match d with
  | [] => [(k, v)]
  | (k', v') :: d' =>
      if String.eqb k' k then (k', v) :: d' else (k', v') :: dict_set d' k v
  end.

(** [d[k]], KeyError when absent. *)
Definition dict_lookup {V : Type} (d : dict V) (k : string) : result V :=
  match dict_get d k with
  | Some v => Ok v
  | None => Raise KeyError
  end.

(* ================================================================== *)
(** * class Employee *)

Record Employee : Type := mk_Employee {
  emp_id : string;
  name : string;
  department : string;
  salary : number;
  joining_date : string;
  performance_score : number
}.

(** A value of the dictionary [to_dict] builds. *)
Inductive field : Type :=
| FStr (s : string)
| FNum (n : number).

Definition to_dict (self : Employee) : dict field :=
  [ ("emp_id", FStr (emp_id self));
    ("name", FStr (name self));
    ("department", FStr (department self));
    ("salary", FNum (salary self));
    ("joining_date", FStr (joining_date self));
    ("performance_score", FNum (performance_score self)) ].

(* ================================================================== *)
(** * class EmployeeDataGenerator *)

(** What the generator takes from its environment: the [random] module and
    the clock.  [W] is the state of that environment. *)
Record World (W : Type) : Type := mk_World {
  (** [random._randbelow(n)]: an integer in [0, n). *)
  randbelow : Z -> W -> Z * W;
  (** [random.uniform(a, b)]: a float [N] with [a <= N <= b]. *)
  uniform : Float64.float -> Float64.float -> W -> Float64.float * W;
  (** [datetime.now()] *)
  now : W -> datetime * W
}.

Arguments randbelow {W} _ _ _.
Arguments uniform {W} _ _ _ _.
Arguments now {W} _ _.

(** The ordinal of 1970-01-01. *)
Definition EPOCH : Z := 719163.

(** The documented ranges of the random draws, and a clock that reads a
    date of the calendar not before 1970-01-01. *)
Definition lawful {W : Type} (env : World W) : Prop :=
  (forall n w, 0 < n -> 0 <= fst (randbelow env n w) < n) /\
  (forall a b w, py_le (Float a) (Float b) = true ->
     py_le (Float a) (Float (fst (uniform env a b w))) = true /\
     py_le (Float (fst (uniform env a b w))) (Float b) = true) /\
  (forall w, EPOCH <= ordinal (fst (now env w)) <= max_ordinal).

Module EmployeeDataGenerator.

Definition DEPARTMENTS : list string :=
  ["Engineering"; "Sales"; "Marketing"; "HR"; "Finance"].

Definition FIRST_NAMES : list string :=
  ["Ahmed"; "Fatima"; "Mohammad"; "Ayesha"; "Karim";
   "Nadia"; "Rahim"; "Zara"; "Ali"; "Samira";
   "Hassan"; "Laila"; "Omar"; "Sara"; "Tariq";
   "Amina"; "Bilal"; "Huda"; "Ibrahim"; "Maryam"].

Definition LAST_NAMES : list string :=
  ["Khan"; "Ahmed"; "Rahman"; "Hassan"; "Ali";
   "Mahmud"; "Hossain"; "Islam"; "Chowdhury"; "Akter";
   "Siddiqui"; "Malik"; "Sheikh"; "Hussain"; "Begum"].

Definition base_salaries : dict Z :=
  [ ("Engineering", 80000);
    ("Sales", 60000);
    ("Marketing", 55000);
    ("HR", 50000);
    ("Finance", 70000) ].

Section Generate.
Context {W : Type}.
Variable env : World W.

(** A step that reads the environment and may raise. *)
Definition gen (A : Type) : Type := W -> result (A * W).

Definition gret {A : Type} (a : A) : gen A := fun w => Ok (a, w).

Definition gbind {A B : Type} (c : gen A) (k : A -> gen B) : gen B :=
  fun w => match c w with
           | Ok (a, w') => k a w'
           | Raise e => Raise e
           end.

Definition lift {A : Type} (c : result A) : gen A :=
  fun w => match c with Ok a => Ok (a, w) | Raise e => Raise e end.

Definition draw {A : Type} (f : W -> A * W) : gen A := fun w => Ok (f w).

(** [random.choice(seq)] is [seq[_randbelow(len(seq))]]. *)
Definition choice {A : Type} (seq : list A) : gen A :=
  gbind (draw (randbelow env (len seq))) (fun i => lift (py_index seq i)).

(** [random.randint(a, b)] is [a + _randbelow(b - a + 1)]. *)
Definition randint (a b : Z) : gen Z :=
  gbind (draw (randbelow env (b - a + 1))) (fun r => gret (a + r)).

(** The body of the loop for index [i]. *)
Definition generate_employee (i : Z) : gen Employee :=
  let emp_id := "EMP" +++ format_0d 4 i in
  gbind (choice FIRST_NAMES) (fun first_name =>
  gbind (choice LAST_NAMES) (fun last_name =>
  let name := first_name +++ " " +++ last_name in
  gbind (choice DEPARTMENTS) (fun department =>
  gbind (lift (dict_lookup base_salaries department)) (fun base =>
  gbind (randint (-10000) 30000) (fun variation =>
  let salary := Z.max (base + variation) 30000 in
  gbind (randint 0 1825) (fun days_ago =>
  gbind (draw (now env)) (fun today =>
  gbind (lift (minus_days today days_ago)) (fun joined =>
  let joining_date := strftime_date joined in
  gbind (draw (uniform env (Float64.of_Z 5) (Float64.of_Z 10))) (fun u =>
  let performance_score := py_round1 u in
  gret (mk_Employee emp_id name department (Int salary) joining_date
          (Float performance_score))))))))))).

Fixpoint generate_loop (indices : list Z) (employees : list Employee)
  : gen (list Employee) :=
  match indices with
  | [] => gret employees
  | i :: rest =>
      gbind (generate_employee i) (fun employee =>
      generate_loop rest (employees ++ [employee]))
  end.

Definition generate_employees (num_employees : Z) : gen (list Employee) :=
  generate_loop (py_range 1 (num_employees + 1)) [].

End Generate.

End EmployeeDataGenerator.

(* ================================================================== *)
(** * class EmployeeAnalyzer *)

Module EmployeeAnalyzer.

(** A department's entry while the first loop aggregates. *)
Record dept_totals : Type := mk_totals {
  acc_count : Z;
  acc_total_salary : number;
  acc_total_performance : number;
  acc_employees : list Employee
}.

(** A department's entry as returned, with the averages. *)
Record dept_stats : Type := mk_stats {
  count : Z;
  total_salary : number;
  total_performance : number;
  employees : list Employee;
  avg_salary : number;
  avg_performance : number
}.

Definition empty_totals : dept_totals := mk_totals 0 (Int 0) (Int 0) [].

(** One round of the aggregation loop. *)
Definition aggregate_step (dept_data : dict dept_totals) (emp : Employee)
  : result (dict dept_totals) :=
  let dept := department emp in
  let dept_data :=
    if negb (dict_mem dept_data dept) then dict_set dept_data dept empty_totals
    else dept_data in
  entry <- dict_lookup dept_data dept ;;
  let count := acc_count entry + 1 in
  total_salary <- py_add (acc_total_salary entry) (salary emp) ;;
  total_performance <- py_add (acc_total_performance entry) (performance_score emp) ;;
  Ok (dict_set dept_data dept
        (mk_totals count total_salary total_performance
           (acc_employees entry ++ [emp]))).

Definition aggregate (self : list Employee) : result (dict dept_totals) :=
  foldM aggregate_step self [].

(** One round of the loop that computes the averages. *)
Definition average (entry : string * dept_totals) : result (string * dept_stats) :=
  let '(dept, t) := entry in
  let count := acc_count t in
  avg_salary <- py_truediv (acc_total_salary t) (Int count) ;;
  avg_performance <- py_truediv (acc_total_performance t) (Int count) ;;
  Ok (dept, mk_stats count (acc_total_salary t) (acc_total_performance t)
              (acc_employees t) avg_salary avg_performance).

Definition get_department_statistics (self : list Employee)
  : result (dict dept_stats) :=
  dept_data <- aggregate self ;;
  mapM average dept_data.

Definition sorted_employees (self : list Employee) : list Employee :=
  sorted py_lt performance_score true self.

Definition get_top_performers (self : list Employee) (n : Z) : list Employee :=
  slice_to (sorted_employees self) n.

Definition RANGE_LABELS : list string :=
  ["0-50k"; "50k-70k"; "70k-90k"; "90k-100k"; "100k+"].

(** The bucket the chain of comparisons selects. *)
Definition salary_range (emp : Employee) : string :=
  if py_lt (salary emp) (Int 50000) then "0-50k"
  else if py_lt (salary emp) (Int 70000) then "50k-70k"
  else if py_lt (salary emp) (Int 90000) then "70k-90k"
  else if py_lt (salary emp) (Int 100000) then "90k-100k"
  else "100k+".

(** [ranges[k] += 1] *)
Definition increment (ranges : dict Z) (k : string) : dict Z :=
  match dict_get ranges k with
  | Some c => dict_set ranges k (c + 1)
  | None => ranges
  end.

Definition get_salary_range_distribution (self : list Employee) : dict Z :=
  fold_left (fun ranges emp => increment ranges (salary_range emp)) self
    (map (fun label => (label, 0)) RANGE_LABELS).

Definition rule (c : string) : string := py_str_mul c 80.

Definition BLOCK : string := "█".

(** The lines of one department in the report. *)
Definition department_lines (item : string * dept_stats) : result (list string) :=
  let '(dept, stats) := item in
  a <- format_f 0 true 2 (avg_salary stats) ;;
  p <- format_f 0 false 2 (avg_performance stats) ;;
  Ok [ String LF dept +++ ":";
       "  Number of Employees: " +++ str_of_int (count stats);
       "  Average Salary: $" +++ a;
       "  Average Performance Score: " +++ p +++ "/10" ].

Fixpoint concatM {A B : Type} (f : A -> result (list B)) (l : list A)
  : result (list B) :=
  match l with
  | [] => Ok []
  | x :: l' => ys <- f x ;; zs <- concatM f l' ;; Ok (ys ++ zs)
  end.

(** [enumerate(l, start)] *)
Fixpoint enumerate {A : Type} (start : Z) (l : list A) : list (Z * A) :=
  match l with
  | [] => []
  | x :: l' => (start, x) :: enumerate (start + 1) l'
  end.

Definition performer_line (item : Z * Employee) : string :=
  let '(rank, emp) := item in
  format_d 2 rank +++ ". " +++ format_s 25 (name emp) +++ " (" +++
  format_s 12 (department emp) +++ ") - Score: " +++
  py_str (performance_score emp) +++ "/10".

(** [percentage = (count / len(self.employees)) * 100] *)
Definition percentage_of (count total : Z) : result number :=
  ratio <- py_truediv (Int count) (Int total) ;;
  py_mul ratio (Int 100).

(** [int(percentage / 2)] *)
Definition bar_length (percentage : number) : result Z :=
  half <- py_truediv percentage (Int 2) ;;
  py_int half.

(** The line of one salary range in the report. *)
Definition distribution_line (total : Z) (item : string * Z) : result string :=
  let '(range_name, count) := item in
  percentage <- percentage_of count total ;;
  n <- bar_length percentage ;;
  let bar := py_str_mul BLOCK n in
  p <- format_f 5 false 1 percentage ;;
  Ok (format_s 12 range_name +++ ": " +++ format_d 3 count +++
      " employees (" +++ p +++ "%) " +++ bar).

Definition all_salaries (self : list Employee) : list number := map salary self.

Definition all_performances (self : list Employee) : list number :=
  map performance_score self.

(** [sorted(all_salaries)[len(all_salaries) // 2]] *)
Definition median_salary (self : list Employee) : result number :=
  py_index (sorted py_lt (fun x => x) false (all_salaries self))
    (len (all_salaries self) / 2).

(** The lines of the closing section of the report. *)
Definition overall_lines (self : list Employee) : result (list string) :=
  let all_salaries := all_salaries self in
  let all_performances := all_performances self in
  total <- py_sum all_salaries ;;
  mean <- py_truediv total (Int (len all_salaries)) ;;
  mean_txt <- format_f 0 true 2 mean ;;
  median <- median_salary self ;;
  median_txt <- format_f 0 true 2 median ;;
  lo <- py_min all_salaries ;;
  lo_txt <- format_f 0 true 2 lo ;;
  hi <- py_max all_salaries ;;
  hi_txt <- format_f 0 true 2 hi ;;
  ptotal <- py_sum all_performances ;;
  pmean <- py_truediv ptotal (Int (len all_performances)) ;;
  pmean_txt <- format_f 0 false 2 pmean ;;
  Ok [ "Average Salary (All Departments): $" +++ mean_txt;
       "Median Salary: $" +++ median_txt;
       "Salary Range: $" +++ lo_txt +++ " - $" +++ hi_txt;
       "Average Performance Score: " +++ pmean_txt +++ "/10" ].

(** The list [lines] that [generate_report] joins; [timestamp] is the
    value of [datetime.now()] when the report is made. *)
Definition report_lines (timestamp : datetime) (self : list Employee)
  : result (list string) :=
  let header :=
    [ rule "=";
      "EMPLOYEE DATA ANALYSIS REPORT";
      rule "=";
      "Generated: " +++ strftime_datetime timestamp;
      "Total Employees Analyzed: " +++ str_of_int (len self);
      "" ] in
  dept_stats <- get_department_statistics self ;;
  dept_lines <-
    concatM department_lines (sorted str_ltb fst false dept_stats) ;;
  let top_performers := get_top_performers self 10 in
  let top_lines := map performer_line (enumerate 1 top_performers) in
  let salary_dist := get_salary_range_distribution self in
  dist_lines <- mapM (distribution_line (len self)) salary_dist ;;
  summary <- overall_lines self ;;
  Ok (header
      ++ [ "DEPARTMENT STATISTICS:"; rule "-" ] ++ dept_lines ++ [ "" ]
      ++ [ "TOP 10 PERFORMERS:"; rule "-" ] ++ top_lines ++ [ "" ]
      ++ [ "SALARY DISTRIBUTION:"; rule "-" ] ++ dist_lines ++ [ "" ]
      ++ [ "OVERALL STATISTICS:"; rule "-" ] ++ summary
      ++ [ ""; rule "="; "End of Report"; rule "=" ]).

Definition generate_report (timestamp : datetime) (self : list Employee)
  : result string :=
  lines <- report_lines timestamp self ;;
  Ok (join (String LF "") lines).

End EmployeeAnalyzer.

(* ================================================================== *)
(** * Text files and the csv module *)

(** The files of the working directory: name and text. *)
Definition filesystem : Type := dict string.

(** Reading a file opened without [newline=''] translates every line
    ending (CR LF, or a lone CR) to LF. *)
Fixpoint universal_newlines (l : list ascii) : list ascii :=
  match l with
  | [] => []
  | c :: r =>
      if Ascii.eqb c CR then
        match r with
        | d :: r' => if Ascii.eqb d LF then LF :: universal_newlines r'
                     else LF :: universal_newlines r
        | [] => [LF]
        end
      else c :: universal_newlines r
  end.

(** The lines a text file iterates over, each with its ending. *)
Fixpoint split_lines (cur : list ascii) (l : list ascii) : list (list ascii) :=
  match l with
  | [] => match cur with [] => [] | _ => [rev cur] end
  | c :: r =>
      if Ascii.eqb c LF then rev (c :: cur) :: split_lines [] r
      else split_lines (c :: cur) r
  end.

Module Csv.

Definition DELIMITER : ascii := ","%char.
Definition LINETERMINATOR : list ascii := [CR; LF].
Definition FIELD_LIMIT : Z := 131072.

(** ** Writer (excel dialect, QUOTE_MINIMAL) *)

Definition special (c : ascii) : bool :=
  Ascii.eqb c DELIMITER || Ascii.eqb c QUOTE || Ascii.eqb c CR || Ascii.eqb c LF.

(** Quote characters inside a field are doubled. *)
Fixpoint double_quotes (l : list ascii) : list ascii :=
  match l with
  | [] => []
  | c :: r => if Ascii.eqb c QUOTE then c :: c :: double_quotes r
              else c :: double_quotes r
  end.

Definition write_field (s : list ascii) : list ascii :=
  if existsb special s then QUOTE :: double_quotes s ++ [QUOTE] else s.

Fixpoint join_fields (fs : list (list ascii)) : list ascii :=
  match fs with
  | [] => []
  | [f] => f
  | f :: r => f ++ DELIMITER :: join_fields r
  end.

(** [writer.writerow(row)]: the text appended to the file.  A row that
    is one empty field is written as a pair of quotes. *)
Definition write_row (row : list string) : list ascii :=
  match row with
  | [EmptyString] => [QUOTE; QUOTE] ++ LINETERMINATOR
  | _ => join_fields (map (fun s => write_field (chars s)) row) ++ LINETERMINATOR
  end.

(** ** Reader *)

Inductive pstate : Type :=
| START_RECORD
| START_FIELD
| IN_FIELD
| IN_QUOTED_FIELD
| QUOTE_IN_QUOTED_FIELD
| EAT_CRNL.

Record parser : Type := mk_parser {
  state : pstate;
  cur : list ascii;        (* the field read so far, reversed *)
  cur_len : Z;             (* its length in characters *)
  fields : list string     (* the fields of the record so far, reversed *)
}.

Definition reset : parser := mk_parser START_RECORD [] 0 [].

Definition add_char (p : parser) (c : ascii) (st : pstate) : result parser :=
  if is_continuation c then Ok (mk_parser st (c :: cur p) (cur_len p) (fields p))
  else if FIELD_LIMIT <=? cur_len p then Raise CsvError
  else Ok (mk_parser st (c :: cur p) (cur_len p + 1) (fields p)).

Definition save_field (p : parser) (st : pstate) : parser :=
  mk_parser st [] 0 (text (rev (cur p)) :: fields p).

Definition set_state (p : parser) (st : pstate) : parser :=
  mk_parser st (cur p) (cur_len p) (fields p).

Definition is_newline (c : ascii) : bool := Ascii.eqb c LF || Ascii.eqb c CR.

(** One character of a line; [None] marks the end of the line. *)
Definition process_char (p : parser) (c : option ascii) : result parser :=
  let start_field (p : parser) : result parser :=
    match c with
    | None => Ok (save_field p START_RECORD)
    | Some ch =>
        if is_newline ch then Ok (save_field p EAT_CRNL)
        else if Ascii.eqb ch QUOTE then Ok (set_state p IN_QUOTED_FIELD)
        else if Ascii.eqb ch DELIMITER then Ok (save_field p START_FIELD)
        else add_char p ch IN_FIELD
    end in
  match state p with
  | START_RECORD =>
      match c with
      | None => Ok p
      | Some ch => if is_newline ch then Ok (set_state p EAT_CRNL)
                   else start_field p
      end
  | START_FIELD => start_field p
  | IN_FIELD =>
      match c with
      | None => Ok (save_field p START_RECORD)
      | Some ch =>
          if is_newline ch then Ok (save_field p EAT_CRNL)
          else if Ascii.eqb ch DELIMITER then Ok (save_field p START_FIELD)
          else add_char p ch IN_FIELD
      end
  | IN_QUOTED_FIELD =>
      match c with
      | None => Ok p
      | Some ch =>
          if Ascii.eqb ch QUOTE then Ok (set_state p QUOTE_IN_QUOTED_FIELD)
          else add_char p ch IN_QUOTED_FIELD
      end
  | QUOTE_IN_QUOTED_FIELD =>
      match c with
      | None => Ok (save_field p START_RECORD)
      | Some ch =>
          if Ascii.eqb ch QUOTE then add_char p ch IN_QUOTED_FIELD
          else if Ascii.eqb ch DELIMITER then Ok (save_field p START_FIELD)
          else if is_newline ch then Ok (save_field p EAT_CRNL)
          else add_char p ch IN_FIELD
      end
  | EAT_CRNL =>
      match c with
      | None => Ok (set_state p START_RECORD)
      | Some ch => if is_newline ch then Ok p else Raise CsvError
      end
  end.

Definition process_line (p : parser) (line : list ascii) : result parser :=
  p' <- foldM (fun q ch => process_char q (Some ch)) line p ;;
  process_char p' None.

(** [next(reader)]: lines are consumed until a record is complete.
    [None] is StopIteration. *)
Fixpoint next_record (p : parser) (lines : list (list ascii))
  : result (option (list string) * list (list ascii)) :=
  match lines with
  | [] =>
      match cur p, state p with
      | _ :: _, _ | _, IN_QUOTED_FIELD =>
          Ok (Some (rev (fields (save_field p START_RECORD))), [])
      | _, _ => Ok (None, [])
      end
  | line :: rest =>
      p' <- process_line p line ;;
      match state p' with
      | START_RECORD => Ok (Some (rev (fields p')), rest)
      | _ => next_record p' rest
      end
  end.

(** All the records of a reader.  [fuel] bounds the number of records
    by the number of lines. *)
Fixpoint records (fuel : nat) (lines : list (list ascii))
  : result (list (list string)) :=
  match fuel with
  | O => Ok []
  | S fuel' =>
      r <- next_record reset lines ;;
      match r with
      | (None, _) => Ok []
      | (Some row, rest) => rows <- records fuel' rest ;; Ok (row :: rows)
      end
  end.

Definition reader (lines : list (list ascii)) : result (list (list string)) :=
  records (S (List.length lines)) lines.

(** ** DictReader *)

(** [dict(zip(fieldnames, row))], the fields a short row lacks set to
    [None].  (The fields a long row has in excess go under the key [None],
    which [load_from_csv] never reads: they are left out.) *)
Fixpoint zip_row (fieldnames : list string) (row : list string)
  (d : dict (option string)) : dict (option string) :=
  match fieldnames, row with
  | [], _ => d
  | k :: ks, [] => zip_row ks [] (dict_set d k None)
  | k :: ks, v :: vs => zip_row ks vs (dict_set d k (Some v))
  end.

Definition is_blank (row : list string) : bool :=
  match row with [] => true | _ => false end.

(** The rows of a DictReader: the first record names the fields, blank
    records are skipped. *)
Definition dict_reader (lines : list (list ascii))
  : result (list (dict (option string))) :=
  rows <- reader lines ;;
  match rows with
  | [] => Ok []
  | fieldnames :: rest =>
      Ok (map (fun row => zip_row fieldnames row [])
            (filter (fun row => negb (is_blank row)) rest))
  end.

End Csv.

(* ================================================================== *)
(** * class FileManager *)

Module FileManager.

Definition fieldnames : list string :=
  ["emp_id"; "name"; "department"; "salary"; "joining_date"; "performance_score"].

(** A field as the csv writer writes it: [str] of anything that is not a
    string. *)
Definition field_text (v : field) : string :=
  match v with
  | FStr s => s
  | FNum n => py_str n
  end.

(** [DictWriter.writerow(rowdict)]: the values in the order of the
    field names, an absent key written as the empty string. *)
Definition row_of_dict (rowdict : dict field) : list string :=
  map (fun k => match dict_get rowdict k with
                | Some v => field_text v
                | None => ""
                end) fieldnames.

(** The text [save_to_csv] writes: the header, then one row per employee. *)
Definition csv_text (employees : list Employee) : string :=
  text (Csv.write_row fieldnames
        ++ List.concat (map (fun emp => Csv.write_row (row_of_dict (to_dict emp)))
                          employees)).

(** The file is opened with [newline='']: the text is stored as written.
    This is the effect on the files when the system accepts the write;
    the refusals of the system and the message printed on the console
    are those of [Main.save_to_csv]. *)
Definition save_to_csv (fs : filesystem) (employees : list Employee)
  (filename : string) : filesystem :=
  dict_set fs filename (csv_text employees).

(** [save_report] stores the report text (opened without [newline=''];
    on POSIX systems line feeds are written unchanged).  The refusals of
    the system and the message printed are those of [Main.save_report]. *)
Definition save_report (fs : filesystem) (report_text : string)
  (filename : string) : filesystem :=
  dict_set fs filename report_text.

(** [row[k]] for a text field.  A field a short row lacks is [None].
    Under the header [save_to_csv] writes, such a row also lacks its last
    field, performance_score, on which [float] raises TypeError, so no
    record is built from it; the model raises TypeError at the first
    field that is [None].  (Under a header in another order Python can
    build a record whose text field is [None]; the record type, which
    follows the annotations, has no such value.) *)
Definition row_str (row : dict (option string)) (k : string) : result string :=
  v <- dict_lookup row k ;;
  match v with
  | Some s => Ok s
  | None => Raise TypeError
  end.

(** [float(row[k])] *)
Definition row_float (row : dict (option string)) (k : string) : result number :=
  v <- dict_lookup row k ;;
  match v with
  | Some s => f <- float_of_string s ;; Ok (Float f)
  | None => Raise TypeError
  end.

Definition employee_of_row (row : dict (option string)) : result Employee :=
  emp_id <- row_str row "emp_id" ;;
  name <- row_str row "name" ;;
  department <- row_str row "department" ;;
  salary <- row_float row "salary" ;;
  joining_date <- row_str row "joining_date" ;;
  performance_score <- row_float row "performance_score" ;;
  Ok (mk_Employee emp_id name department salary joining_date performance_score).

(** The file is opened without [newline='']: line endings are
    translated before the csv reader sees the text. *)
Definition load_from_csv (fs : filesystem) (filename : string)
  : result (list Employee) :=
  match dict_get fs filename with
  | None => Raise FileNotFoundError
  | Some content =>
      let lines := split_lines [] (universal_newlines (chars content)) in
      rows <- Csv.dict_reader lines ;;
      mapM employee_of_row rows
  end.

End FileManager.

(* ================================================================== *)
(** * The program: [main] *)

(** What the program acts on: the generator and the clock, the files, and
    the console, as the list of the arguments of the [print] calls so far
    (each is written followed by a line feed). *)
Record machine (W : Type) : Type := mk_machine {
  world : W;
  files : filesystem;
  console : list string
}.

Arguments mk_machine {W} _ _ _.
Arguments world {W} _.
Arguments files {W} _.
Arguments console {W} _.

(** The operating system, as far as the program meets it.  Writing a
    file and writing to the console can be refused; the outcome is the
    system's, not the program's. *)
Record System (W : Type) : Type := mk_System {
  (** [open(filename, 'w')], the writes and the closing of the file: the
      files as they are left and, when the system refuses (OSError:
      PermissionError, IsADirectoryError, no space left; or
      UnicodeEncodeError), the exception. *)
  write_file : machine W -> string -> string -> result unit * filesystem;
  (** [print(s)]: the console as it is left and, when the console refuses
      the text (UnicodeEncodeError, OSError), the exception. *)
  write_console : machine W -> string -> result unit * list string
}.

Arguments write_file {W} _ _ _ _.
Arguments write_console {W} _ _ _.

Module Main.

Section Run.

Context {W : Type} (env : World W) (sys : System W).

(** A step of the program: its result or the exception it raises, and the
    machine it leaves; what was written before an exception stays
    written. *)
Definition prog (A : Type) : Type := machine W -> result A * machine W.

Definition pbind {A B : Type} (c : prog A) (k : A -> prog B) : prog B :=
  fun m => match c m with
           | (Ok a, m') => k a m'
           | (Raise e, m') => (Raise e, m')
           end.

Definition pthen {A : Type} (c : prog unit) (k : prog A) : prog A :=
  pbind c (fun _ => k).

Definition print (s : string) : prog unit :=
  fun m => let '(r, c) := write_console sys m s in
           (r, mk_machine (world m) (files m) c).

(** [with open(filename, 'w', ...) as file: ...] writing [text]. *)
Definition write (filename text : string) : prog unit :=
  fun m => let '(r, fs) := write_file sys m filename text in
           (r, mk_machine (world m) fs (console m)).

(** [EmployeeDataGenerator.generate_employees(n)]; an exception ends the
    program, the state of the generator is then of no account. *)
Definition generate_employees (n : Z) : prog (list Employee) :=
  fun m => match EmployeeDataGenerator.generate_employees env n (world m) with
           | Ok (employees, w) => (Ok employees, mk_machine w (files m) (console m))
           | Raise e => (Raise e, m)
           end.

(** [FileManager.save_to_csv]: the file is written, then the message is
    printed. *)
Definition save_to_csv (employees : list Employee) (filename : string) : prog unit :=
  pthen (write filename (FileManager.csv_text employees))
        (print ("✅ Employee data saved to: " +++ filename)).

(** [FileManager.save_report]: the file is written, then the message is
    printed. *)
Definition save_report (report_text : string) (filename : string) : prog unit :=
  pthen (write filename report_text)
        (print ("✅ Analysis report saved to: " +++ filename)).

(** [FileManager.load_from_csv], with the message it prints. *)
Definition load_from_csv (filename : string) : prog (list Employee) :=
  fun m => match FileManager.load_from_csv (files m) filename with
           | Ok employees =>
               pthen (print ("✅ Loaded " +++ str_of_int (len employees)
                             +++ " employees from: " +++ filename))
                     (fun m' => (Ok employees, m')) m
           | Raise e => (Raise e, m)
           end.

(** [EmployeeAnalyzer(employees).generate_report()]: the clock is read
    when the header is written. *)
Definition generate_report (employees : list Employee) : prog string :=
  fun m => let '(timestamp, w) := now env (world m) in
           (EmployeeAnalyzer.generate_report timestamp employees,
            mk_machine w (files m) (console m)).

Definition main : prog unit :=
  pthen (print (py_str_mul "=" 80)) (
  pthen (print "EMPLOYEE DATA ANALYSIS SYSTEM") (
  pthen (print (py_str_mul "=" 80)) (
  pthen (print "") (
  pthen (print "Step 1: Generating employee data...") (
  pthen (print (py_str_mul "-" 80)) (
  pbind (generate_employees 100) (fun employees =>
  pthen (print ("✅ Generated " +++ str_of_int (len employees) +++ " employee records")) (
  pthen (print "") (
  pthen (print "Step 2: Saving data to CSV...") (
  pthen (print (py_str_mul "-" 80)) (
  pthen (save_to_csv employees "employees.csv") (
  pthen (print "") (
  pthen (print "Step 3: Analyzing employee data...") (
  pthen (print (py_str_mul "-" 80)) (
  pbind (generate_report employees) (fun report =>
  pthen (print "✅ Analysis completed") (
  pthen (print "") (
  pthen (print "Step 4: Saving analysis report...") (
  pthen (print (py_str_mul "-" 80)) (
  pthen (save_report report "analysis_report.txt") (
  pthen (print "") (
  pthen (print "Step 5: Displaying analysis report...") (
  pthen (print (py_str_mul "-" 80)) (
  pthen (print "") (
  pthen (print report) (
  pthen (print "") (
  pthen (print (py_str_mul "=" 80)) (
  pthen (print "✅ ANALYSIS COMPLETE!") (
  pthen (print (py_str_mul "=" 80)) (
  pthen (print "") (
  pthen (print "Generated files:") (
  pthen (print "  • employees.csv - Employee data") (
  pthen (print "  • analysis_report.txt - Analysis report") (
  print "")))))))))))))))))))))))))))))))))).

End Run.

End Main.

(** NaN is the one number that is not ordered with the others. *)
Definition is_NaN (x : number) : bool :=
  match x with
  | Float S754_nan => true
  | _ => false
  end.

(* ================================================================== *)
(** * The vocabulary of the properties *)

Import EmployeeAnalyzer.
Import EmployeeDataGenerator.

(** The order of extended values. *)
Definition xle (a b : xvalue) : Prop := xcompare a b <> Gt.

(** [a] may stand before [b] in a list sorted by [less]. *)
Definition ascending {A : Type} (less : A -> A -> bool) (a b : A) : Prop :=
  less b a = false.

(** No score is NaN: the scores are ordered. *)
Definition scores_ordered (emps : list Employee) : Prop :=
  Forall (fun e => is_NaN (performance_score e) = false) emps.


(** The score can be written in the report: an [int] score has at most
    4300 digits. *)
Definition score_prints (e : Employee) : Prop :=
  match performance_score e with
  | Int z => Z.abs z < 10 ^ 4300
  | Float _ => True
  end.

(** A system that refuses nothing: a file holds what was written to it,
    the other files stay, and the console shows what was printed. *)
Definition accepting {W : Type} (sys : System W) : Prop :=
  (forall m filename text,
     write_file sys m filename text = (Ok tt, dict_set (files m) filename text))
  /\ (forall m s, write_console sys m s = (Ok tt, console m ++ [s])).

(** The exception is one the system raised when it refused a write. *)
Definition refused {W : Type} (sys : System W) (e : exn) : Prop :=
  (exists m filename text, fst (write_file sys m filename text) = Raise e)
  \/ (exists m s, fst (write_console sys m s) = Raise e).

(** The step raises nothing of its own: whatever it raises, the system
    raised. *)
Definition passes_on {W A : Type} (sys : System W) (c : @Main.prog W A) : Prop :=
  forall m e m', c m = (Raise e, m') -> refused sys e.

(** [a] may stand before [b] in a descending ranking. *)
Definition not_below (a b : Employee) : Prop :=
  py_lt (performance_score a) (performance_score b) = false.

(** The employees whose score equals [v], in list order. *)
Definition with_score (v : number) (l : list Employee) : list Employee :=
  filter (fun e => py_eq (performance_score e) v) l.

(** The number of employees the comparisons send to the range [label]. *)
Definition members (label : string) (emps : list Employee) : Z :=
  len (filter (fun e => String.eqb (salary_range e) label) emps).

(** 1 when [e] falls in [label], else 0. *)
Definition falls_in (label : string) (e : Employee) : Z :=
  if String.eqb (salary_range e) label then 1 else 0.


(** Zero, or finite with magnitude below [2^K]. *)
Definition below (K : Z) (f : Float64.float) : Prop :=
  match f with
  | S754_zero _ => True
  | S754_finite _ m e => Zpos (digits2_pos m) + e <= K
  | _ => False
  end.

Definition mag (m : positive) (e : Z) : Z := Zpos (digits2_pos m) + e.

(** The entry of an employee's department before the employee is added. *)
Definition entry_of (dept_data : dict dept_totals) (emp : Employee) : dept_totals :=
  match dict_get dept_data (department emp) with
  | Some t => t
  | None => empty_totals
  end.

(** A group holds at least one member, and counts its members. *)
Definition group_ok (t : dept_totals) : Prop :=
  1 <= acc_count t /\ acc_count t = len (acc_employees t) /\ acc_employees t <> [].

(** The keys of a list in the order of their first appearance. *)
Definition first_appearances (ks : list string) : list string :=
  fold_left (fun seen k => if existsb (String.eqb k) seen then seen else seen ++ [k])
    ks [].

(** The employees of a department, in source order. *)
Definition members_of (dept : string) (emps : list Employee) : list Employee :=
  filter (fun e => String.eqb (department e) dept) emps.

(** The sum of the counts of the groups. *)
Definition group_counts (stats : dict dept_stats) : Z :=
  fold_right (fun kv s => count (snd kv) + s) 0 stats.

(** What a group holds once the employees [seen] have been aggregated. *)
Definition group_of (seen : list Employee) (k : string) (t : dept_totals) : Prop :=
  acc_employees t = members_of k seen
  /\ acc_count t = len (acc_employees t)
  /\ py_sum (map salary (acc_employees t)) = Ok (acc_total_salary t)
  /\ py_sum (map performance_score (acc_employees t)) = Ok (acc_total_performance t).

(** The sum of the counts while the loop aggregates. *)
Definition acc_counts (d : dict dept_totals) : Z :=
  fold_right (fun kv s => acc_count (snd kv) + s) 0 d.

(** The dictionary of the aggregation loop after the employees [seen]. *)
Definition grouped (seen : list Employee) (d : dict dept_totals) : Prop :=
  map fst d = first_appearances (map department seen)
  /\ NoDup (map fst d)
  /\ (forall k t, In (k, t) d -> group_of seen k t)
  /\ acc_counts d = len seen.

(** Both numeric fields of the record are floats. *)
Definition float_fields (e : Employee) : Prop :=
  (exists s, salary e = Float s) /\ (exists p, performance_score e = Float p).

(** The department sections of the report, in the order shown. *)
Definition shown_departments (stats : dict dept_stats) : dict dept_stats :=
  sorted str_ltb fst false stats.

(** [a] stands strictly before [b] in alphabetical order. *)
Definition name_before (a b : string * dept_stats) : Prop :=
  str_ltb (fst a) (fst b) = true.

(** The bound under which the [int] fields of a record are called small. *)
Definition SMALL : Z := 2 ^ 960.

(** A Python list holds fewer than [2^63] items. *)
Definition MAX_LEN : Z := 2 ^ 63.

(** A [float], or an [int] small enough that sums of such fields convert
    to [float]. *)
Definition small (x : number) : Prop :=
  match x with
  | Int z => Z.abs z < SMALL
  | Float _ => True
  end.

Definition small_fields (e : Employee) : Prop :=
  small (salary e) /\ small (performance_score e).

(** The magnitude of an [int]; floats never fail to convert. *)
Definition int_size (x : number) : Z :=
  match x with
  | Int z => Z.abs z
  | Float _ => 0
  end.

(** The totals of a group after [k] employees have been aggregated. *)
Definition totals_small (k : Z) (t : dept_totals) : Prop :=
  int_size (acc_total_salary t) <= k * SMALL
  /\ int_size (acc_total_performance t) <= k * SMALL
  /\ 0 <= acc_count t <= k.

Definition FIVE : Float64.float := Float64.of_Z 5.
Definition TEN : Float64.float := Float64.of_Z 10.

(** The one-decimal floats from 5.0 to 10.0 lie between 5.0 and 10.0. *)
Definition tenth_in_range (k : Z) : bool :=
  py_le (Float FIVE) (Float (float_of_decimal false k (-1)))
  && py_le (Float (float_of_decimal false k (-1))) (Float TEN).

(** [f"EMP{i:04d}"] *)
Definition employee_id (i : Z) : string := "EMP" +++ format_0d 4 i.

(** What holds of every generated record: the salary is the department's
    base plus a variation in [-10000, 30000], raised to 30000 if below;
    the score is a one-decimal float between 5.0 and 10.0. *)
Definition generated (e : Employee) : Prop :=
  (exists base variation,
     dict_get base_salaries (department e) = Some base
     /\ -10000 <= variation <= 30000
     /\ salary e = Int (Z.max (base + variation) 30000))
  /\ py_le (Int 30000) (salary e) = true
  /\ (exists k, 50 <= k <= 100
               /\ performance_score e = Float (float_of_decimal false k (-1)))
  /\ py_le (Float FIVE) (performance_score e) = true
  /\ py_le (performance_score e) (Float TEN) = true.

(** What else holds of a generated record: the name is a first name and a
    last name of the pools with a blank between them, the department is
    one of the five, and the joining date is the day the clock showed
    less a number of days from 0 to 1825, written as year-month-day. *)
Definition drawn {W : Type} (env : World W) (e : Employee) : Prop :=
  (exists first_name last_name,
     In first_name FIRST_NAMES /\ In last_name LAST_NAMES
     /\ name e = first_name +++ " " +++ last_name)
  /\ In (department e) DEPARTMENTS
  /\ (exists w days_ago joined,
        0 <= days_ago <= 1825
        /\ minus_days (fst (now env w)) days_ago = Ok joined
        /\ joining_date e = strftime_date joined).

(** The number a string of decimal digits denotes. *)
Definition decode (s : string) : option Z :=
  option_map Z.of_uint (NilEmpty.uint_of_string s).

(** ** The csv round trip *)

Import Csv.

(** The reader followed on the characters of a text: the record that ends
    at the first line end outside quotes, and the text after it. *)
Fixpoint scan (p : parser) (cs : list ascii) : option (list string * list ascii) :=
  match cs with
  | [] => None
  | c :: r =>
      match process_char p (Some c) with
      | Ok p1 =>
          if Ascii.eqb c LF then
            match process_char p1 None with
            | Ok p2 =>
                match state p2 with
                | START_RECORD => Some (rev (fields p2), r)
                | _ => scan p2 r
                end
            | Raise _ => None
            end
          else scan p1 r
      | Raise _ => None
      end
  end.

(** The number of characters of a UTF-8 text. *)
Definition cnt (s : list ascii) : Z :=
  Z.of_nat (List.length (filter (fun c => negb (is_continuation c)) s)).

(** The parser between two fields. *)
Definition boundary (p : parser) : Prop :=
  cur p = [] /\ cur_len p = 0 /\ (state p = START_RECORD \/ state p = START_FIELD).

(** A field the reader accepts: at most [FIELD_LIMIT] characters. *)
Definition fits (s : string) : Prop := py_len s <= FIELD_LIMIT.

(** The text of a record as the reader receives it: the line end is a
    line feed. *)
Definition record_line (row : list string) : list ascii :=
  match row with
  | [EmptyString] => [QUOTE; QUOTE; LF]
  | _ => join_fields (map (fun s => write_field (chars s)) row) ++ [LF]
  end.

(** The records written one after the other. *)
Definition record_lines (rows : list (list string)) : list ascii :=
  List.concat (map record_line rows).

(** No carriage return in the text. *)
Definition no_CR (s : list ascii) : Prop := ~ In CR s.

(** A text field free of carriage returns and within the reader's limit. *)
Definition field_ok (s : string) : Prop := no_CR (chars s) /\ fits s.

(** The record [load_from_csv] builds from the six fields of a row. *)
Definition employee_of_fields (row : list string) : result Employee :=
  match row with
  | [emp_id; name; department; salary; joining_date; performance_score] =>
      s <- float_of_string salary ;;
      p <- float_of_string performance_score ;;
      Ok (mk_Employee emp_id name department (Float s) joining_date (Float p))
  | _ => Raise TypeError
  end.

(** The six fields [save_to_csv] writes for an employee. *)
Definition written_fields (e : Employee) : list string :=
  [emp_id e; name e; department e; py_str (salary e); joining_date e;
   py_str (performance_score e)].

(** The employee as it is read back: the numbers are the floats their
    written form denotes. *)
Definition reread (e : Employee) : result Employee :=
  employee_of_fields (written_fields e).

(** The text of a csv file with the header of [save_to_csv] and the given
    rows. *)
Definition file_of_rows (rows : list (list string)) : string :=
  text (List.concat (map write_row (FileManager.fieldnames :: rows))).

(** Six fields, none with a carriage return or longer than the reader
    accepts. *)
Definition row_ok (row : list string) : Prop :=
  List.length row = 6%nat /\ Forall field_ok row.

(** An employee whose six written fields the csv round trip keeps. *)
Definition writable (e : Employee) : Prop := Forall field_ok (written_fields e).

(** One step of reading a decimal numeral: the digit [c] after [acc]. *)
Definition digit_step (acc : Z) (c : ascii) : Z := 10 * acc + (code c - 48).

(** The float [load_from_csv] is expected to give for a number. *)
Definition float_of (x : number) : Float64.float :=
  match x with
  | Int z => Float64.of_Z z
  | Float f => f
  end.

(** A number that is read back as its float: an [int] that converts
    to [float], or a [float] whose [repr] is read back as the float
    itself. *)
Definition reads_back (x : number) : Prop :=
  match x with
  | Int z => Z.abs z < Float64.overflow_bound
  | Float f => float_of_string (float_repr f) = Ok f /\ field_ok (float_repr f)
  end.

(** The record with its numbers as floats. *)
Definition floated (e : Employee) : Employee :=
  mk_Employee (emp_id e) (name e) (department e) (Float (float_of (salary e)))
    (joining_date e) (Float (float_of (performance_score e))).

(** A record the round trip keeps. *)
Definition kept (e : Employee) : Prop :=
  field_ok (emp_id e) /\ field_ok (name e) /\ field_ok (department e)
  /\ field_ok (joining_date e)
  /\ reads_back (salary e) /\ reads_back (performance_score e).

(** [field_ok], decided by computation. *)
Definition plain (s : string) : bool :=
  negb (existsb (Ascii.eqb CR) (chars s)) && (py_len s <=? FIELD_LIMIT).

(** [reads_back] and [kept], decided by computation. *)
Definition reads_backb (x : number) : bool :=
  match x with
  | Int z => Z.abs z <? Float64.overflow_bound
  | Float f =>
      match float_of_string (float_repr f) with
      | Ok g => float_same g f
      | Raise _ => false
      end && plain (float_repr f)
  end.

Definition keptb (e : Employee) : bool :=
  plain (emp_id e) && plain (name e) && plain (department e)
  && plain (joining_date e)
  && reads_backb (salary e) && reads_backb (performance_score e).

(* ================================================================== *)
(** * Example data *)

Definition score (tenths : Z) : number := Float (float_of_decimal false tenths (-1)).

Definition ali : Employee :=
  mk_Employee "EMP0001" "Ali Khan" "HR" (Int 50000) "2025-06-01" (score 75).

Definition sara : Employee :=
  mk_Employee "EMP0002" "Sara Malik" "Engineering" (Int 70000) "2024-11-15" (score 91).

Definition omar : Employee :=
  mk_Employee "EMP0003" "Omar Ali" "HR" (Int 90000) "2023-02-28" (score 75).

Definition staff : list Employee := [ali; sara; omar].

(** 2026-02-01 09:05:07 *)
Definition noon : datetime := mk_datetime 739648 9 5 7.

(** The report of the three employees. *)
Definition staff_report : list string :=
  [ "================================================================================";
    "EMPLOYEE DATA ANALYSIS REPORT";
    "================================================================================";
    "Generated: 2026-02-01 09:05:07";
    "Total Employees Analyzed: 3";
    "";
    "DEPARTMENT STATISTICS:";
    "--------------------------------------------------------------------------------";
    String LF "Engineering:";
    "  Number of Employees: 1";
    "  Average Salary: $70,000.00";
    "  Average Performance Score: 9.10/10";
    String LF "HR:";
    "  Number of Employees: 2";
    "  Average Salary: $70,000.00";
    "  Average Performance Score: 7.50/10";
    "";
    "TOP 10 PERFORMERS:";
    "--------------------------------------------------------------------------------";
    " 1. Sara Malik                (Engineering ) - Score: 9.1/10";
    " 2. Ali Khan                  (HR          ) - Score: 7.5/10";
    " 3. Omar Ali                  (HR          ) - Score: 7.5/10";
    "";
    "SALARY DISTRIBUTION:";
    "--------------------------------------------------------------------------------";
    "0-50k       :   0 employees (  0.0%) ";
    "50k-70k     :   1 employees ( 33.3%) ████████████████";
    "70k-90k     :   1 employees ( 33.3%) ████████████████";
    "90k-100k    :   1 employees ( 33.3%) ████████████████";
    "100k+       :   0 employees (  0.0%) ";
    "";
    "OVERALL STATISTICS:";
    "--------------------------------------------------------------------------------";
    "Average Salary (All Departments): $70,000.00";
    "Median Salary: $70,000.00";
    "Salary Range: $50,000.00 - $90,000.00";
    "Average Performance Score: 8.03/10";
    "";
    "================================================================================";
    "End of Report";
    "================================================================================" ].

(** An [int] salary too large to convert to [float]. *)
Definition tycoon : Employee :=
  mk_Employee "EMP0001" "Zara Sheikh" "Finance" (Int (2 ^ 1024)) "2025-06-01" (score 75).

(** The draws follow a counter; the clock stands still. *)
Definition demo_candidates : list Float64.float :=
  [ float_of_decimal false 725 (-2);
    float_of_decimal false 996 (-2);
    float_of_decimal false 5 0 ].

Definition demo_uniform (a b : Float64.float) (w : nat) : Float64.float * nat :=
  let c := nth (Nat.modulo (Nat.div w 6) 3) demo_candidates a in
  if py_le (Float a) (Float c) && py_le (Float c) (Float b) then (c, S w)
  else (a, S w).

Definition demo_world : World nat :=
  mk_World nat
    (fun n w => ((7 * Z.of_nat w + 3) mod n, S w))
    demo_uniform
    (fun w => (noon, w)).

(** The three records the generator draws from the counter 0. *)
Definition demo_staff : list Employee :=
  [ mk_Employee "EMP0001" "Ayesha Siddiqui" "Marketing" (Int 45024) "2026-01-01" (score 72);
    mk_Employee "EMP0002" "Nadia Islam" "Finance" (Int 60066) "2025-11-20" (score 100);
    mk_Employee "EMP0003" "Zara Ali" "Sales" (Int 50108) "2025-10-09" (score 50) ].

(** The three employees in another order. *)
Definition shuffled_staff : list Employee := [omar; ali; sara].

(** A system that accepts every write. *)
Definition demo_system : System nat :=
  mk_System nat
    (fun m filename text => (Ok tt, dict_set (files m) filename text))
    (fun m s => (Ok tt, console m ++ [s])).

(** A system whose files cannot be written. *)
Definition read_only_system : System nat :=
  mk_System nat
    (fun m filename text => (Raise OSError, files m))
    (fun m s => (Ok tt, console m ++ [s])).

(** A name with a carriage return in it. *)
Definition karim : Employee :=
  mk_Employee "EMP0004" (String "K" (String CR "Karim")) "Sales" (Int 61000)
    "2025-01-20" (score 88).

(** The same record with the carriage return turned into a line feed. *)
Definition karim_reloaded : Employee :=
  mk_Employee "EMP0004" (String "K" (String LF "Karim")) "Sales"
    (Float (float_of_decimal false 61000 0)) "2025-01-20" (score 88).

(** What [load_from_csv] returns for a file [save_to_csv] has written. *)
Definition reload (employees : list Employee) : result (list Employee) :=
  FileManager.load_from_csv
    (FileManager.save_to_csv [] employees "employees.csv") "employees.csv".

(** The records agree field for field, the numeric fields as floats. *)
Definition same_number (a b : number) : bool :=
  match to_float a, to_float b with
  | Ok x, Ok y => py_eq (Float x) (Float y)
  | _, _ => false
  end.

Definition same_record (a b : Employee) : bool :=
  String.eqb (emp_id a) (emp_id b) && String.eqb (name a) (name b)
  && String.eqb (department a) (department b)
  && same_number (salary a) (salary b)
  && String.eqb (joining_date a) (joining_date b)
  && same_number (performance_score a) (performance_score b).

(* ================================================================== *)
(** * Properties *)

(** ** The error monad *)

Lemma bind_Ok {A B : Type} (c : result A) (k : A -> result B) (b : B) :
  bind c k = Ok b -> exists a, c = Ok a /\ k a = Ok b.
Proof.
  destruct c as [a|e]; simpl; intros H; [eauto | discriminate].
Qed.

Lemma bind_Raise {A B : Type} (c : result A) (k : A -> result B) (e : exn) :
  bind c k = Raise e -> c = Raise e \/ exists a, c = Ok a /\ k a = Raise e.
Proof.
  destruct c as [a|e']; simpl; intros H; [right; eauto | left; congruence].
Qed.

Lemma mapM_length {A B : Type} (f : A -> result B) (l : list A) (r : list B) :
  mapM f l = Ok r -> List.length r = List.length l.
Proof.
  revert r; induction l as [|x l IH]; simpl; intros r H.
  - inversion H; reflexivity.
  - apply bind_Ok in H as (y & _ & H).
    apply bind_Ok in H as (ys & Hys & H).
    inversion H; subst; simpl; f_equal; auto.
Qed.

Lemma mapM_Forall2 {A B : Type} (f : A -> result B) (l : list A) (r : list B) :
  mapM f l = Ok r -> Forall2 (fun x y => f x = Ok y) l r.
Proof.
  revert r; induction l as [|x l IH]; simpl; intros r H.
  - inversion H; constructor.
  - apply bind_Ok in H as (y & Hy & H).
    apply bind_Ok in H as (ys & Hys & H).
    inversion H; subst; constructor; auto.
Qed.

Lemma mapM_total {A B : Type} (f : A -> result B) (l : list A) :
  Forall (fun x => exists y, f x = Ok y) l -> exists r, mapM f l = Ok r.
Proof.
  induction 1 as [|x l (y & Hy) _ (r & Hr)]; simpl.
  - eauto.
  - rewrite Hy, Hr; simpl; eauto.
Qed.

Lemma mapM_Raise {A B : Type} (f : A -> result B) (l : list A) (e : exn) :
  mapM f l = Raise e -> exists x, In x l /\ f x = Raise e.
Proof.
  induction l as [|x l IH]; simpl; intros H; [discriminate|].
  apply bind_Raise in H as [H | (y & Hy & H)]; [eauto|].
  apply bind_Raise in H as [H | (ys & Hys & H)]; [|discriminate].
  destruct (IH H) as (x' & Hin & Hx'); eauto.
Qed.

(** ** Order of numbers *)

Lemma xcompare_antisym (a b : xvalue) : xcompare b a = CompOpp (xcompare a b).
Proof.
  destruct a, b; simpl; try reflexivity.
  symmetry. apply Qcompare_antisym.
Qed.

Lemma xle_trans (a b c : xvalue) : xle a b -> xle b c -> xle a c.
Proof.
  unfold xle; destruct a as [|p|], b as [|q|], c as [|r|]; simpl;
    try congruence.
  intros H1 H2 H3.
  apply Qgt_alt in H3.
  assert (Hpq : (p <= q)%Q) by (apply Qle_alt; exact H1).
  assert (Hqr : (q <= r)%Q) by (apply Qle_alt; exact H2).
  apply (Qlt_irrefl r).
  eapply Qlt_le_trans; [exact H3|].
  eapply Qle_trans; eassumption.
Qed.

Lemma xcompare_Eq_trans (a b c : xvalue) :
  xcompare a c = Eq -> xcompare b c = Eq -> xcompare b a = Eq.
Proof.
  destruct a as [|p|], b as [|q|], c as [|r|]; simpl; try congruence.
  intros H1 H2.
  apply Qeq_alt in H1. apply Qeq_alt in H2. apply Qeq_alt.
  rewrite H1, H2. reflexivity.
Qed.

Lemma value_not_NaN (x : number) : is_NaN x = false -> exists v, value x = Some v.
Proof.
  destruct x as [z|f]; simpl; [eauto|].
  destruct f; simpl; intros H; try discriminate; eauto.
Qed.

Lemma py_lt_asym (a b : number) : py_lt a b = true -> py_lt b a = false.
Proof.
  unfold py_lt, py_compare.
  destruct (value a) as [x|], (value b) as [y|]; try discriminate.
  rewrite (xcompare_antisym x y).
  destruct (xcompare x y); simpl; congruence.
Qed.

Lemma py_lt_false_xle (a b : number) (x y : xvalue) :
  value a = Some x -> value b = Some y -> (py_lt a b = false <-> xle y x).
Proof.
  intros Ha Hb. unfold py_lt, py_compare, xle. rewrite Ha, Hb.
  rewrite (xcompare_antisym x y).
  destruct (xcompare x y); simpl; split; congruence.
Qed.

(** Among numbers that are not NaN, "not less than" is transitive. *)
Lemma py_ge_trans (a b c : number) :
  is_NaN a = false -> is_NaN b = false -> is_NaN c = false ->
  py_lt a b = false -> py_lt b c = false -> py_lt a c = false.
Proof.
  intros Ha Hb Hc.
  destruct (value_not_NaN a Ha) as (x & Hx).
  destruct (value_not_NaN b Hb) as (y & Hy).
  destruct (value_not_NaN c Hc) as (z & Hz).
  rewrite (py_lt_false_xle a b x y Hx Hy).
  rewrite (py_lt_false_xle b c y z Hy Hz).
  rewrite (py_lt_false_xle a c x z Hx Hz).
  intros H1 H2. eapply xle_trans; eassumption.
Qed.

(** Two numbers equal to a third are not less than one another. *)
Lemma py_eq_not_lt (a b v : number) :
  py_eq a v = true -> py_eq b v = true -> py_lt b a = false.
Proof.
  unfold py_eq, py_lt, py_compare.
  destruct (value a) as [x|], (value b) as [y|], (value v) as [z|];
    try discriminate.
  intros H1 H2.
  assert (E : xcompare y x = Eq).
  { apply (xcompare_Eq_trans x y z).
    - destruct (xcompare x z); congruence.
    - destruct (xcompare y z); congruence. }
  rewrite E; reflexivity.
Qed.

(** ** The stable sort *)

Section SortFacts.
Context {A : Type}.
Variable less : A -> A -> bool.

Lemma insert_perm (x : A) (l : list A) : Permutation (insert less x l) (x :: l).
Proof.
  induction l as [|y l IH]; simpl; [reflexivity|].
  destruct (less y x).
  - rewrite IH. apply perm_swap.
  - reflexivity.
Qed.

Lemma sort_asc_perm (l : list A) : Permutation (sort_asc less l) l.
Proof.
  induction l as [|x l IH]; simpl; [reflexivity|].
  rewrite insert_perm. constructor. exact IH.
Qed.

(** Elements of a class that [less] never separates keep their order. *)
Lemma insert_filter (P : A -> bool) (x : A) (l : list A) :
  (forall y, P x = true -> P y = true -> less y x = false) ->
  filter P (insert less x l) = filter P (x :: l).
Proof.
  intros HP. induction l as [|y l IH]; simpl; [reflexivity|].
  destruct (less y x) eqn:Hyx; [|reflexivity].
  simpl. rewrite IH. simpl.
  destruct (P x) eqn:Px, (P y) eqn:Py; try reflexivity.
  rewrite (HP y eq_refl Py) in Hyx. discriminate.
Qed.

Lemma sort_asc_filter (P : A -> bool) (l : list A) :
  (forall x y, P x = true -> P y = true -> less y x = false) ->
  filter P (sort_asc less l) = filter P l.
Proof.
  intros HP. induction l as [|x l IH]; simpl; [reflexivity|].
  rewrite insert_filter by (intros y; apply HP).
  simpl. rewrite IH. reflexivity.
Qed.

(** Sortedness, for elements on which "not less" is transitive. *)
Variable good : A -> Prop.
Hypothesis less_asym : forall a b, less a b = true -> less b a = false.
Hypothesis ge_trans : forall a b c, good a -> good b -> good c ->
  less a b = false -> less b c = false -> less a c = false.

Lemma insert_sorted (x : A) (l : list A) :
  good x -> Forall good l ->
  StronglySorted (ascending less) l -> StronglySorted (ascending less) (insert less x l).
Proof.
  intros Gx Gl Hs. induction Hs as [|y l Hs IH Hy]; simpl.
  - repeat constructor.
  - inversion Gl as [|? ? Gy Gl']; subst.
    destruct (less y x) eqn:Hyx.
    + constructor; [auto|].
      rewrite (insert_perm x l). constructor; [|exact Hy].
      unfold ascending. apply less_asym. exact Hyx.
    + constructor; [constructor; assumption|].
      constructor; [exact Hyx|].
      rewrite Forall_forall in Hy, Gl'. apply Forall_forall. intros z Hz.
      unfold ascending in *.
      apply (ge_trans z y x); auto.
Qed.

Lemma sort_asc_sorted (l : list A) :
  Forall good l -> StronglySorted (ascending less) (sort_asc less l).
Proof.
  induction 1 as [|x l Gx Gl IH]; simpl; [constructor|].
  apply insert_sorted; auto.
  rewrite (sort_asc_perm l). exact Gl.
Qed.
End SortFacts.

Lemma StronglySorted_app {A : Type} (R : A -> A -> Prop) (l1 l2 : list A) :
  StronglySorted R l1 -> StronglySorted R l2 ->
  (forall a b, In a l1 -> In b l2 -> R a b) ->
  StronglySorted R (l1 ++ l2).
Proof.
  intros H1 H2 H. induction H1 as [|x l1 H1 IH Hx]; simpl; [exact H2|].
  constructor.
  - apply IH. intros a b Ha Hb. apply H; [right; exact Ha | exact Hb].
  - apply Forall_app. split; [exact Hx|].
    apply Forall_forall. intros b Hb. apply H; [left; reflexivity | exact Hb].
Qed.

Lemma StronglySorted_rev {A : Type} (R : A -> A -> Prop) (l : list A) :
  StronglySorted R l -> StronglySorted (fun a b => R b a) (rev l).
Proof.
  induction 1 as [|x l Hs IH Hx]; simpl; [constructor|].
  apply StronglySorted_app; [exact IH | repeat constructor |].
  intros a b Ha Hb. destruct Hb as [<-|[]].
  rewrite Forall_forall in Hx. apply Hx. apply in_rev. exact Ha.
Qed.

Lemma filter_rev_comm {A : Type} (P : A -> bool) (l : list A) :
  filter P (rev l) = rev (filter P l).
Proof.
  induction l as [|x l IH]; simpl; [reflexivity|].
  rewrite filter_app, IH. simpl. destruct (P x); simpl.
  - reflexivity.
  - rewrite app_nil_r. reflexivity.
Qed.


(** ** Ranking: [get_top_performers] *)

Lemma sorted_employees_perm (emps : list Employee) :
  Permutation (sorted_employees emps) emps.
Proof.
  unfold sorted_employees, sorted.
  rewrite <- (Permutation_rev (sort_asc _ (rev emps))).
  rewrite sort_asc_perm. symmetry. apply Permutation_rev.
Qed.

Lemma sorted_employees_length (emps : list Employee) :
  List.length (sorted_employees emps) = List.length emps.
Proof. apply Permutation_length, sorted_employees_perm. Qed.

Lemma sorted_employees_stable (emps : list Employee) (v : number) :
  with_score v (sorted_employees emps) = with_score v emps.
Proof.
  unfold with_score, sorted_employees, sorted.
  rewrite filter_rev_comm, sort_asc_filter, filter_rev_comm, rev_involutive.
  - reflexivity.
  - intros x y Hx Hy. simpl in *. eapply py_eq_not_lt; eassumption.
Qed.

Lemma sorted_employees_descending (emps : list Employee) :
  scores_ordered emps -> StronglySorted not_below (sorted_employees emps).
Proof.
  intros Hn. unfold sorted_employees, sorted.
  apply (StronglySorted_rev
           (ascending (fun a b => py_lt (performance_score a) (performance_score b)))).
  apply sort_asc_sorted
    with (good := fun e => is_NaN (performance_score e) = false).
  - intros a b. apply py_lt_asym.
  - intros a b c Ha Hb Hc. apply py_ge_trans; assumption.
  - apply Forall_rev. exact Hn.
Qed.

Lemma slice_to_nonneg {A : Type} (l : list A) (n : Z) :
  0 <= n -> slice_to l n = firstn (Z.to_nat n) l.
Proof.
  intros Hn. unfold slice_to.
  destruct (Z.ltb_spec n 0); [lia | reflexivity].
Qed.

Lemma slice_to_negative {A : Type} (l : list A) (n : Z) :
  n < 0 -> slice_to l n = firstn (Z.to_nat (len l + n)) l.
Proof.
  intros Hn. unfold slice_to.
  destruct (Z.ltb_spec n 0); [|lia].
  destruct (Z.max_spec 0 (len l + n)) as [[_ ->]|[Hle ->]]; [reflexivity|].
  replace (Z.to_nat (len l + n)) with O by lia. reflexivity.
Qed.

(** C2: for every list of employees whose scores are ordered (none is NaN)
    and every [n >= 0], [get_top_performers n] is the first [n] elements of
    the ranking; the ranking is a rearrangement of the list, descending by
    score, in which employees of equal score keep their source order; for
    [n = 0] the result is empty and for [n] beyond the length it is the
    whole ranking. *)
Theorem top_performers_ranking (emps : list Employee) (n : Z) :
  scores_ordered emps -> 0 <= n ->
  get_top_performers emps n = firstn (Z.to_nat n) (sorted_employees emps)
  /\ Permutation (sorted_employees emps) emps
  /\ StronglySorted not_below (sorted_employees emps)
  /\ (forall v, with_score v (sorted_employees emps) = with_score v emps)
  /\ get_top_performers emps 0 = []
  /\ (len emps <= n -> get_top_performers emps n = sorted_employees emps).
Proof.
  intros Hs Hn. unfold get_top_performers.
  rewrite (slice_to_nonneg _ n Hn).
  repeat split.
  - apply sorted_employees_perm.
  - apply sorted_employees_descending, Hs.
  - intros v. apply sorted_employees_stable.
  - intros Hlen. apply firstn_all2.
    rewrite sorted_employees_length. unfold len in Hlen. lia.
Qed.

(** C10, as the code has it: for a negative [n], [get_top_performers n]
    is the first [len + n] elements of the ranking when [-len < n], a
    non-empty proper prefix, and is empty when [n <= -len]; on a non-empty
    list it is never the whole ranking. *)
Theorem top_performers_negative (emps : list Employee) (n : Z) :
  n < 0 ->
  (- len emps < n ->
     get_top_performers emps n
       = firstn (Z.to_nat (len emps + n)) (sorted_employees emps)
     /\ 0 < len (get_top_performers emps n) < len emps)
  /\ (n <= - len emps -> get_top_performers emps n = [])
  /\ (emps <> [] -> get_top_performers emps n <> sorted_employees emps).
Proof.
  intros Hn. unfold get_top_performers.
  rewrite (slice_to_negative _ n Hn).
  assert (Hlen : len (sorted_employees emps) = len emps)
    by (unfold len; rewrite sorted_employees_length; reflexivity).
  rewrite Hlen.
  assert (Hfirst : len (firstn (Z.to_nat (len emps + n)) (sorted_employees emps))
                   = Z.max 0 (len emps + n)).
  { unfold len at 1. rewrite length_firstn, sorted_employees_length.
    unfold len. rewrite Nat.min_l by lia. lia. }
  repeat split.
  - lia.
  - lia.
  - intros Hle. replace (Z.to_nat (len emps + n)) with O by lia. reflexivity.
  - intros Hne Heq.
    rewrite Heq, Hlen in Hfirst.
    assert (0 < len emps) by (destruct emps; [congruence | unfold len; simpl; lia]).
    lia.
Qed.

(** ** Salary ranges: [get_salary_range_distribution] *)

Lemma members_cons (label : string) (e : Employee) (emps : list Employee) :
  members label (e :: emps) = falls_in label e + members label emps.
Proof.
  unfold members, falls_in. simpl filter.
  destruct (String.eqb (salary_range e) label); unfold len;
    [simpl List.length|]; lia.
Qed.

Lemma salary_range_cases (e : Employee) :
  salary_range e = "0-50k" \/ salary_range e = "50k-70k" \/
  salary_range e = "70k-90k" \/ salary_range e = "90k-100k" \/
  salary_range e = "100k+".
Proof.
  unfold salary_range.
  destruct (py_lt (salary e) (Int 50000)); [tauto|].
  destruct (py_lt (salary e) (Int 70000)); [tauto|].
  destruct (py_lt (salary e) (Int 90000)); [tauto|].
  destruct (py_lt (salary e) (Int 100000)); tauto.
Qed.

Lemma falls_in_total (e : Employee) :
  falls_in "0-50k" e + falls_in "50k-70k" e + falls_in "70k-90k" e
  + falls_in "90k-100k" e + falls_in "100k+" e = 1.
Proof.
  unfold falls_in.
  destruct (salary_range_cases e) as [H|[H|[H|[H|H]]]]; rewrite H; reflexivity.
Qed.

(** One round of the counting loop. *)
Lemma increment_counts (c1 c2 c3 c4 c5 : Z) (e : Employee) :
  increment [("0-50k", c1); ("50k-70k", c2); ("70k-90k", c3);
             ("90k-100k", c4); ("100k+", c5)] (salary_range e)
  = [("0-50k", c1 + falls_in "0-50k" e);
     ("50k-70k", c2 + falls_in "50k-70k" e);
     ("70k-90k", c3 + falls_in "70k-90k" e);
     ("90k-100k", c4 + falls_in "90k-100k" e);
     ("100k+", c5 + falls_in "100k+" e)].
Proof.
  unfold falls_in.
  destruct (salary_range_cases e) as [H|[H|[H|[H|H]]]]; rewrite H;
    unfold increment; simpl; rewrite !Z.add_0_r; reflexivity.
Qed.

Lemma distribution_loop (emps : list Employee) (c1 c2 c3 c4 c5 : Z) :
  fold_left (fun ranges emp => increment ranges (salary_range emp)) emps
    [("0-50k", c1); ("50k-70k", c2); ("70k-90k", c3);
     ("90k-100k", c4); ("100k+", c5)]
  = [("0-50k", c1 + members "0-50k" emps);
     ("50k-70k", c2 + members "50k-70k" emps);
     ("70k-90k", c3 + members "70k-90k" emps);
     ("90k-100k", c4 + members "90k-100k" emps);
     ("100k+", c5 + members "100k+" emps)].
Proof.
  revert c1 c2 c3 c4 c5.
  induction emps as [|e emps IH]; intros c1 c2 c3 c4 c5; simpl fold_left.
  - unfold members, len. simpl. rewrite !Z.add_0_r. reflexivity.
  - rewrite increment_counts, IH, !members_cons, !Z.add_assoc. reflexivity.
Qed.

Lemma distribution_counts (emps : list Employee) :
  get_salary_range_distribution emps
  = [("0-50k", members "0-50k" emps);
     ("50k-70k", members "50k-70k" emps);
     ("70k-90k", members "70k-90k" emps);
     ("90k-100k", members "90k-100k" emps);
     ("100k+", members "100k+" emps)].
Proof.
  unfold get_salary_range_distribution. simpl map.
  rewrite distribution_loop. reflexivity.
Qed.

Lemma members_total (emps : list Employee) :
  members "0-50k" emps + members "50k-70k" emps + members "70k-90k" emps
  + members "90k-100k" emps + members "100k+" emps = len emps.
Proof.
  induction emps as [|e emps IH].
  - reflexivity.
  - rewrite !members_cons.
    replace (len (e :: emps)) with (1 + len emps)
      by (unfold len; simpl List.length; lia).
    pose proof (falls_in_total e). lia.
Qed.

Lemma members_nonneg (label : string) (emps : list Employee) :
  0 <= members label emps.
Proof. unfold members, len. lia. Qed.


(** ** Binary64 rounding: magnitudes and signs *)

Lemma digits2_pos_log2 (p : positive) : Zpos (digits2_pos p) = Z.log2 (Zpos p) + 1.
Proof.
  induction p as [p IH|p IH|]; simpl digits2_pos.
  - rewrite Pos2Z.inj_succ, IH.
    change (Zpos p~1) with (2 * Zpos p + 1).
    rewrite Z.log2_succ_double by lia. lia.
  - rewrite Pos2Z.inj_succ, IH.
    change (Zpos p~0) with (2 * Zpos p).
    rewrite Z.log2_double by lia. lia.
  - reflexivity.
Qed.

Lemma Zdigits2_log2 (m : Z) : 0 < m -> Zdigits2 m = Z.log2 m + 1.
Proof.
  destruct m as [|p|p]; try lia. intros _. apply digits2_pos_log2.
Qed.

Lemma Zdigits2_nonneg (m : Z) : 0 <= Zdigits2 m.
Proof. destruct m; simpl; lia. Qed.

Lemma Zdigits2_pos (m : Z) : 0 < m -> 0 < Zdigits2 m.
Proof. destruct m; simpl; lia. Qed.

(** [2^(d-1) <= m < 2^d] for [d] the number of binary digits of [m > 0]. *)
Lemma Zdigits2_bounds (m : Z) :
  0 < m -> 2 ^ (Zdigits2 m - 1) <= m < 2 ^ Zdigits2 m.
Proof.
  intros Hm. rewrite (Zdigits2_log2 m Hm).
  replace (Z.log2 m + 1 - 1) with (Z.log2 m) by lia.
  replace (Z.log2 m + 1) with (Z.succ (Z.log2 m)) by lia.
  apply Z.log2_spec. exact Hm.
Qed.

Lemma Zdigits2_le (m d : Z) : 0 <= d -> 0 <= m < 2 ^ d -> Zdigits2 m <= d.
Proof.
  intros Hd [H0 Hm].
  destruct (Z.eq_dec m 0) as [->|Hne]; [simpl; lia|].
  rewrite Zdigits2_log2 by lia.
  assert (Z.log2 m < d) by (apply Z.log2_lt_pow2; lia). lia.
Qed.

Lemma Zdigits2_ge (m d : Z) : 0 <= d -> 2 ^ d <= m -> d + 1 <= Zdigits2 m.
Proof.
  intros Hd Hm.
  assert (0 < 2 ^ d) by (apply Z.pow_pos_nonneg; lia).
  rewrite Zdigits2_log2 by lia.
  assert (d <= Z.log2 m) by (apply Z.log2_le_pow2; lia). lia.
Qed.

Lemma shr_1_m (mrs : shr_record) :
  0 <= shr_m mrs -> shr_m (shr_1 mrs) = shr_m mrs / 2.
Proof.
  destruct mrs as [m r s]. simpl. intros Hm.
  destruct m as [|[p|p|]|p]; try lia; simpl shr_m.
  - reflexivity.
  - change (Zpos p~1) with (2 * Zpos p + 1).
    apply Z.div_unique with 1; lia.
  - change (Zpos p~0) with (2 * Zpos p).
    apply Z.div_unique with 0; lia.
  - reflexivity.
Qed.

Lemma shr_1_nonneg (mrs : shr_record) : 0 <= shr_m mrs -> 0 <= shr_m (shr_1 mrs).
Proof.
  intros H. rewrite shr_1_m by exact H. apply Z.div_pos; lia.
Qed.

Lemma iter_shr_m (p : positive) (mrs : shr_record) :
  0 <= shr_m mrs ->
  shr_m (iter_pos shr_1 p mrs) = shr_m mrs / 2 ^ Zpos p.
Proof.
  revert mrs. induction p as [p IH|p IH|]; intros mrs Hm; simpl iter_pos.
  - assert (H1 : 0 <= shr_m (shr_1 mrs)) by (apply shr_1_nonneg, Hm).
    assert (H2 : 0 <= shr_m (iter_pos shr_1 p (shr_1 mrs))).
    { rewrite IH by exact H1. apply Z.div_pos; [lia|]. apply Z.pow_pos_nonneg; lia. }
    rewrite IH by exact H2. rewrite IH by exact H1. rewrite shr_1_m by exact Hm.
    rewrite !Z.div_div by (try apply Z.pow_pos_nonneg; lia).
    f_equal. change (Zpos p~1) with (2 * Zpos p + 1).
    rewrite Z.pow_add_r, Z.pow_mul_r by lia. change (2 ^ 2) with 4.
    replace (4 ^ Zpos p) with (2 ^ Zpos p * 2 ^ Zpos p).
    + change (2 ^ 1) with 2. ring.
    + rewrite <- Z.pow_mul_l. reflexivity.
  - assert (H2 : 0 <= shr_m (iter_pos shr_1 p mrs)).
    { rewrite IH by exact Hm. apply Z.div_pos; [lia|]. apply Z.pow_pos_nonneg; lia. }
    rewrite IH by exact H2. rewrite IH by exact Hm.
    rewrite !Z.div_div by (try apply Z.pow_pos_nonneg; lia).
    f_equal. change (Zpos p~0) with (2 * Zpos p).
    rewrite Z.pow_mul_r by lia. change (2 ^ 2) with 4.
    rewrite <- Z.pow_mul_l. reflexivity.
  - rewrite shr_1_m by exact Hm. reflexivity.
Qed.

Lemma fexp64 (e : Z) : fexp 53 1024 e = Z.max (e - 53) (-1074).
Proof. reflexivity. Qed.

Lemma shr_record_of_loc_m (m : Z) (l : location) : shr_m (shr_record_of_loc m l) = m.
Proof. destruct l as [|[]]; reflexivity. Qed.

(** The first component of [shr_fexp] is the mantissa divided by the power
    of two that brings the exponent up to [fexp]. *)
Lemma shr_fexp_spec (m e : Z) (l : location) :
  0 <= m ->
  let n := Z.max 0 (fexp 53 1024 (Zdigits2 m + e) - e) in
  shr_m (fst (shr_fexp 53 1024 m e l)) = m / 2 ^ n
  /\ snd (shr_fexp 53 1024 m e l) = e + n.
Proof.
  intros Hm n. unfold shr_fexp, shr. subst n.
  destruct (fexp 53 1024 (Zdigits2 m + e) - e) as [|p|p] eqn:E; simpl fst; simpl snd.
  - rewrite shr_record_of_loc_m. simpl. rewrite Z.div_1_r. lia.
  - rewrite iter_shr_m by (rewrite shr_record_of_loc_m; exact Hm).
    rewrite shr_record_of_loc_m.
    replace (Z.max 0 (Zpos p)) with (Zpos p) by lia. split; reflexivity.
  - rewrite shr_record_of_loc_m.
    replace (Z.max 0 (Zneg p)) with 0 by lia.
    simpl. rewrite Z.div_1_r. lia.
Qed.

Lemma round_nearest_even_bounds (m : Z) (l : location) :
  m <= round_nearest_even m l <= m + 1.
Proof.
  unfold round_nearest_even. destruct l as [|[]]; try lia.
  destruct (Z.even m); lia.
Qed.

Lemma div_pow2_pos (m n : Z) : 0 <= n -> 2 ^ n <= m -> 0 < m / 2 ^ n.
Proof.
  intros Hn Hm. apply Z.div_str_pos. split; [|exact Hm].
  apply Z.pow_pos_nonneg; lia.
Qed.

Lemma div_pow2_digits (m n : Z) :
  0 <= m -> 0 <= n -> 0 < m / 2 ^ n -> Zdigits2 (m / 2 ^ n) = Zdigits2 m - n.
Proof.
  intros Hm Hn Hq.
  assert (Hp : 0 < 2 ^ n) by (apply Z.pow_pos_nonneg; lia).
  assert (Hle : 2 ^ n <= m).
  { destruct (Z.lt_ge_cases m (2 ^ n)) as [Hlt|]; [|assumption].
    rewrite Z.div_small in Hq by lia. lia. }
  assert (Hm0 : 0 < m) by lia.
  rewrite (Zdigits2_log2 _ Hq), (Zdigits2_log2 _ Hm0).
  rewrite <- Z.shiftr_div_pow2 by exact Hn.
  rewrite Z.log2_shiftr by exact Hm0.
  assert (n <= Z.log2 m) by (apply Z.log2_le_pow2; lia). lia.
Qed.

Lemma Zdigits2_succ (m : Z) : 0 <= m -> Zdigits2 (m + 1) <= Zdigits2 m + 1.
Proof.
  intros Hm. destruct (Z.eq_dec m 0) as [->|Hne]; [simpl; lia|].
  assert (H0 : 0 < m) by lia.
  pose proof (Zdigits2_bounds m H0) as [_ Hub].
  pose proof (Zdigits2_pos m H0) as Hd.
  apply Zdigits2_le; [lia|].
  rewrite Z.pow_add_r by lia. change (2 ^ 1) with 2. lia.
Qed.

Lemma Zdigits2_mono (a b : Z) : 0 <= a <= b -> Zdigits2 a <= Zdigits2 b.
Proof.
  intros [Ha Hab].
  destruct (Z.eq_dec a 0) as [->|Hne]; [apply Zdigits2_nonneg|].
  rewrite !Zdigits2_log2 by lia.
  assert (Z.log2 a <= Z.log2 b) by (apply Z.log2_le_mono; lia). lia.
Qed.

(** What rounding yields for a mantissa that is aligned (its exponent does
    not exceed the one of its binade) and of magnitude below [2^K]: zero, or
    a float of mantissa [m] and exponent [e] of magnitude below [2^(K+1)],
    replaced by an infinity when [e] exceeds the largest exponent; and not
    zero unless the magnitude is below the least subnormal. *)
Lemma binary_round_aux_spec (s : bool) (mx ex : Z) (lx : location) (K : Z) :
  0 <= mx ->
  ex <= fexp 53 1024 (Zdigits2 mx + ex) ->
  Zdigits2 mx + ex <= K -> -1074 <= K ->
  exists m e,
    binary_round_aux 53 1024 s mx ex lx
    = match m with
      | Z0 => S754_zero s
      | Zpos p => if e <=? 971 then S754_finite s p e else S754_infinity s
      | Zneg _ => S754_nan
      end
    /\ 0 <= m
    /\ e <= Z.max (K - 52) (-1074)
    /\ (0 < m -> Zdigits2 m + e <= K + 1)
    /\ (0 < mx -> -1074 < Zdigits2 mx + ex -> 0 < m).
Proof.
  intros Hmx Hal HK Klo.
  unfold binary_round_aux.
  pose proof (shr_fexp_spec mx ex lx Hmx) as [Hm1 He1].
  destruct (shr_fexp 53 1024 mx ex lx) as [mrs1 e1]. simpl fst in Hm1. simpl snd in He1.
  set (d := Zdigits2 mx) in *.
  set (n1 := Z.max 0 (fexp 53 1024 (d + ex) - ex)) in *.
  assert (Hn1 : n1 = fexp 53 1024 (d + ex) - ex) by lia.
  assert (Hn1' : 0 <= n1) by lia.
  set (m1 := shr_m mrs1) in *.
  assert (Hm1nn : 0 <= m1).
  { rewrite Hm1. apply Z.div_pos; [exact Hmx | apply Z.pow_pos_nonneg; lia]. }
  assert (Hd1 : 0 < m1 -> Zdigits2 m1 = d - n1).
  { intros H. rewrite Hm1. apply div_pow2_digits; try assumption.
    rewrite <- Hm1. exact H. }
  pose proof (round_nearest_even_bounds m1 (loc_of_shr_record mrs1)) as Hm2.
  set (m2 := round_nearest_even m1 (loc_of_shr_record mrs1)) in *.
  assert (Hm2nn : 0 <= m2) by lia.
  pose proof (shr_fexp_spec m2 e1 loc_Exact Hm2nn) as [Hm3 He3].
  destruct (shr_fexp 53 1024 m2 e1 loc_Exact) as [mrs3 e3].
  simpl fst in Hm3. simpl snd in He3.
  set (n2 := Z.max 0 (fexp 53 1024 (Zdigits2 m2 + e1) - e1)) in *.
  assert (Hn2 : 0 <= n2) by lia.
  set (m3 := shr_m mrs3) in *.
  assert (Hm3nn : 0 <= m3).
  { rewrite Hm3. apply Z.div_pos; [exact Hm2nn | apply Z.pow_pos_nonneg; lia]. }
  assert (En1 : n1 = Z.max 0 (Z.max (d + ex - 53) (-1074) - ex)) by reflexivity.
  assert (En2 : n2 = Z.max 0 (Z.max (Zdigits2 m2 + e1 - 53) (-1074) - e1))
    by reflexivity.
  rewrite fexp64 in Hal, Hn1.
  clearbody n1 n2.
  (* the magnitude after the first rounding *)
  assert (Hd2 : Zdigits2 m2 + e1 <= K + 1 /\ Zdigits2 m2 <= 54).
  { destruct (Z.eq_dec m1 0) as [E|E].
    - assert (Zdigits2 m2 <= 1).
      { apply (Zdigits2_le m2 1); [lia|]. change (2 ^ 1) with 2. lia. }
      lia.
    - assert (H1 : 0 < m1) by lia. specialize (Hd1 H1).
      assert (Zdigits2 m2 <= Zdigits2 m1 + 1).
      { etransitivity; [apply (Zdigits2_mono m2 (m1 + 1)); lia|].
        apply Zdigits2_succ; lia. }
      lia. }
  assert (He3' : e3 <= Z.max (K - 52) (-1074)) by lia.
  assert (Hd3 : 0 < m3 -> Zdigits2 m3 + e3 <= K + 1).
  { intros H. unfold m3 in *. rewrite Hm3 in *.
    rewrite div_pow2_digits by assumption. lia. }
  exists m3, e3.
  split; [reflexivity|]. split; [assumption|]. split; [assumption|].
  split; [assumption|].
  intros Hpos Hnorm.
  assert (H1 : 0 < m1).
  { rewrite Hm1. apply div_pow2_pos; [lia|].
    pose proof (Zdigits2_bounds mx Hpos) as [Hlb _]. fold d in Hlb.
    etransitivity; [|exact Hlb].
    apply Z.pow_le_mono_r; lia. }
  assert (H2 : 0 < m2) by lia.
  rewrite Hm3. apply div_pow2_pos; [lia|].
  pose proof (Zdigits2_bounds m2 H2) as [Hlb _].
  pose proof (Zdigits2_pos m2 H2).
  etransitivity; [|exact Hlb].
  apply Z.pow_le_mono_r; lia.
Qed.

Lemma below_finite (K : Z) (f : Float64.float) : below K f -> Float64.is_finite f = true.
Proof. destruct f; simpl; tauto. Qed.

Lemma below_mono (K K' : Z) (f : Float64.float) : K <= K' -> below K f -> below K' f.
Proof. destruct f; simpl; try tauto. lia. Qed.

(** Rounding an aligned mantissa of magnitude below [2^K], [K <= 1023],
    overflows neither to an infinity nor to NaN, and keeps the sign. *)
Lemma binary_round_aux_below (s : bool) (mx ex : Z) (lx : location) (K : Z) :
  0 <= mx ->
  ex <= fexp 53 1024 (Zdigits2 mx + ex) ->
  Zdigits2 mx + ex <= K -> -1074 <= K -> K <= 1023 ->
  below (K + 1) (binary_round_aux 53 1024 s mx ex lx)
  /\ Float64.sign (binary_round_aux 53 1024 s mx ex lx) = s.
Proof.
  intros Hmx Hal HK Klo Khi.
  destruct (binary_round_aux_spec s mx ex lx K Hmx Hal HK Klo)
    as (m & e & -> & Hm & He & Hd & _).
  destruct m as [|p|p]; try lia.
  - simpl. auto.
  - destruct (Z.leb_spec e 971); [|lia].
    simpl. split; [|reflexivity]. apply Hd. lia.
Qed.

(** Rounding a non-zero aligned mantissa above the least subnormal never
    yields zero. *)
Lemma binary_round_aux_nonzero (s : bool) (mx ex : Z) (lx : location) :
  0 < mx ->
  ex <= fexp 53 1024 (Zdigits2 mx + ex) ->
  -1074 < Zdigits2 mx + ex ->
  Float64.is_zero (binary_round_aux 53 1024 s mx ex lx) = false.
Proof.
  intros Hmx Hal Hlo.
  destruct (binary_round_aux_spec s mx ex lx (Zdigits2 mx + ex))
    as (m & e & -> & Hm & He & Hd & Hnz); try lia.
  specialize (Hnz Hmx Hlo).
  destruct m as [|p|p]; try lia.
  destruct (e <=? 971); reflexivity.
Qed.

Lemma pos_iter_xO (m d : positive) : Zpos (Pos.iter xO m d) = Zpos m * 2 ^ Zpos d.
Proof.
  induction d as [|d IH] using Pos.peano_ind.
  - simpl. lia.
  - rewrite Pos.iter_succ, Pos2Z.inj_xO, IH, Pos2Z.inj_succ, Z.pow_succ_r by lia.
    ring.
Qed.

Lemma shl_align_spec (mx : positive) (ex ex' : Z) :
  let '(mz, ez) := shl_align mx ex ex' in
  ez = Z.min ex ex' /\ Zpos mz = Zpos mx * 2 ^ (ex - ez).
Proof.
  unfold shl_align. destruct (ex' - ex) as [|d|d] eqn:E.
  - split; [lia|]. replace (ex - ex) with 0 by lia. simpl. lia.
  - split; [lia|]. replace (ex - ex) with 0 by lia. simpl. lia.
  - split; [lia|]. rewrite pos_iter_xO. f_equal. f_equal. lia.
Qed.

Lemma Zdigits2_mul_pow2 (m n : Z) : 0 < m -> 0 <= n -> Zdigits2 (m * 2 ^ n) = Zdigits2 m + n.
Proof.
  intros Hm Hn.
  assert (0 < 2 ^ n) by (apply Z.pow_pos_nonneg; lia).
  rewrite !Zdigits2_log2 by lia.
  rewrite Z.log2_mul_pow2 by lia. lia.
Qed.

(** Converting a non-zero integer never yields a zero float. *)
Lemma of_Z_nonzero (z : Z) : z <> 0 -> Float64.is_zero (Float64.of_Z z) = false.
Proof.
  intros Hz. unfold Float64.of_Z, binary_normalize.
  assert (H : forall s p, Float64.is_zero (binary_round 53 1024 s p 0) = false).
  { intros s p. unfold binary_round.
    pose proof (shl_align_spec p 0 (fexp 53 1024 (Zpos (digits2_pos p) + 0))) as Hs.
    destruct (shl_align p 0 _) as [mz ez]. destruct Hs as [Hez Hmz].
    assert (Hd : Zdigits2 (Zpos mz) + ez = Zpos (digits2_pos p)).
    { rewrite Hmz, Zdigits2_mul_pow2 by lia. simpl Zdigits2. lia. }
    apply binary_round_aux_nonzero; [lia | |].
    - rewrite Hd. rewrite Z.add_0_r in Hez. lia.
    - rewrite Hd. lia. }
  destruct z; [congruence | apply H | apply H].
Qed.

(** The quotient the division core hands to the rounding is aligned, and
    its magnitude is bounded by the difference of the operands'. *)
Lemma SFdiv_core_spec (m1 e1 m2 e2 : Z) :
  0 < m1 -> 0 < m2 ->
  let '(q, e', l) := SFdiv_core_binary 53 1024 m1 e1 m2 e2 in
  0 <= q
  /\ e' <= fexp 53 1024 (Zdigits2 q + e')
  /\ Zdigits2 q + e' <= Z.max (Zdigits2 m1 + e1 - (Zdigits2 m2 + e2) + 1) (-1074).
Proof.
  intros H1 H2. unfold SFdiv_core_binary.
  set (d1 := Zdigits2 m1). set (d2 := Zdigits2 m2).
  set (e' := Z.min (fexp 53 1024 (d1 + e1 - (d2 + e2))) (e1 - e2)).
  set (s := e1 - e2 - e').
  set (m' := match s with Zpos _ => Z.shiftl m1 s | Z0 => m1 | Zneg _ => 0 end).
  assert (Ee' : e' = Z.min (Z.max (d1 + e1 - (d2 + e2) - 53) (-1074)) (e1 - e2))
    by reflexivity.
  assert (Es : s = e1 - e2 - e') by reflexivity.
  assert (Hs : 0 <= s) by lia.
  assert (Em' : m' = m1 * 2 ^ s).
  { unfold m'. destruct s as [|p|p]; try lia.
    apply Z.shiftl_mul_pow2. lia. }
  clearbody e' s m'.
  destruct (Z.div_eucl m' m2) as [q r] eqn:E.
  assert (Eq : q = m' / m2) by (unfold Z.div; rewrite E; reflexivity).
  assert (Hp : 0 < 2 ^ s) by (apply Z.pow_pos_nonneg; lia).
  assert (Hm' : 0 < m') by (rewrite Em'; lia).
  assert (Hq : 0 <= q) by (rewrite Eq; apply Z.div_pos; lia).
  assert (Hdm' : Zdigits2 m' = d1 + s).
  { rewrite Em'. apply Zdigits2_mul_pow2; lia. }
  pose proof (Zdigits2_bounds m' Hm') as [Hm'lo Hm'hi]. rewrite Hdm' in *.
  pose proof (Zdigits2_bounds m2 H2) as [Hm2lo Hm2hi]. fold d2 in Hm2lo, Hm2hi.
  pose proof (Zdigits2_pos m1 H1) as Hd1. fold d1 in Hd1.
  pose proof (Zdigits2_pos m2 H2) as Hd2. fold d2 in Hd2.
  assert (Hqm : q * m2 <= m').
  { rewrite Eq, Z.mul_comm. apply Z.mul_div_le. lia. }
  (* the quotient has at most [d1 + s - d2 + 1] digits *)
  assert (Hup : Zdigits2 q <= Z.max 0 (d1 + s - d2 + 1)).
  { destruct (Z.eq_dec q 0) as [->|Hq0]; [simpl; lia|].
    assert (Hlt : q * 2 ^ (d2 - 1) < 2 ^ (d1 + s)) by nia.
    destruct (Z.lt_ge_cases (d1 + s - d2 + 1) 0) as [Hneg|Hnn].
    - exfalso.
      assert (2 ^ (d1 + s) <= 2 ^ (d2 - 1)) by (apply Z.pow_le_mono_r; lia).
      nia.
    - replace (Z.max 0 (d1 + s - d2 + 1)) with (d1 + s - d2 + 1) by lia.
      apply Zdigits2_le; [lia|]. split; [lia|].
      replace (d1 + s) with (d1 + s - d2 + 1 + (d2 - 1)) in Hlt by lia.
      rewrite Z.pow_add_r in Hlt by lia.
      assert (0 < 2 ^ (d2 - 1)) by (apply Z.pow_pos_nonneg; lia).
      nia. }
  (* and at least 53 of them unless its exponent is the least one *)
  assert (Hlow : -1074 < e' -> 53 <= Zdigits2 q).
  { intros He'.
    assert (Ha : 52 <= d1 + s - 1 - d2) by lia.
    assert (Hge : 2 ^ (d1 + s - 1 - d2) <= q).
    { rewrite Eq. apply Z.div_le_lower_bound; [lia|].
      replace (d1 + s - 1) with (d2 + (d1 + s - 1 - d2)) in Hm'lo by lia.
      rewrite Z.pow_add_r in Hm'lo by lia.
      assert (0 < 2 ^ (d1 + s - 1 - d2)) by (apply Z.pow_pos_nonneg; lia).
      nia. }
    pose proof (Zdigits2_ge q (d1 + s - 1 - d2)). lia. }
  rewrite fexp64.
  split; [exact Hq|]. split.
  - destruct (Z.le_gt_cases e' (-1074)); [lia|].
    specialize (Hlow ltac:(lia)). lia.
  - destruct (Z.eq_dec q 0) as [->|Hq0]; [simpl; lia|].
    assert (0 < Zdigits2 q) by (apply Zdigits2_pos; lia). lia.
Qed.

(** Dividing finite floats whose magnitudes differ by less than 1022
    binades gives zero or a finite float, with the sign of the quotient. *)
Lemma SFdiv_below (sx sy : bool) (mx my : positive) (ex ey : Z) (K : Z) :
  mag mx ex - mag my ey + 1 <= K -> -1074 <= K -> K <= 1023 ->
  below (K + 1) (Float64.div (S754_finite sx mx ex) (S754_finite sy my ey))
  /\ Float64.sign (Float64.div (S754_finite sx mx ex) (S754_finite sy my ey))
     = xorb sx sy.
Proof.
  intros HK Klo Khi.
  unfold Float64.div, Float64.prec, Float64.emax, SFdiv, mag in *.
  pose proof (SFdiv_core_spec (Zpos mx) ex (Zpos my) ey ltac:(lia) ltac:(lia)) as H.
  destruct (SFdiv_core_binary 53 1024 (Zpos mx) ex (Zpos my) ey) as [[q e'] l].
  destruct H as (Hq & Hal & Hd). simpl Zdigits2 in Hd.
  apply binary_round_aux_below; try assumption. lia.
Qed.

(** Multiplying finite floats, one of which has a full mantissa. *)
Lemma SFmul_below (sx sy : bool) (mx my : positive) (ex ey : Z) (K : Z) :
  53 <= Zpos (digits2_pos my) ->
  mag mx ex + mag my ey <= K -> -1074 <= K -> K <= 1023 ->
  below (K + 1) (Float64.mul (S754_finite sx mx ex) (S754_finite sy my ey))
  /\ Float64.sign (Float64.mul (S754_finite sx mx ex) (S754_finite sy my ey))
     = xorb sx sy.
Proof.
  intros Hfull HK Klo Khi.
  unfold Float64.mul, Float64.prec, Float64.emax, SFmul, mag in *.
  assert (Hlo : Zdigits2 (Zpos my) <= Zdigits2 (Zpos (mx * my))).
  { apply Zdigits2_mono. nia. }
  assert (Hhi : Zdigits2 (Zpos (mx * my)) <= Zdigits2 (Zpos mx) + Zdigits2 (Zpos my)).
  { rewrite !Zdigits2_log2 by lia. rewrite Pos2Z.inj_mul.
    pose proof (Z.log2_mul_above (Zpos mx) (Zpos my) ltac:(lia) ltac:(lia)). lia. }
  simpl Zdigits2 in Hlo, Hhi.
  apply binary_round_aux_below; try assumption; try lia.
  - rewrite fexp64. simpl Zdigits2. lia.
  - simpl Zdigits2. lia.
Qed.

Lemma overflow_bound_large : 2 ^ 1023 < Float64.overflow_bound.
Proof. reflexivity. Qed.

Lemma to_float_100 :
  to_float (Int 100) = Ok (S754_finite false 7036874417766400 (-46)).
Proof. vm_compute. reflexivity. Qed.

Lemma to_float_2 :
  to_float (Int 2) = Ok (S754_finite false 4503599627370496 (-51)).
Proof. vm_compute. reflexivity. Qed.

(** On a float that is not negative, truncation is the floor. *)
Lemma int_of_float_floor (h : Float64.float) :
  Float64.is_finite h = true -> Float64.sign h = false ->
  exists n, int_of_float h = Ok n /\ float_floor h = Some n /\ 0 <= n.
Proof.
  destruct h as [s|s| |s m e]; simpl; try discriminate; intros _ Hs.
  - exists 0. repeat split; lia.
  - subst s. unfold float_floor, float_value, dyadic. simpl cond_Zopp.
    destruct (Z.leb_spec 0 e) as [He|He].
    + exists (Zpos m * 2 ^ e). rewrite Qfloor_Z. repeat split.
      assert (0 < 2 ^ e) by (apply Z.pow_pos_nonneg; lia). lia.
    + exists (Zpos m / 2 ^ (- e)).
      assert (Hp : 0 < 2 ^ (- e)) by (apply Z.pow_pos_nonneg; lia).
      repeat split.
      * unfold Qfloor. rewrite Z2Pos.id by exact Hp. reflexivity.
      * apply Z.div_pos; lia.
Qed.

(** The quotient of a count by the total is a float in [0, 2). *)
Lemma int_truediv_fraction (count total : Z) :
  0 <= count <= total -> 0 < total ->
  exists r, int_truediv count total = Ok r /\ below 2 r /\ Float64.sign r = false.
Proof.
  intros [H0 Hle] Ht. unfold int_truediv.
  destruct total as [|b|b]; try lia.
  destruct count as [|a|a]; try lia.
  - exists (S754_zero false). simpl. auto.
  - pose proof overflow_bound_large as HB.
    assert (0 < 2 ^ 1023) by (apply Z.pow_pos_nonneg; lia).
    destruct (Z.ltb_spec (Z.abs (Zpos a)) (Float64.overflow_bound * Z.abs (Zpos b)));
      [|nia].
    eexists. split; [reflexivity|].
    simpl xorb. unfold Float64.of_ratio.
    apply (SFdiv_below false false a b 0 0 1); try lia.
    unfold mag.
    pose proof (Zdigits2_mono (Zpos a) (Zpos b) ltac:(lia)) as Hm.
    simpl in Hm. lia.
Qed.

Lemma py_mul_float (r : Float64.float) (b : number) (f : Float64.float) :
  to_float b = Ok f -> py_mul (Float r) b = Ok (Float (Float64.mul r f)).
Proof. intros H. unfold py_mul. cbn [to_float bind]. rewrite H. reflexivity. Qed.

Lemma py_truediv_float (p : Float64.float) (b : number) (f : Float64.float) :
  to_float b = Ok f -> Float64.is_zero f = false ->
  py_truediv (Float p) b = Ok (Float (Float64.div p f)).
Proof.
  intros H Hz. unfold py_truediv. cbn [to_float bind]. rewrite H.
  cbn [bind]. rewrite Hz. reflexivity.
Qed.

(** The bar of a salary range: the percentage is a float in [0, 2^10),
    half of it is finite and not negative, and [int] of the half is its
    floor. *)
Lemma percentage_bar (count total : Z) :
  0 <= count <= total -> 0 < total ->
  exists p h n,
    percentage_of count total = Ok (Float p)
    /\ py_truediv (Float p) (Int 2) = Ok (Float h)
    /\ float_floor h = Some n
    /\ bar_length (Float p) = Ok n
    /\ 0 <= n.
Proof.
  intros Hc Ht.
  destruct (int_truediv_fraction count total Hc Ht) as (r & Hr & Hb & Hs).
  unfold percentage_of, bar_length.
  unfold py_truediv at 1. rewrite Hr. cbn [bind].
  rewrite (py_mul_float r (Int 100) _ to_float_100).
  set (c := S754_finite false 7036874417766400 (-46)).
  assert (Hp : below 10 (Float64.mul r c) /\ Float64.sign (Float64.mul r c) = false).
  { destruct r as [s|s| |s m e]; cbn [below Float64.sign] in Hb, Hs;
      try contradiction.
    - subst s. simpl. auto.
    - subst s. apply (SFmul_below false false m _ e (-46) 9); try lia.
      + vm_compute. discriminate.
      + unfold mag. change (Zpos (digits2_pos 7036874417766400)) with 53. lia. }
  destruct Hp as [Hpb Hps].
  set (p := Float64.mul r c) in *.
  exists p.
  rewrite (py_truediv_float p (Int 2) _ to_float_2 eq_refl).
  set (two := S754_finite false 4503599627370496 (-51)).
  assert (Hh : below 10 (Float64.div p two) /\ Float64.sign (Float64.div p two) = false).
  { destruct p as [s|s| |s m e]; cbn [below Float64.sign] in Hpb, Hps;
      try contradiction.
    - subst s. simpl. auto.
    - subst s. apply (SFdiv_below false false m _ e (-51) 9); try lia.
      unfold mag. change (Zpos (digits2_pos 4503599627370496)) with 53. lia. }
  destruct Hh as [Hhb Hhs].
  destruct (int_of_float_floor _ (below_finite _ _ Hhb) Hhs) as (n & Hn & Hf & Hn0).
  exists (Float64.div p two), n.
  repeat split; try assumption.
Qed.

(** ** Dictionaries *)

Lemma dict_get_set_same {V : Type} (d : dict V) (k : string) (v : V) :
  dict_get (dict_set d k v) k = Some v.
Proof.
  induction d as [|[k' v'] d IH]; simpl.
  - rewrite String.eqb_refl. reflexivity.
  - destruct (String.eqb k' k) eqn:E; simpl; rewrite E; [reflexivity | exact IH].
Qed.

Lemma dict_set_In {V : Type} (d : dict V) (k : string) (v : V) (kv : string * V) :
  In kv (dict_set d k v) -> snd kv = v \/ In kv d.
Proof.
  induction d as [|[k' v'] d IH]; simpl.
  - intros [<-|[]]. left; reflexivity.
  - destruct (String.eqb k' k); simpl.
    + intros [<-|H]; [left; reflexivity | right; right; exact H].
    + intros [<-|H]; [right; left; reflexivity|].
      destruct (IH H) as [E|Hin]; [left; exact E | right; right; exact Hin].
Qed.

Lemma dict_set_Forall {V : Type} (P : V -> Prop) (d : dict V) (k : string) (v : V) :
  Forall (fun kv => P (snd kv)) d -> P v ->
  Forall (fun kv => P (snd kv)) (dict_set d k v).
Proof.
  intros Hd Hv. apply Forall_forall. intros kv Hin.
  destruct (dict_set_In d k v kv Hin) as [->|H]; [exact Hv|].
  rewrite Forall_forall in Hd. exact (Hd kv H).
Qed.

(** Replacing the value just stored. *)
Lemma dict_set_set {V : Type} (d : dict V) (k : string) (v w : V) :
  dict_set (dict_set d k v) k w = dict_set d k w.
Proof.
  induction d as [|[k' v'] d IH]; simpl.
  - rewrite String.eqb_refl. reflexivity.
  - destruct (String.eqb k' k) eqn:E; simpl; rewrite E; [reflexivity|].
    rewrite IH. reflexivity.
Qed.

Lemma dict_get_In {V : Type} (d : dict V) (k : string) (v : V) :
  dict_get d k = Some v -> In (k, v) d.
Proof.
  induction d as [|[k' v'] d IH]; simpl; [discriminate|].
  destruct (String.eqb_spec k' k) as [->|Hne].
  - intros H. inversion H. left; reflexivity.
  - intros H. right. exact (IH H).
Qed.

(** ** Department statistics *)

(** One round of the aggregation, with the dictionary steps carried out. *)
Lemma aggregate_step_eq (dept_data : dict dept_totals) (emp : Employee) :
  aggregate_step dept_data emp
  = (total_salary <-
       py_add (acc_total_salary (entry_of dept_data emp)) (salary emp) ;;
     total_performance <-
       py_add (acc_total_performance (entry_of dept_data emp)) (performance_score emp) ;;
     Ok (dict_set dept_data (department emp)
           (mk_totals (acc_count (entry_of dept_data emp) + 1)
              total_salary total_performance
              (acc_employees (entry_of dept_data emp) ++ [emp])))).
Proof.
  unfold aggregate_step, entry_of, dict_mem, dict_lookup.
  destruct (dict_get dept_data (department emp)) as [t|] eqn:E; cbn [negb].
  - rewrite E. reflexivity.
  - rewrite dict_get_set_same. cbn [bind].
    destruct (py_add _ _); [|reflexivity]. cbn [bind].
    destruct (py_add _ _); [|reflexivity]. cbn [bind].
    rewrite dict_set_set. reflexivity.
Qed.

Lemma foldM_invariant {A B : Type} (P : B -> Prop) (body : B -> A -> result B)
  (l : list A) (acc r : B) :
  (forall b x b', P b -> body b x = Ok b' -> P b') ->
  P acc -> foldM body l acc = Ok r -> P r.
Proof.
  intros Hstep. revert acc. induction l as [|x l IH]; simpl; intros acc Hacc H.
  - inversion H; subst; exact Hacc.
  - apply bind_Ok in H as (b' & Hb' & H). eauto.
Qed.

Lemma entry_of_counts (dept_data : dict dept_totals) (emp : Employee) :
  Forall (fun kv => group_ok (snd kv)) dept_data ->
  0 <= acc_count (entry_of dept_data emp)
  /\ acc_count (entry_of dept_data emp) = len (acc_employees (entry_of dept_data emp)).
Proof.
  intros Hd. unfold entry_of.
  destruct (dict_get dept_data (department emp)) as [t|] eqn:E.
  - apply dict_get_In in E. rewrite Forall_forall in Hd.
    destruct (Hd _ E) as (H1 & H2 & _). simpl in *. lia.
  - simpl. split; [lia | reflexivity].
Qed.

Lemma aggregate_step_groups (dept_data : dict dept_totals) (emp : Employee)
  (dept_data' : dict dept_totals) :
  Forall (fun kv => group_ok (snd kv)) dept_data ->
  aggregate_step dept_data emp = Ok dept_data' ->
  Forall (fun kv => group_ok (snd kv)) dept_data'.
Proof.
  intros Hd H. rewrite aggregate_step_eq in H.
  apply bind_Ok in H as (ts & _ & H). apply bind_Ok in H as (tp & _ & H).
  inversion H; subst; clear H.
  destruct (entry_of_counts dept_data emp Hd) as [H0 Hlen].
  apply (dict_set_Forall group_ok); [exact Hd|].
  unfold group_ok; cbn [acc_count acc_employees]. repeat split.
  - lia.
  - rewrite Hlen. unfold len. rewrite length_app. simpl. lia.
  - intros E. apply app_eq_nil in E as [_ E]. discriminate.
Qed.

Lemma aggregate_groups (emps : list Employee) (dept_data : dict dept_totals) :
  aggregate emps = Ok dept_data ->
  Forall (fun kv => group_ok (snd kv)) dept_data.
Proof.
  apply (foldM_invariant (Forall (fun kv => group_ok (snd kv)))).
  - intros b x b'. apply aggregate_step_groups.
  - constructor.
Qed.

(** Adding two numbers can only fail by overflow. *)
Lemma to_float_Raise (x : number) (e : exn) : to_float x = Raise e -> e = OverflowError.
Proof.
  destruct x as [z|f]; simpl; [|discriminate].
  destruct (Z.abs z <? Float64.overflow_bound); congruence.
Qed.

Lemma py_add_Raise (a b : number) (e : exn) : py_add a b = Raise e -> e = OverflowError.
Proof.
  unfold py_add. intros H.
  assert (G : (fa <- to_float a ;; fb <- to_float b ;; Ok (Float (Float64.add fa fb)))
              = Raise e -> e = OverflowError).
  { clear H. intros H.
    apply bind_Raise in H as [H|(fa & _ & H)]; [exact (to_float_Raise _ _ H)|].
    apply bind_Raise in H as [H|(fb & _ & H)]; [exact (to_float_Raise _ _ H)|].
    discriminate. }
  destruct a, b; try (apply G; exact H). discriminate.
Qed.

(** Dividing by a non-zero [int] can only fail by overflow. *)
Lemma py_truediv_int_Raise (a : number) (n : Z) (e : exn) :
  n <> 0 -> py_truediv a (Int n) = Raise e -> e = OverflowError.
Proof.
  intros Hn. destruct a as [z|f]; unfold py_truediv.
  - intros H. apply bind_Raise in H as [H|(r & _ & H)]; [|discriminate].
    unfold int_truediv in H.
    destruct n as [|q|q]; [congruence| |];
      destruct z as [|p|p]; try discriminate;
      match type of H with
      | (if ?c then _ else _) = _ => destruct c; congruence
      end.
  - cbn [to_float bind].
    destruct (Z.abs n <? Float64.overflow_bound); cbn [bind]; [|congruence].
    rewrite (of_Z_nonzero n Hn). discriminate.
Qed.

Lemma aggregate_Raise (emps : list Employee) (e : exn) :
  aggregate emps = Raise e -> e = OverflowError.
Proof.
  unfold aggregate. generalize (@nil (string * dept_totals)) as d.
  induction emps as [|emp emps IH]; simpl; intros d H; [discriminate|].
  apply bind_Raise in H as [H|(d' & _ & H)]; [|exact (IH _ H)].
  rewrite aggregate_step_eq in H.
  apply bind_Raise in H as [H|(ts & _ & H)]; [exact (py_add_Raise _ _ _ H)|].
  apply bind_Raise in H as [H|(tp & _ & H)]; [exact (py_add_Raise _ _ _ H)|].
  discriminate.
Qed.

Lemma average_Raise (dept : string) (t : dept_totals) (e : exn) :
  acc_count t <> 0 -> average (dept, t) = Raise e -> e = OverflowError.
Proof.
  intros Hc H. unfold average in H.
  apply bind_Raise in H as [H|(a & _ & H)];
    [exact (py_truediv_int_Raise _ _ _ Hc H)|].
  apply bind_Raise in H as [H|(p & _ & H)];
    [exact (py_truediv_int_Raise _ _ _ Hc H)|].
  discriminate.
Qed.

(** C7: every group the aggregation builds has at least one member (its
    count is the number of its members, which is not zero), so the
    averages never divide by zero: the only way
    [get_department_statistics] can fail is the overflow of a conversion
    to [float], and every entry it returns has [count >= 1] and the
    quotients [total / count] as averages. *)
Theorem department_groups_nonempty (emps : list Employee) :
  (forall dept_data, aggregate emps = Ok dept_data ->
     Forall (fun kv => group_ok (snd kv)) dept_data)
  /\ (forall e, get_department_statistics emps = Raise e -> e = OverflowError)
  /\ (forall stats, get_department_statistics emps = Ok stats ->
        Forall (fun kv =>
                  1 <= count (snd kv)
                  /\ count (snd kv) = len (employees (snd kv))
                  /\ py_truediv (total_salary (snd kv)) (Int (count (snd kv)))
                     = Ok (avg_salary (snd kv))
                  /\ py_truediv (total_performance (snd kv)) (Int (count (snd kv)))
                     = Ok (avg_performance (snd kv))) stats).
Proof.
  split; [apply aggregate_groups|]. split.
  - intros e H. unfold get_department_statistics in H.
    apply bind_Raise in H as [H|(d & Hd & H)]; [exact (aggregate_Raise _ _ H)|].
    apply mapM_Raise in H as ([dept t] & Hin & H).
    pose proof (aggregate_groups _ _ Hd) as Hg. rewrite Forall_forall in Hg.
    destruct (Hg _ Hin) as (H1 & _). simpl in H1.
    apply (average_Raise dept t e); [lia | exact H].
  - intros stats H. unfold get_department_statistics in H.
    apply bind_Ok in H as (d & Hd & H).
    pose proof (aggregate_groups _ _ Hd) as Hg. clear Hd.
    apply mapM_Forall2 in H.
    induction H as [|[dept t] kv d' stats' Hkv _ IH]; [constructor|].
    inversion Hg as [|? ? Hg1 Hg2]; subst.
    constructor; [|exact (IH Hg2)].
    unfold average in Hkv.
    apply bind_Ok in Hkv as (a & Ha & Hkv). apply bind_Ok in Hkv as (p & Hp & Hkv).
    inversion Hkv; subst; clear Hkv. cbn [snd count employees total_salary
      total_performance avg_salary avg_performance].
    destruct Hg1 as (H1 & H2 & _). simpl in H1, H2. auto.
Qed.

(** ** The groups partition the employees *)

Lemma existsb_eqb_In (k : string) (l : list string) :
  existsb (String.eqb k) l = true <-> In k l.
Proof.
  rewrite existsb_exists. split.
  - intros (x & Hin & E). apply String.eqb_eq in E. subst. exact Hin.
  - intros H. exists k. split; [exact H | apply String.eqb_refl].
Qed.

Lemma dict_get_None {V : Type} (d : dict V) (k : string) :
  dict_get d k = None <-> ~ In k (map fst d).
Proof.
  induction d as [|[k' v'] d IH]; simpl.
  - tauto.
  - destruct (String.eqb_spec k' k) as [->|Hne].
    + split; [discriminate | intros H; exfalso; apply H; left; reflexivity].
    + rewrite IH. tauto.
Qed.

(** The keys after [d[k] = v]. *)
Lemma dict_set_keys {V : Type} (d : dict V) (k : string) (v : V) :
  map fst (dict_set d k v)
  = if existsb (String.eqb k) (map fst d) then map fst d else map fst d ++ [k].
Proof.
  induction d as [|[k' v'] d IH]; simpl; [reflexivity|].
  rewrite (String.eqb_sym k k').
  destruct (String.eqb_spec k' k) as [->|Hne]; simpl; [reflexivity|].
  rewrite IH. destruct (existsb (String.eqb k) (map fst d)); reflexivity.
Qed.

Lemma dict_set_In_key {V : Type} (d : dict V) (k : string) (v : V) (k' : string) (v' : V) :
  NoDup (map fst d) -> In (k', v') (dict_set d k v) ->
  (k' = k /\ v' = v) \/ (k' <> k /\ In (k', v') d).
Proof.
  induction d as [|[k0 v0] d IH]; simpl.
  - intros _ [E|[]]. inversion E; subst. left; split; reflexivity.
  - intros Hnd. inversion Hnd as [|? ? Hni Hnd']; subst.
    destruct (String.eqb_spec k0 k) as [->|Hne]; simpl.
    + intros [E|Hin].
      * inversion E; subst. left; split; reflexivity.
      * right. split; [|right; exact Hin].
        intros ->. apply Hni. apply (in_map fst) in Hin. exact Hin.
    + intros [E|Hin].
      * inversion E; subst. right. split; [exact Hne | left; reflexivity].
      * destruct (IH Hnd' Hin) as [H|[H1 H2]]; [left; exact H|].
        right. split; [exact H1 | right; exact H2].
Qed.

Lemma acc_counts_set (d : dict dept_totals) (k : string) (t : dept_totals) :
  acc_counts (dict_set d k t)
  = acc_counts d
    - match dict_get d k with Some old => acc_count old | None => 0 end
    + acc_count t.
Proof.
  unfold acc_counts. induction d as [|[k' v'] d IH]; simpl; [lia|].
  destruct (String.eqb k' k); simpl; [lia|]. rewrite IH. lia.
Qed.

Lemma first_appearances_snoc (ks : list string) (k : string) :
  first_appearances (ks ++ [k])
  = if existsb (String.eqb k) (first_appearances ks) then first_appearances ks
    else first_appearances ks ++ [k].
Proof. unfold first_appearances. rewrite fold_left_app. reflexivity. Qed.

Lemma first_appearances_In (ks : list string) (k : string) :
  In k (first_appearances ks) <-> In k ks.
Proof.
  induction ks as [|x ks IH] using rev_ind; [reflexivity|].
  rewrite first_appearances_snoc, in_app_iff.
  destruct (existsb (String.eqb x) (first_appearances ks)) eqn:E.
  - apply existsb_eqb_In in E. rewrite IH in *. simpl.
    split; [tauto|]. intros [H|[<-|[]]]; tauto.
  - rewrite in_app_iff, IH. reflexivity.
Qed.

Lemma first_appearances_NoDup (ks : list string) : NoDup (first_appearances ks).
Proof.
  induction ks as [|x ks IH] using rev_ind; [constructor|].
  rewrite first_appearances_snoc.
  destruct (existsb (String.eqb x) (first_appearances ks)) eqn:E; [exact IH|].
  apply NoDup_app; [exact IH | repeat constructor; intros [] |].
  intros a Ha [<-|[]].
  apply existsb_eqb_In in Ha. congruence.
Qed.

Lemma foldM_snoc {A B : Type} (body : B -> A -> result B) (l : list A) (x : A) (acc : B) :
  foldM body (l ++ [x]) acc = (b <- foldM body l acc ;; body b x).
Proof.
  revert acc. induction l as [|y l IH]; intros acc; simpl.
  - destruct (body acc x); reflexivity.
  - destruct (body acc y) as [b|e]; simpl; [apply IH | reflexivity].
Qed.

Lemma py_sum_snoc (l : list number) (x total total' : number) :
  py_sum l = Ok total -> py_add total x = Ok total' -> py_sum (l ++ [x]) = Ok total'.
Proof.
  unfold py_sum. intros H1 H2. rewrite foldM_snoc, H1. exact H2.
Qed.

Lemma members_of_snoc (k : string) (seen : list Employee) (emp : Employee) :
  members_of k (seen ++ [emp])
  = if String.eqb (department emp) k then members_of k seen ++ [emp]
    else members_of k seen.
Proof.
  unfold members_of. rewrite filter_app. simpl.
  destruct (String.eqb (department emp) k); [reflexivity | apply app_nil_r].
Qed.

Lemma members_of_absent (k : string) (seen : list Employee) :
  ~ In k (map department seen) -> members_of k seen = [].
Proof.
  unfold members_of. induction seen as [|e seen IH]; simpl; [reflexivity|].
  intros H. destruct (String.eqb_spec (department e) k) as [E|_]; [tauto|].
  apply IH. tauto.
Qed.

(** The entry the loop updates holds the members seen so far. *)
Lemma entry_of_group (seen : list Employee) (d : dict dept_totals) (emp : Employee) :
  grouped seen d -> group_of seen (department emp) (entry_of d emp).
Proof.
  intros (Hk & Hnd & Hg & _). unfold entry_of.
  destruct (dict_get d (department emp)) as [t|] eqn:E.
  - apply Hg. apply dict_get_In. exact E.
  - apply dict_get_None in E. rewrite Hk, first_appearances_In in E.
    unfold group_of. cbn [empty_totals acc_employees acc_count acc_total_salary
      acc_total_performance].
    rewrite (members_of_absent _ _ E). repeat split; reflexivity.
Qed.

Lemma aggregate_step_grouped (seen : list Employee) (d d' : dict dept_totals)
  (emp : Employee) :
  grouped seen d -> aggregate_step d emp = Ok d' -> grouped (seen ++ [emp]) d'.
Proof.
  intros Hd H. pose proof (entry_of_group seen d emp Hd) as (He & Hc & Hs & Hp).
  destruct Hd as (Hk & Hnd & Hg & Hsum).
  rewrite aggregate_step_eq in H.
  apply bind_Ok in H as (ts & Hts & H). apply bind_Ok in H as (tp & Htp & H).
  injection H as <-.
  assert (Hkeys : map fst (dict_set d (department emp)
                    (mk_totals (acc_count (entry_of d emp) + 1) ts tp
                       (acc_employees (entry_of d emp) ++ [emp])))
                  = first_appearances (map department (seen ++ [emp]))).
  { rewrite dict_set_keys, map_app. cbn [map].
    rewrite first_appearances_snoc, Hk. reflexivity. }
  split; [exact Hkeys|]. split; [rewrite Hkeys; apply first_appearances_NoDup|].
  split.
  - intros k t Hin. apply (dict_set_In_key _ _ _ _ _ Hnd) in Hin as [[-> ->]|[Hne Hin]].
    + unfold group_of. cbn [acc_employees acc_count acc_total_salary acc_total_performance].
      rewrite members_of_snoc, String.eqb_refl, He.
      split; [reflexivity|]. split.
      * rewrite Hc. unfold len. rewrite <- He, length_app. simpl. lia.
      * rewrite <- He, !map_app. cbn [map].
        split; [exact (py_sum_snoc _ _ _ _ Hs Hts) | exact (py_sum_snoc _ _ _ _ Hp Htp)].
    + destruct (Hg k t Hin) as (H1 & H2 & H3 & H4).
      unfold group_of. rewrite members_of_snoc.
      destruct (String.eqb_spec (department emp) k) as [E|_]; [congruence|].
      repeat split; assumption.
  - rewrite acc_counts_set. cbn [acc_count]. unfold entry_of.
    unfold len. rewrite length_app. simpl List.length.
    destruct (dict_get d (department emp)) as [t|]; cbn [empty_totals acc_count];
      unfold len in Hsum; lia.
Qed.

Lemma foldM_invariant_seen {A B : Type} (P : list A -> B -> Prop)
  (body : B -> A -> result B) (l seen : list A) (acc r : B) :
  (forall pre b x b', P pre b -> body b x = Ok b' -> P (pre ++ [x]) b') ->
  P seen acc -> foldM body l acc = Ok r -> P (seen ++ l) r.
Proof.
  intros Hstep. revert seen acc. induction l as [|x l IH]; simpl; intros seen acc Hacc H.
  - injection H as <-. rewrite app_nil_r. exact Hacc.
  - apply bind_Ok in H as (b' & Hb' & H).
    replace (seen ++ x :: l) with ((seen ++ [x]) ++ l) by (rewrite <- app_assoc; reflexivity).
    eapply IH; [|exact H]. eapply Hstep; eassumption.
Qed.

Lemma aggregate_grouped (emps : list Employee) (d : dict dept_totals) :
  aggregate emps = Ok d -> grouped emps d.
Proof.
  intros H.
  apply (foldM_invariant_seen grouped aggregate_step emps [] [] d); [| |exact H].
  - intros pre b x b'. apply aggregate_step_grouped.
  - split; [reflexivity|]. split; [constructor|]. split; [intros k t []|reflexivity].
Qed.

Lemma average_Ok (k : string) (t : dept_totals) (kv : string * dept_stats) :
  average (k, t) = Ok kv ->
  fst kv = k /\ count (snd kv) = acc_count t /\ employees (snd kv) = acc_employees t
  /\ total_salary (snd kv) = acc_total_salary t
  /\ total_performance (snd kv) = acc_total_performance t.
Proof.
  unfold average. intros H.
  apply bind_Ok in H as (a & _ & H). apply bind_Ok in H as (p & _ & H).
  injection H as <-. repeat split.
Qed.

(** The statistics are the averages of the groups of the loop, key by key. *)
Lemma statistics_of_groups (emps : list Employee) (stats : dict dept_stats) :
  get_department_statistics emps = Ok stats ->
  exists d,
    grouped emps d
    /\ Forall2 (fun x y => average x = Ok y) d stats
    /\ map fst stats = map fst d.
Proof.
  intros H. unfold get_department_statistics in H.
  apply bind_Ok in H as (d & Hd & H).
  apply aggregate_grouped in Hd. apply mapM_Forall2 in H.
  exists d. split; [exact Hd|]. split; [exact H|].
  clear - H. induction H as [|[k t] kv d' s' Hkv _ IH]; [reflexivity|].
  apply average_Ok in Hkv as (E & _). cbn [map fst]. rewrite E, IH. reflexivity.
Qed.

(** X1: the groups of [get_department_statistics] partition the employees
    by department: the keys are the departments in the order of their
    first appearance, each once; a group holds the employees of its
    department in source order, their number as count and the sums of
    their salaries and scores as totals; the counts add up to the number
    of employees. *)
Theorem department_statistics_partition (emps : list Employee) (stats : dict dept_stats) :
  get_department_statistics emps = Ok stats ->
  map fst stats = first_appearances (map department emps)
  /\ NoDup (map fst stats)
  /\ Forall (fun kv =>
               employees (snd kv) = members_of (fst kv) emps
               /\ count (snd kv) = len (employees (snd kv))
               /\ py_sum (map salary (employees (snd kv))) = Ok (total_salary (snd kv))
               /\ py_sum (map performance_score (employees (snd kv)))
                  = Ok (total_performance (snd kv))) stats
  /\ group_counts stats = len emps.
Proof.
  intros H.
  destruct (statistics_of_groups emps stats H) as (d & (Hk & Hnd & Hg & Hsum) & H' & Hkeys).
  clear H. rename H' into H.
  assert (Hd : Forall (fun kt => group_of emps (fst kt) (snd kt)) d).
  { apply Forall_forall. intros [k t] Hin. apply Hg. exact Hin. }
  clear Hg.
  rewrite Hkeys. split; [exact Hk|]. split; [exact Hnd|]. split.
  - clear - H Hd. induction H as [|[k t] kv d' s' Hkv _ IH]; [constructor|].
    inversion Hd as [|? ? Hg1 Hg2]; subst.
    constructor; [|exact (IH Hg2)].
    apply average_Ok in Hkv as (E1 & E2 & E3 & E4 & E5).
    destruct Hg1 as (G1 & G2 & G3 & G4). cbn [fst snd] in *.
    rewrite E1, E2, E3, E4, E5. repeat split; assumption.
  - rewrite <- Hsum. clear - H. unfold group_counts, acc_counts.
    induction H as [|[k t] kv d' s' Hkv _ IH]; [reflexivity|].
    apply average_Ok in Hkv as (_ & E & _). cbn [fold_right snd]. rewrite E, IH.
    reflexivity.
Qed.

Lemma department_statistics_partition_witness :
  exists stats,
    get_department_statistics staff = Ok stats
    /\ map fst stats = ["HR"; "Engineering"]
    /\ group_counts stats = 3.
Proof.
  destruct (get_department_statistics staff) as [stats|e] eqn:E.
  - exists stats. split; [reflexivity|].
    destruct (department_statistics_partition staff stats E) as (H1 & _ & _ & H4).
    split; [exact H1 | exact H4].
  - vm_compute in E. discriminate.
Defined.

(** ** The departments of the report *)

Lemma str_ltb_asym (a b : string) : str_ltb a b = true -> str_ltb b a = false.
Proof.
  revert b. induction a as [|x a IH]; intros [|y b]; simpl; try congruence.
  rewrite (Nat.compare_antisym (nat_of_ascii x) (nat_of_ascii y)).
  destruct (Nat.compare (nat_of_ascii x) (nat_of_ascii y)); simpl;
    try congruence. apply IH.
Qed.

Lemma str_ge_trans (a b c : string) :
  str_ltb a b = false -> str_ltb b c = false -> str_ltb a c = false.
Proof.
  revert b c. induction a as [|x a IH]; intros [|y b] [|z c]; simpl;
    try congruence.
  destruct (Nat.compare_spec (nat_of_ascii x) (nat_of_ascii y)) as [E|L|G];
    destruct (Nat.compare_spec (nat_of_ascii y) (nat_of_ascii z)) as [E'|L'|G'];
    try congruence; intros H1 H2.
  - rewrite E, E', Nat.compare_refl. eapply IH; eassumption.
  - rewrite E. destruct (Nat.compare_spec (nat_of_ascii y) (nat_of_ascii z)); [lia|lia|reflexivity].
  - rewrite <- E'. destruct (Nat.compare_spec (nat_of_ascii x) (nat_of_ascii y)); [lia|lia|reflexivity].
  - destruct (Nat.compare_spec (nat_of_ascii x) (nat_of_ascii z)); [lia|lia|reflexivity].
Qed.

Lemma str_ltb_total (a b : string) :
  str_ltb a b = false -> str_ltb b a = false -> a = b.
Proof.
  revert b. induction a as [|x a IH]; intros [|y b]; simpl; try congruence.
  rewrite (Nat.compare_antisym (nat_of_ascii x) (nat_of_ascii y)).
  destruct (Nat.compare_spec (nat_of_ascii x) (nat_of_ascii y)) as [E|L|G]; simpl;
    try congruence.
  intros H1 H2. f_equal; [|apply IH; assumption].
  rewrite <- (ascii_nat_embedding x), <- (ascii_nat_embedding y), E. reflexivity.
Qed.

Lemma sorted_names_strict (l : dict dept_stats) :
  NoDup (map fst l) ->
  StronglySorted (ascending (fun a b : string * dept_stats => str_ltb (fst a) (fst b))) l ->
  StronglySorted name_before l.
Proof.
  intros Hnd Hs. induction Hs as [|a l Hs IH Ha]; [constructor|].
  inversion Hnd as [|? ? Hni Hnd']; subst.
  constructor; [exact (IH Hnd')|].
  rewrite Forall_forall in *. intros b Hb. specialize (Ha b Hb).
  unfold ascending in Ha. unfold name_before.
  destruct (str_ltb (fst a) (fst b)) eqn:E; [reflexivity|].
  exfalso. apply Hni. rewrite (str_ltb_total _ _ E Ha).
  apply in_map. exact Hb.
Qed.

(** X4: the report shows the departments in alphabetical order (by
    character code), each department once. *)
Theorem report_departments_sorted (emps : list Employee) (stats : dict dept_stats) :
  get_department_statistics emps = Ok stats ->
  Permutation (shown_departments stats) stats
  /\ StronglySorted name_before (shown_departments stats)
  /\ (forall timestamp ls,
        report_lines timestamp emps = Ok ls ->
        exists header dept_lines rest,
          concatM department_lines (shown_departments stats) = Ok dept_lines
          /\ List.length header = 6%nat
          /\ ls = header ++ [ "DEPARTMENT STATISTICS:"; rule "-" ] ++ dept_lines
                  ++ [ "" ] ++ [ "TOP 10 PERFORMERS:"; rule "-" ] ++ rest).
Proof.
  intros H.
  assert (Hp : Permutation (shown_departments stats) stats).
  { unfold shown_departments, sorted. apply sort_asc_perm. }
  split; [exact Hp|]. split.
  - apply sorted_names_strict.
    + apply (Permutation_NoDup (l := map fst stats)).
      * apply Permutation_map. symmetry. exact Hp.
      * destruct (statistics_of_groups emps stats H) as (d & (_ & Hnd & _) & _ & ->).
        exact Hnd.
    + unfold shown_departments, sorted.
      apply (sort_asc_sorted _ (fun _ => True)).
      * intros a b. apply str_ltb_asym.
      * intros a b c _ _ _. apply str_ge_trans.
      * apply Forall_forall. intros; exact I.
  - intros timestamp ls Hr. unfold report_lines in Hr. cbv zeta in Hr.
    rewrite H in Hr. cbn [bind] in Hr.
    apply bind_Ok in Hr as (dls & Hdls & Hr).
    apply bind_Ok in Hr as (dist & _ & Hr). apply bind_Ok in Hr as (summary & _ & Hr).
    match type of Hr with
    | Ok (?h ++ ?a ++ dls ++ ?e1 ++ ?b ++ ?rest) = _ => exists h, dls, rest
    end.
    split; [exact Hdls|]. split; [reflexivity|]. congruence.
Qed.

Lemma report_departments_sorted_witness :
  exists stats,
    get_department_statistics staff = Ok stats
    /\ Permutation (shown_departments stats) stats
    /\ StronglySorted name_before (shown_departments stats).
Proof.
  destruct (get_department_statistics staff) as [stats|e] eqn:E.
  - exists stats. split; [reflexivity|].
    destruct (report_departments_sorted staff stats E) as (H1 & H2 & _).
    split; [exact H1 | exact H2].
  - vm_compute in E. discriminate.
Defined.

(** ** When the report is produced *)

Lemma SMALL_pos : 0 < SMALL.
Proof. reflexivity. Qed.

Lemma SMALL_sum_converts : MAX_LEN * SMALL < Float64.overflow_bound.
Proof. reflexivity. Qed.

Lemma MAX_LEN_value : MAX_LEN = 9223372036854775808.
Proof. reflexivity. Qed.

Lemma small_int_size (x : number) : small x -> int_size x < SMALL.
Proof. destruct x; simpl; [tauto|]. intros _. apply SMALL_pos. Qed.

Lemma to_float_small (x : number) :
  int_size x < Float64.overflow_bound -> exists f, to_float x = Ok f.
Proof.
  destruct x as [z|f]; simpl; [|eauto]. intros H.
  destruct (Z.ltb_spec (Z.abs z) Float64.overflow_bound); [eauto | lia].
Qed.

(** Adding a small field to the sum of [k] of them. *)
Lemma py_add_small (acc x : number) (k : Z) :
  0 <= k -> k + 1 <= MAX_LEN ->
  int_size acc <= k * SMALL -> small x ->
  exists r, py_add acc x = Ok r /\ int_size r <= (k + 1) * SMALL.
Proof.
  intros Hk Hmax Hacc Hx.
  pose proof SMALL_pos as HS. pose proof SMALL_sum_converts as HB.
  apply small_int_size in Hx.
  assert (Ha : int_size acc < Float64.overflow_bound) by nia.
  assert (Hb : int_size x < Float64.overflow_bound) by nia.
  destruct (to_float_small acc Ha) as (fa & Hfa).
  destruct (to_float_small x Hb) as (fb & Hfb).
  assert (G : exists r,
             (fa <- to_float acc ;; fb <- to_float x ;; Ok (Float (Float64.add fa fb)))
             = Ok r /\ int_size r <= (k + 1) * SMALL).
  { rewrite Hfa, Hfb. cbn [bind]. eexists. split; [reflexivity|]. simpl. nia. }
  destruct acc as [a|a], x as [z|z]; try exact G.
  exists (Int (a + z)). split; [reflexivity|]. simpl in *. lia.
Qed.

Lemma py_sum_from (l : list number) (acc : number) (k : Z) :
  0 <= k -> k + len l <= MAX_LEN ->
  int_size acc <= k * SMALL -> Forall small l ->
  exists r, foldM py_add l acc = Ok r /\ int_size r <= (k + len l) * SMALL.
Proof.
  revert acc k. induction l as [|x l IH]; intros acc k Hk Hmax Hacc Hl.
  - exists acc. split; [reflexivity|]. unfold len. simpl. lia.
  - inversion Hl as [|? ? Hx Hl']; subst.
    assert (Hlen : len (x :: l) = 1 + len l)
      by (unfold len; simpl List.length; lia).
    assert (0 <= len l) by (unfold len; lia).
    destruct (py_add_small acc x k Hk ltac:(lia) Hacc Hx) as (r & Hr & Hsz).
    destruct (IH r (k + 1) ltac:(lia) ltac:(lia) Hsz Hl') as (r' & Hr' & Hsz').
    exists r'. simpl. rewrite Hr. cbn [bind]. split; [exact Hr'|].
    rewrite Hlen. replace (k + (1 + len l)) with (k + 1 + len l) by lia. exact Hsz'.
Qed.

Lemma py_sum_small (l : list number) :
  len l <= MAX_LEN -> Forall small l ->
  exists r, py_sum l = Ok r /\ int_size r <= len l * SMALL.
Proof.
  intros Hlen Hl. unfold py_sum.
  destruct (py_sum_from l (Int 0) 0) as (r & Hr & Hsz); try lia; try assumption.
  - simpl. lia.
  - exists r. split; [exact Hr|]. simpl in Hsz. exact Hsz.
Qed.

(** True division by a positive [int] yields a float. *)
Lemma py_truediv_small (x : number) (n : Z) :
  int_size x < Float64.overflow_bound -> 0 < n < Float64.overflow_bound ->
  exists f, py_truediv x (Int n) = Ok (Float f).
Proof.
  intros Hx Hn. destruct x as [z|g]; unfold py_truediv.
  - simpl in Hx. unfold int_truediv.
    destruct n as [|q|q]; try lia.
    destruct z as [|p|p].
    + cbn [bind]. eauto.
    + destruct (Z.ltb_spec (Z.abs (Zpos p)) (Float64.overflow_bound * Z.abs (Zpos q)));
        [cbn [bind]; eauto | nia].
    + destruct (Z.ltb_spec (Z.abs (Zneg p)) (Float64.overflow_bound * Z.abs (Zpos q)));
        [cbn [bind]; eauto | nia].
  - cbn [to_float bind].
    destruct (Z.ltb_spec (Z.abs n) Float64.overflow_bound); [|lia].
    cbn [bind]. rewrite of_Z_nonzero by lia. eauto.
Qed.

Lemma format_f_float (width : Z) (grouping : bool) (places : Z) (f : Float64.float) :
  format_f width grouping places (Float f)
  = Ok (rjust width (float_fixed grouping places f)).
Proof. reflexivity. Qed.

Lemma format_f_small (width : Z) (grouping : bool) (places : Z) (x : number) :
  small x -> exists s, format_f width grouping places x = Ok s.
Proof.
  intros Hx. unfold format_f.
  pose proof SMALL_sum_converts. pose proof (small_int_size x Hx).
  pose proof SMALL_pos. rewrite MAX_LEN_value in *.
  destruct (to_float_small x ltac:(lia)) as (f & ->). cbn [bind]. eauto.
Qed.

Lemma mapM_total_with {A B : Type} (f : A -> result B) (Q : B -> Prop) (l : list A) :
  Forall (fun x => exists y, f x = Ok y /\ Q y) l ->
  exists r, mapM f l = Ok r /\ Forall Q r.
Proof.
  induction 1 as [|x l (y & Hy & Qy) _ (r & Hr & Qr)]; simpl.
  - eauto.
  - rewrite Hy, Hr. cbn [bind]. eauto.
Qed.

Lemma concatM_total {A B : Type} (f : A -> result (list B)) (l : list A) :
  Forall (fun x => exists y, f x = Ok y) l -> exists r, concatM f l = Ok r.
Proof.
  induction 1 as [|x l (y & Hy) _ (r & Hr)]; simpl.
  - eauto.
  - rewrite Hy, Hr. cbn [bind]. eauto.
Qed.

Lemma totals_small_mono (k k' : Z) (t : dept_totals) :
  k <= k' -> totals_small k t -> totals_small k' t.
Proof.
  intros Hk (H1 & H2 & H3). pose proof SMALL_pos.
  unfold totals_small. repeat split; try lia; nia.
Qed.

Lemma entry_of_small (dept_data : dict dept_totals) (emp : Employee) (k : Z) :
  0 <= k ->
  Forall (fun kv => totals_small k (snd kv)) dept_data ->
  totals_small k (entry_of dept_data emp).
Proof.
  intros Hk Hd. unfold entry_of.
  destruct (dict_get dept_data (department emp)) as [t|] eqn:E.
  - apply dict_get_In in E. rewrite Forall_forall in Hd. exact (Hd _ E).
  - pose proof SMALL_pos. unfold totals_small. simpl. repeat split; nia.
Qed.

Lemma aggregate_step_small (dept_data : dict dept_totals) (emp : Employee) (k : Z) :
  0 <= k -> k + 1 <= MAX_LEN -> small_fields emp ->
  Forall (fun kv => totals_small k (snd kv)) dept_data ->
  exists dept_data',
    aggregate_step dept_data emp = Ok dept_data'
    /\ Forall (fun kv => totals_small (k + 1) (snd kv)) dept_data'.
Proof.
  intros Hk Hmax [Hs Hp] Hd.
  destruct (entry_of_small dept_data emp k Hk Hd) as (H1 & H2 & H3).
  rewrite aggregate_step_eq.
  destruct (py_add_small _ _ k Hk Hmax H1 Hs) as (ts & -> & Hts).
  destruct (py_add_small _ _ k Hk Hmax H2 Hp) as (tp & -> & Htp).
  cbn [bind]. eexists. split; [reflexivity|].
  apply (dict_set_Forall (totals_small (k + 1))).
  - eapply Forall_impl; [|exact Hd].
    intros kv. apply totals_small_mono. lia.
  - unfold totals_small. cbn [acc_total_salary acc_total_performance acc_count].
    repeat split; try assumption; lia.
Qed.

Lemma aggregate_small_from (l : list Employee) (dept_data : dict dept_totals) (k : Z) :
  0 <= k -> k + len l <= MAX_LEN -> Forall small_fields l ->
  Forall (fun kv => totals_small k (snd kv)) dept_data ->
  exists dept_data',
    foldM aggregate_step l dept_data = Ok dept_data'
    /\ Forall (fun kv => totals_small (k + len l) (snd kv)) dept_data'.
Proof.
  revert dept_data k. induction l as [|emp l IH]; intros d k Hk Hmax Hl Hd.
  - exists d. split; [reflexivity|]. unfold len. simpl.
    rewrite Z.add_0_r. exact Hd.
  - inversion Hl as [|? ? He Hl']; subst.
    assert (Hlen : len (emp :: l) = 1 + len l)
      by (unfold len; simpl List.length; lia).
    assert (0 <= len l) by (unfold len; lia).
    destruct (aggregate_step_small d emp k Hk ltac:(lia) He Hd) as (d1 & Hd1 & Hs1).
    destruct (IH d1 (k + 1) ltac:(lia) ltac:(lia) Hl' Hs1) as (d2 & Hd2 & Hs2).
    exists d2. simpl. rewrite Hd1. cbn [bind]. split; [exact Hd2|].
    rewrite Hlen. replace (k + (1 + len l)) with (k + 1 + len l) by lia. exact Hs2.
Qed.

(** The statistics of a collection of records with small fields. *)
Lemma statistics_small (emps : list Employee) :
  len emps < MAX_LEN -> Forall small_fields emps ->
  exists stats,
    get_department_statistics emps = Ok stats
    /\ Forall (fun kv => exists a p, avg_salary (snd kv) = Float a
                                    /\ avg_performance (snd kv) = Float p) stats.
Proof.
  intros Hlen Hs. unfold get_department_statistics.
  destruct (aggregate_small_from emps [] 0) as (d & Hd & Hsm);
    try lia; try assumption; [constructor|].
  fold (aggregate emps) in Hd. rewrite Hd. cbn [bind].
  apply mapM_total_with.
  pose proof (aggregate_groups emps d Hd) as Hg.
  rewrite Forall_forall in *. intros [dept t] Hin.
  destruct (Hg _ Hin) as (Hc & _). destruct (Hsm _ Hin) as (H1 & H2 & H3).
  cbn [snd] in *.
  pose proof SMALL_sum_converts as HB. pose proof SMALL_pos as HS.
  assert (HM : 0 <= MAX_LEN) by (rewrite MAX_LEN_value; lia).
  unfold average.
  destruct (py_truediv_small (acc_total_salary t) (acc_count t)) as (a & ->);
    [nia | nia |].
  destruct (py_truediv_small (acc_total_performance t) (acc_count t)) as (p & ->);
    [nia | nia |].
  cbn [bind]. eexists. split; [reflexivity|]. cbn. eauto.
Qed.

Lemma department_lines_total (item : string * dept_stats) :
  (exists a p, avg_salary (snd item) = Float a /\ avg_performance (snd item) = Float p) ->
  exists ls, department_lines item = Ok ls.
Proof.
  destruct item as [dept stats]. cbn [snd]. intros (a & p & Ha & Hp).
  unfold department_lines. rewrite Ha, Hp, !format_f_float. cbn [bind]. eauto.
Qed.

(** The line of a salary range: its bar has as many blocks as the floor of
    half the percentage. *)
Lemma distribution_line_spec (total : Z) (label : string) (count : Z) :
  0 <= count <= total -> 0 < total ->
  exists p h n,
    percentage_of count total = Ok (Float p)
    /\ py_truediv (Float p) (Int 2) = Ok (Float h)
    /\ float_floor h = Some n
    /\ 0 <= n
    /\ distribution_line total (label, count)
       = Ok (format_s 12 label +++ ": " +++ format_d 3 count +++
             " employees (" +++ rjust 5 (float_fixed false 1 p) +++ "%) " +++
             py_str_mul BLOCK n).
Proof.
  intros Hc Ht.
  destruct (percentage_bar count total Hc Ht) as (p & h & n & Hp & Hh & Hf & Hb & Hn).
  exists p, h, n. repeat split; try assumption.
  unfold distribution_line. rewrite Hp. cbn [bind]. rewrite Hb. cbn [bind].
  rewrite format_f_float. reflexivity.
Qed.

Lemma distribution_lines_total (emps : list Employee) :
  emps <> [] ->
  exists ls,
    mapM (distribution_line (len emps)) (get_salary_range_distribution emps) = Ok ls.
Proof.
  intros Hne.
  assert (Ht : 0 < len emps) by (destruct emps; [congruence | unfold len; simpl; lia]).
  apply mapM_total. rewrite distribution_counts.
  pose proof (members_total emps) as Hsum.
  pose proof (members_nonneg "0-50k" emps). pose proof (members_nonneg "50k-70k" emps).
  pose proof (members_nonneg "70k-90k" emps). pose proof (members_nonneg "90k-100k" emps).
  pose proof (members_nonneg "100k+" emps).
  repeat constructor;
    match goal with
    | |- exists y, distribution_line ?t (?l, ?c) = Ok y =>
        destruct (distribution_line_spec t l c) as (p & h & n & _ & _ & _ & _ & ->);
          [lia | lia | eauto]
    end.
Qed.

Lemma py_index_in_range {A : Type} (l : list A) (i : Z) :
  0 <= i < len l -> exists x, py_index l i = Ok x /\ nth_error l (Z.to_nat i) = Some x.
Proof.
  intros [H0 Hi]. unfold py_index.
  destruct (Z.ltb_spec i 0); [lia|]. destruct (Z.ltb_spec i 0); [lia|].
  destruct (nth_error l (Z.to_nat i)) as [x|] eqn:E; [eauto|].
  apply nth_error_None in E. unfold len in Hi. lia.
Qed.

Lemma fold_pick_In {A : Type} (c : A -> A -> bool) (l : list A) (x : A) :
  In (fold_left (fun m y => if c y m then y else m) l x) (x :: l).
Proof.
  revert x. induction l as [|y l IH]; intros x; simpl; [auto|].
  destruct (c y x).
  - destruct (IH y) as [H|H]; [right; left; exact H | right; right; exact H].
  - destruct (IH x) as [H|H]; [left; exact H | right; right; exact H].
Qed.

Lemma py_min_In (l : list number) (x : number) : py_min l = Ok x -> In x l.
Proof.
  destruct l as [|y l]; simpl; [discriminate|]. intros H. inversion H.
  apply (fold_pick_In (fun y m => py_lt y m)).
Qed.

Lemma py_max_In (l : list number) (x : number) : py_max l = Ok x -> In x l.
Proof.
  destruct l as [|y l]; simpl; [discriminate|]. intros H. inversion H.
  apply (fold_pick_In (fun y m => py_gt y m)).
Qed.

(** The median index is always within a non-empty list. *)
Lemma median_salary_spec (emps : list Employee) :
  emps <> [] ->
  exists m,
    median_salary emps = Ok m
    /\ nth_error (sort_asc py_lt (all_salaries emps))
         (Nat.div (List.length emps) 2) = Some m
    /\ In m (all_salaries emps).
Proof.
  intros Hne. unfold median_salary, sorted.
  assert (Ht : 0 < len emps) by (destruct emps; [congruence | unfold len; simpl; lia]).
  assert (Hl : len (all_salaries emps) = len emps)
    by (unfold len, all_salaries; rewrite length_map; reflexivity).
  rewrite Hl.
  set (s := sort_asc (fun a b => py_lt a b) (all_salaries emps)).
  assert (Hp : Permutation s (all_salaries emps)) by apply sort_asc_perm.
  assert (Hs : len s = len emps).
  { unfold len. rewrite (Permutation_length Hp). exact Hl. }
  destruct (py_index_in_range s (len emps / 2)) as (m & Hm & Hn).
  { rewrite Hs. split; [apply Z.div_pos; lia | apply Z.div_lt; lia]. }
  exists m. split; [exact Hm|]. split.
  - replace (Nat.div (List.length emps) 2) with (Z.to_nat (len emps / 2)); [exact Hn|].
    unfold len. rewrite <- (Nat2Z.id (Nat.div _ 2)). f_equal.
    rewrite Nat2Z.inj_div. reflexivity.
  - apply (Permutation_in _ Hp). eapply nth_error_In. exact Hn.
Qed.

Lemma all_salaries_small (emps : list Employee) :
  Forall small_fields emps -> Forall small (all_salaries emps).
Proof.
  unfold all_salaries. induction 1 as [|e l [H _] _ IH]; simpl; constructor; auto.
Qed.

Lemma all_performances_small (emps : list Employee) :
  Forall small_fields emps -> Forall small (all_performances emps).
Proof.
  unfold all_performances. induction 1 as [|e l [_ H] _ IH]; simpl; constructor; auto.
Qed.

Lemma mean_total (l : list number) :
  0 < len l < MAX_LEN -> Forall small l ->
  exists total f, py_sum l = Ok total /\ py_truediv total (Int (len l)) = Ok (Float f).
Proof.
  intros Hlen Hl.
  destruct (py_sum_small l ltac:(lia) Hl) as (total & Ht & Hsz).
  pose proof SMALL_sum_converts as HB. pose proof SMALL_pos as HS.
  destruct (py_truediv_small total (len l)) as (f & Hf); [nia | nia |].
  eauto.
Qed.

Lemma overall_lines_total (emps : list Employee) :
  emps <> [] -> len emps < MAX_LEN -> Forall small_fields emps ->
  exists summary, overall_lines emps = Ok summary.
Proof.
  intros Hne Hlen Hs.
  assert (Ht : 0 < len emps) by (destruct emps; [congruence | unfold len; simpl; lia]).
  pose proof (all_salaries_small emps Hs) as Hsal.
  pose proof (all_performances_small emps Hs) as Hperf.
  assert (Hl1 : len (all_salaries emps) = len emps)
    by (unfold len, all_salaries; rewrite length_map; reflexivity).
  assert (Hl2 : len (all_performances emps) = len emps)
    by (unfold len, all_performances; rewrite length_map; reflexivity).
  unfold overall_lines. cbv zeta.
  destruct (mean_total (all_salaries emps) ltac:(lia) Hsal) as (total & mean & Ht1 & Ht2).
  rewrite Ht1. cbn [bind]. rewrite Ht2. cbn [bind]. rewrite format_f_float. cbn [bind].
  destruct (median_salary_spec emps Hne) as (median & -> & _ & Hin). cbn [bind].
  rewrite Forall_forall in Hsal.
  destruct (format_f_small 0 true 2 median (Hsal _ Hin)) as (mtxt & ->). cbn [bind].
  destruct (all_salaries emps) as [|x r] eqn:E.
  { unfold len in Hl1, Ht. simpl List.length in Hl1. lia. }
  destruct (py_min (x :: r)) as [lo|] eqn:Hlo; [|discriminate]. cbn [bind].
  destruct (format_f_small 0 true 2 lo (Hsal _ (py_min_In _ _ Hlo))) as (lotxt & ->).
  cbn [bind].
  destruct (py_max (x :: r)) as [hi|] eqn:Hhi; [|discriminate]. cbn [bind].
  destruct (format_f_small 0 true 2 hi (Hsal _ (py_max_In _ _ Hhi))) as (hitxt & ->).
  cbn [bind].
  destruct (mean_total (all_performances emps) ltac:(lia) Hperf)
    as (ptotal & pmean & Hp1 & Hp2).
  rewrite Hp1. cbn [bind]. rewrite Hp2. cbn [bind].
  rewrite format_f_float. cbn [bind]. eauto.
Qed.

(** The lines of the report are produced for every non-empty collection
    of small fields. *)
Lemma report_lines_total (timestamp : datetime) (emps : list Employee) :
  emps <> [] -> len emps < MAX_LEN -> Forall small_fields emps ->
  exists ls, report_lines timestamp emps = Ok ls.
Proof.
  intros Hne Hlen Hs. unfold report_lines.
  destruct (statistics_small emps Hlen Hs) as (stats & -> & Havg). cbn [bind].
  destruct (concatM_total department_lines (sorted str_ltb fst false stats))
    as (dls & ->).
  { unfold sorted. eapply Permutation_Forall.
    - symmetry. apply sort_asc_perm.
    - eapply Forall_impl; [|exact Havg]. intros item. apply department_lines_total. }
  cbn [bind].
  destruct (distribution_lines_total emps Hne) as (dist & ->). cbn [bind].
  destruct (overall_lines_total emps Hne Hlen Hs) as (summary & ->). cbn [bind].
  eauto.
Qed.

(** C1, as the code has it: on the empty collection the report raises
    ZeroDivisionError; on every non-empty collection of fewer than [2^63]
    employees whose [int] fields are below [2^960] in magnitude ([float]
    fields are unrestricted) it returns the report text. *)
Theorem report_raises_only_when_empty (timestamp : datetime) :
  generate_report timestamp [] = Raise ZeroDivisionError
  /\ (forall emps : list Employee,
        emps <> [] -> len emps < MAX_LEN -> Forall small_fields emps ->
        exists text, generate_report timestamp emps = Ok text).
Proof.
  split; [reflexivity|]. intros emps Hne Hlen Hs.
  unfold generate_report.
  destruct (report_lines_total timestamp emps Hne Hlen Hs) as (ls & ->).
  cbn [bind]. eauto.
Qed.

(** ** The lines of the report *)

Lemma report_lines_empty (timestamp : datetime) :
  report_lines timestamp [] = Raise ZeroDivisionError.
Proof. reflexivity. Qed.



Lemma nth_error_rev_tail {A : Type} (front back : list A) (i : nat) :
  (i < List.length back)%nat ->
  nth_error (rev (front ++ back)) i = nth_error (rev back) i.
Proof.
  intros Hi. rewrite rev_app_distr. apply nth_error_app1.
  rewrite length_rev. exact Hi.
Qed.








Lemma chars_app (a b : string) : chars (a +++ b) = chars a ++ chars b.
Proof.
  unfold chars. induction a as [|c a IH]; simpl; [reflexivity|].
  rewrite IH. reflexivity.
Qed.

Lemma py_len_app (a b : string) : py_len (a +++ b) = py_len a + py_len b.
Proof.
  unfold py_len. rewrite chars_app, filter_app, length_app. lia.
Qed.



Lemma py_truediv_Ok_float (a b r : number) :
  py_truediv a b = Ok r -> exists f, r = Float f.
Proof.
  unfold py_truediv. intros H.
  assert (G : (fa <- to_float a ;; fb <- to_float b ;;
               if Float64.is_zero fb then Raise ZeroDivisionError
               else Ok (Float (Float64.div fa fb))) = Ok r -> exists f, r = Float f).
  { clear H. intros H.
    apply bind_Ok in H as (fa & _ & H). apply bind_Ok in H as (fb & _ & H).
    destruct (Float64.is_zero fb); [discriminate|]. injection H as <-. eauto. }
  destruct a, b; try (apply G; exact H).
  apply bind_Ok in H as (f & _ & H). injection H as <-. eauto.
Qed.



(** ** The generator *)

Lemma py_le_Int (a b : Z) : py_le (Int a) (Int b) = (a <=? b).
Proof.
  unfold py_le, py_compare, value, xcompare, Qcompare, inject_Z, Z.leb.
  cbn [Qnum Qden]. rewrite !Z.mul_1_r. reflexivity.
Qed.

(** Rounding a rational between two integers stays between them. *)
Lemma round_half_even_between (n : Z) (d : positive) (a b : Z) :
  a * Zpos d <= n <= b * Zpos d ->
  a <= round_half_even (Qmake n d) <= b.
Proof.
  intros [Ha Hb]. unfold round_half_even. cbn [Qnum Qden].
  assert (Hd : 0 < Zpos d) by lia.
  pose proof (Z.div_mod n (Zpos d) ltac:(lia)) as Hdm.
  pose proof (Z.mod_pos_bound n (Zpos d) Hd) as Hmod.
  set (q := n / Zpos d) in *. set (r := n mod Zpos d) in *.
  assert (Hq1 : a <= q) by nia.
  assert (Hq2 : q <= b) by nia.
  destruct (Z.compare_spec (2 * r) (Zpos d)) as [E|E|E].
  - destruct (Z.even q); [lia|].
    assert (q <> b) by nia. lia.
  - lia.
  - assert (q <> b) by nia. lia.
Qed.

Lemma FIVE_value : float_value FIVE = Some (Fin (Qmake 5629499534213120 1125899906842624)).
Proof. reflexivity. Qed.

Lemma TEN_value : float_value TEN = Some (Fin (Qmake 5629499534213120 562949953421312)).
Proof. reflexivity. Qed.

Lemma tenths_in_range : forallb tenth_in_range (py_range 50 101) = true.
Proof. vm_compute. reflexivity. Qed.

Lemma In_py_range (a b k : Z) : a <= k < b -> In k (py_range a b).
Proof.
  intros Hk. unfold py_range. apply in_map_iff.
  exists (Z.to_nat (k - a)). split; [lia|]. apply in_seq. lia.
Qed.

Lemma py_range_In (a b k : Z) : In k (py_range a b) -> a <= k < b.
Proof.
  unfold py_range. intros H. apply in_map_iff in H as (j & <- & Hj).
  apply in_seq in Hj. lia.
Qed.

(** A float between 5.0 and 10.0 is positive and finite, with magnitude
    between 5 and 10. *)
Lemma between_five_and_ten (u : Float64.float) :
  py_le (Float FIVE) (Float u) = true -> py_le (Float u) (Float TEN) = true ->
  exists m e,
    u = S754_finite false m e
    /\ 5 * Zpos (Qden (magnitude m e)) <= Qnum (magnitude m e)
       <= 10 * Zpos (Qden (magnitude m e)).
Proof.
  unfold py_le, py_compare. cbn [value]. rewrite FIVE_value, TEN_value.
  destruct u as [s|s| |s m e]; cbn [float_value].
  - intros H. vm_compute in H. discriminate.
  - destruct s; intros H1 H2; [vm_compute in H1 | vm_compute in H2]; discriminate.
  - discriminate.
  - unfold magnitude. set (q := dyadic (cond_Zopp s (Zpos m)) e).
    unfold xcompare, Qcompare. cbn [Qnum Qden].
    intros H1 H2.
    assert (Hq1 : 5629499534213120 * Zpos (Qden q) <= Qnum q * 1125899906842624).
    { apply Z.compare_le_iff. intros E. rewrite E in H1. discriminate. }
    assert (Hq2 : Qnum q * 562949953421312 <= 5629499534213120 * Zpos (Qden q)).
    { apply Z.compare_le_iff. intros E. rewrite E in H2. discriminate. }
    assert (Hs : s = false).
    { destruct s; [|reflexivity]. exfalso.
      assert (Qnum q < 0); [|lia].
      unfold q, dyadic. cbn [cond_Zopp].
      destruct (Z.leb_spec 0 e); cbn [Qnum inject_Z]; [|lia].
      assert (0 < 2 ^ e) by (apply Z.pow_pos_nonneg; lia). nia. }
    subst s. exists m, e. split; [reflexivity|].
    unfold q in *. cbn [cond_Zopp] in *. lia.
Qed.

(** The score: a draw between 5.0 and 10.0 rounded to one decimal is one
    of the floats 5.0, 5.1, ..., 10.0. *)
Lemma round1_score (u : Float64.float) :
  py_le (Float FIVE) (Float u) = true -> py_le (Float u) (Float TEN) = true ->
  exists k,
    50 <= k <= 100
    /\ py_round1 u = float_of_decimal false k (-1)
    /\ py_le (Float FIVE) (Float (py_round1 u)) = true
    /\ py_le (Float (py_round1 u)) (Float TEN) = true.
Proof.
  intros H1 H2.
  destruct (between_five_and_ten u H1 H2) as (m & e & -> & Hlo & Hhi).
  cbn [py_round1].
  set (k := round_half_even (magnitude m e * 10)).
  assert (Hk : 50 <= k <= 100).
  { unfold k. destruct (magnitude m e) as [n d]. cbn [Qnum Qden] in *.
    change (Qmake n d * 10)%Q with (Qmake (n * 10) (d * 1)).
    apply round_half_even_between. lia. }
  exists k. split; [exact Hk|]. split; [reflexivity|].
  pose proof tenths_in_range as Ht. rewrite forallb_forall in Ht.
  specialize (Ht k (In_py_range 50 101 k ltac:(lia))).
  unfold tenth_in_range in Ht. apply andb_true_iff in Ht. exact Ht.
Qed.

Section GeneratorFacts.
Context {W : Type}.
Variable env : World W.
Hypothesis env_lawful : lawful env.

Lemma gbind_Ok {A B : Type} (c : gen A) (k : A -> gen B) (w w' : W) (a : A) :
  c w = Ok (a, w') -> gbind c k w = k a w'.
Proof. intros H. unfold gbind. rewrite H. reflexivity. Qed.

Lemma choice_In {A : Type} (seq : list A) (w : W) :
  seq <> [] -> exists x w', choice env seq w = Ok (x, w') /\ In x seq.
Proof.
  intros Hne. destruct env_lawful as (Hrb & _).
  assert (Hlen : 0 < len seq) by (destruct seq; [congruence | unfold len; simpl; lia]).
  specialize (Hrb (len seq) w Hlen).
  unfold choice, gbind, draw, lift.
  destruct (randbelow env (len seq) w) as [i w'] eqn:E. cbn [fst] in Hrb.
  destruct (py_index_in_range seq i Hrb) as (x & Hx & Hn).
  exists x, w'. rewrite Hx. split; [reflexivity|].
  eapply nth_error_In. exact Hn.
Qed.

Lemma randint_range (a b : Z) (w : W) :
  a <= b -> exists r w', randint env a b w = Ok (r, w') /\ a <= r <= b.
Proof.
  intros Hab. destruct env_lawful as (Hrb & _).
  specialize (Hrb (b - a + 1) w ltac:(lia)).
  unfold randint, gbind, draw, gret.
  destruct (randbelow env (b - a + 1) w) as [r w'] eqn:E. cbn [fst] in Hrb.
  exists (a + r), w'. split; [reflexivity | lia].
Qed.

Lemma base_salary_of (department : string) :
  In department DEPARTMENTS ->
  exists base, dict_get base_salaries department = Some base /\ 50000 <= base <= 80000.
Proof.
  unfold DEPARTMENTS. intros H.
  repeat (destruct H as [<-|H]; [eexists; split; [reflexivity | lia]|]).
  destruct H.
Qed.

(** One round of the loop succeeds and yields a record as described. *)
Lemma generate_employee_spec (i : Z) (w : W) :
  exists e w',
    generate_employee env i w = Ok (e, w')
    /\ emp_id e = employee_id i
    /\ generated e
    /\ drawn env e.
Proof.
  destruct env_lawful as (_ & Huni & Hclock).
  unfold generate_employee.
  destruct (choice_In FIRST_NAMES w ltac:(discriminate)) as (first & w1 & E1 & Hfirst).
  rewrite (gbind_Ok _ _ _ _ _ E1).
  destruct (choice_In LAST_NAMES w1 ltac:(discriminate)) as (last & w2 & E2 & Hlast).
  rewrite (gbind_Ok _ _ _ _ _ E2).
  destruct (choice_In DEPARTMENTS w2 ltac:(discriminate)) as (dept & w3 & E3 & Hdept).
  rewrite (gbind_Ok _ _ _ _ _ E3).
  destruct (base_salary_of dept Hdept) as (base & Hbase & Hb).
  unfold dict_lookup. rewrite Hbase.
  rewrite (gbind_Ok _ _ w3 w3 base eq_refl).
  destruct (randint_range (-10000) 30000 w3 ltac:(lia)) as (variation & w4 & E4 & Hv).
  rewrite (gbind_Ok _ _ _ _ _ E4).
  destruct (randint_range 0 1825 w4 ltac:(lia)) as (days & w5 & E5 & Hdays).
  rewrite (gbind_Ok _ _ _ _ _ E5).
  specialize (Hclock w5).
  destruct (now env w5) as [today w6] eqn:E6. cbn [fst] in Hclock.
  rewrite (gbind_Ok _ _ w5 w6 today) by (unfold draw; rewrite E6; reflexivity).
  assert (E7 : minus_days today days
               = Ok (mk_datetime (ordinal today - days) (hour today)
                       (minute today) (second today))).
  { unfold minus_days, EPOCH in *.
    destruct (Z.leb_spec 1 (ordinal today - days)); [|lia].
    destruct (Z.leb_spec (ordinal today - days) max_ordinal); [reflexivity | lia]. }
  rewrite E7. rewrite (gbind_Ok _ _ w6 w6 _ eq_refl).
  specialize (Huni (Float64.of_Z 5) (Float64.of_Z 10) w6 eq_refl).
  destruct (uniform env (Float64.of_Z 5) (Float64.of_Z 10) w6) as [u w7] eqn:E8.
  cbn [fst] in Huni. destruct Huni as [Hu1 Hu2].
  rewrite (gbind_Ok _ _ w6 w7 u) by (unfold draw; rewrite E8; reflexivity).
  destruct (round1_score u Hu1 Hu2) as (k & Hk & Hr & Hs1 & Hs2).
  eexists _, w7. split; [reflexivity|]. split; [reflexivity|]. split.
  - unfold generated. cbn [salary performance_score department].
    split; [exists base, variation; auto|].
    split; [rewrite py_le_Int; apply Z.leb_le; lia|].
    split; [exists k; rewrite Hr; auto|].
    split; assumption.
  - unfold drawn. cbn [name department joining_date].
    split; [exists first, last; auto|]. split; [exact Hdept|].
    exists w5, days. eexists. rewrite E6. cbn [fst].
    split; [exact Hdays|]. split; [exact E7 | reflexivity].
Qed.

Lemma generate_loop_spec (indices : list Z) (acc : list Employee) (w : W) :
  exists new w',
    generate_loop env indices acc w = Ok (acc ++ new, w')
    /\ map emp_id new = map employee_id indices
    /\ Forall generated new
    /\ Forall (drawn env) new.
Proof.
  revert acc w. induction indices as [|i rest IH]; intros acc w.
  - exists [], w. rewrite app_nil_r. repeat split; constructor.
  - destruct (generate_employee_spec i w) as (e & w1 & He & Hid & Hg & Hd).
    destruct (IH (acc ++ [e]) w1) as (new & w2 & Hl & Hids & Hgs & Hds).
    exists (e :: new), w2. cbn [generate_loop].
    rewrite (gbind_Ok _ _ _ _ _ He), Hl, <- app_assoc.
    split; [reflexivity|]. split; [|split].
    + cbn [map]. rewrite Hid, Hids. reflexivity.
    + constructor; assumption.
    + constructor; assumption.
Qed.

End GeneratorFacts.

(** ** Identifiers are distinct *)

Lemma decode_str_of_int (z : Z) : 0 <= z -> decode (str_of_int z) = Some z.
Proof.
  intros Hz. unfold decode, str_of_int.
  destruct z as [|p|p]; try lia; [reflexivity|].
  cbn [Z.to_int NilZero.string_of_int].
  pose proof (DecimalPos.Unsigned.to_uint_nonnil p) as Hnn.
  pose proof (DecimalPos.Unsigned.of_to p) as Hot.
  assert (E : NilZero.string_of_uint (Pos.to_uint p)
              = NilEmpty.string_of_uint (Pos.to_uint p)).
  { unfold NilZero.string_of_uint. destruct (Pos.to_uint p); congruence. }
  rewrite E, NilEmpty.usu. cbn [option_map]. unfold Z.of_uint.
  rewrite Hot. reflexivity.
Qed.

Lemma decode_zero (s : string) : decode (String "0" s) = decode s.
Proof.
  unfold decode. cbn [NilEmpty.uint_of_string].
  destruct (NilEmpty.uint_of_string s); reflexivity.
Qed.

Lemma decode_zeros (n : nat) (s : string) : decode (repeat_str "0" n +++ s) = decode s.
Proof.
  induction n as [|n IH]; [reflexivity|].
  cbn [repeat_str String.append]. rewrite decode_zero. exact IH.
Qed.

Lemma decode_zero_pad (width z : Z) : 0 <= z -> decode (zero_pad width z) = Some z.
Proof.
  intros Hz. unfold zero_pad, py_str_mul. rewrite decode_zeros.
  apply decode_str_of_int. exact Hz.
Qed.

Lemma employee_id_inj (i j : Z) :
  0 <= i -> 0 <= j -> employee_id i = employee_id j -> i = j.
Proof.
  intros Hi Hj. unfold employee_id, format_0d.
  destruct (Z.ltb_spec i 0); [lia|]. destruct (Z.ltb_spec j 0); [lia|].
  cbn [String.append]. intros E. injection E as E.
  apply (f_equal decode) in E. rewrite !decode_zero_pad in E by assumption.
  congruence.
Qed.

Lemma NoDup_map_on {A B : Type} (f : A -> B) (l : list A) :
  (forall x y, In x l -> In y l -> f x = f y -> x = y) ->
  NoDup l -> NoDup (map f l).
Proof.
  intros Hinj Hnd. induction Hnd as [|x l Hx Hnd IH]; simpl; constructor.
  - intros Hin. apply in_map_iff in Hin as (y & Hy & Hin).
    assert (y = x) by (apply Hinj; [right; exact Hin | left; reflexivity | exact Hy]).
    subst y. contradiction.
  - apply IH. intros a b Ha Hb. apply Hinj; right; assumption.
Qed.

Lemma py_range_NoDup (a b : Z) : NoDup (py_range a b).
Proof.
  unfold py_range. apply NoDup_map_on; [|apply seq_NoDup].
  intros x y _ _ H. lia.
Qed.

Lemma py_range_length (a b : Z) : a <= b -> len (py_range a b) = b - a.
Proof.
  intros H. unfold len, py_range. rewrite length_map, length_seq. lia.
Qed.

Lemma employee_ids_NoDup (n : Z) : NoDup (map employee_id (py_range 1 (n + 1))).
Proof.
  apply NoDup_map_on; [|apply py_range_NoDup].
  intros x y Hx Hy. apply py_range_In in Hx, Hy.
  apply employee_id_inj; lia.
Qed.

(** C5: for every [n >= 0], in a lawful environment,
    [generate_employees n] succeeds and returns exactly [n] records whose
    identifiers are ["EMP"] followed by [i] zero-padded to four digits,
    for [i] from 1 to [n] in order, all distinct; for [n = 0] the result
    is empty. *)
Theorem generate_employees_ids {W : Type} (env : World W) (n : Z) (w : W) :
  lawful env -> 0 <= n ->
  exists emps w',
    generate_employees env n w = Ok (emps, w')
    /\ len emps = n
    /\ map emp_id emps = map employee_id (py_range 1 (n + 1))
    /\ NoDup (map emp_id emps)
    /\ (n = 0 -> emps = [])
    /\ employee_id 1 = "EMP0001" /\ employee_id 42 = "EMP0042"
    /\ employee_id 12345 = "EMP12345".
Proof.
  intros Hlaw Hn. unfold generate_employees.
  destruct (generate_loop_spec env Hlaw (py_range 1 (n + 1)) [] w)
    as (emps & w' & Hl & Hids & _).
  exists emps, w'. cbn [app] in Hl.
  assert (Hlen : len emps = n).
  { unfold len. rewrite <- (length_map emp_id), Hids, length_map.
    fold (len (py_range 1 (n + 1))). rewrite py_range_length; lia. }
  repeat split; try assumption.
  - rewrite Hids. apply employee_ids_NoDup.
  - intros ->. destruct emps; [reflexivity|]. unfold len in Hlen. simpl in Hlen. lia.
Qed.

(** C6: every record [generate_employees] produces in a lawful
    environment has a salary [max(base + variation, 30000)], with [base]
    the base salary of its department and [variation] in
    [-10000, 30000], hence at least 30000, and a score between 5.0 and
    10.0 that is one of the one-decimal floats 5.0, 5.1, ..., 10.0. *)
Theorem generated_records_in_range {W : Type} (env : World W) (n : Z) (w w' : W)
  (emps : list Employee) :
  lawful env ->
  generate_employees env n w = Ok (emps, w') ->
  Forall generated emps.
Proof.
  intros Hlaw H. unfold generate_employees in H.
  destruct (generate_loop_spec env Hlaw (py_range 1 (n + 1)) [] w)
    as (emps0 & w0 & Hl & _ & Hg & _).
  rewrite Hl in H. cbn [app] in H. injection H as <- _. exact Hg.
Qed.

(** X3: every record [generate_employees] produces in a lawful
    environment has a name made of a first name and a last name of the
    pools, a department of the list, and as joining date the day of the
    clock less 0 to 1825 days. *)
Theorem generated_records_drawn {W : Type} (env : World W) (n : Z) (w w' : W)
  (emps : list Employee) :
  lawful env ->
  generate_employees env n w = Ok (emps, w') ->
  Forall (drawn env) emps.
Proof.
  intros Hlaw H. unfold generate_employees in H.
  destruct (generate_loop_spec env Hlaw (py_range 1 (n + 1)) [] w)
    as (emps0 & w0 & Hl & _ & _ & Hd).
  rewrite Hl in H. cbn [app] in H. injection H as <- _. exact Hd.
Qed.

(** ** Worked examples *)

(** Ali and Omar have the same score: Ali, first in the list, stays first. *)
Example ranking_of_staff :
  get_top_performers staff 10 = [sara; ali; omar]
  /\ get_top_performers staff 2 = [sara; ali]
  /\ get_top_performers staff (-1) = [sara; ali]
  /\ get_top_performers staff (-3) = [].
Proof. vm_compute. repeat split. Qed.

Example distribution_of_five :
  get_salary_range_distribution
    (map (fun s => mk_Employee "" "" "" (Int s) "" (score 50))
         [40000; 60000; 80000; 95000; 120000])
  = [("0-50k", 1); ("50k-70k", 1); ("70k-90k", 1); ("90k-100k", 1); ("100k+", 1)].
Proof. vm_compute. reflexivity. Qed.

(** The report of the three employees, line by line. *)
Example report_of_staff : report_lines noon staff = Ok staff_report.
Proof. vm_compute. reflexivity. Qed.

(** With 58 employees of 100 in a range the percentage is the float
    57.99999999999999, shown as 58.0, and the bar has 28 blocks. *)
Example bar_of_58_percent :
  (p <- percentage_of 58 100 ;; Ok (py_str p)) = Ok "57.99999999999999"
  /\ (p <- percentage_of 58 100 ;; bar_length p) = Ok 28
  /\ (p <- percentage_of 58 100 ;; format_f 5 false 1 p) = Ok " 58.0".
Proof. vm_compute. repeat split. Qed.

(** C1, the claim as stated fails: the collection is not empty, yet the
    report raises (the average salary overflows). *)
Lemma report_overflows : generate_report noon [tycoon] = Raise OverflowError.
Proof. vm_compute. reflexivity. Qed.

Lemma staff_small : Forall small_fields staff.
Proof. repeat constructor; vm_compute; reflexivity. Qed.

Lemma report_raises_only_when_empty_witness :
  generate_report noon [] = Raise ZeroDivisionError
  /\ exists text, generate_report noon staff = Ok text.
Proof.
  split.
  - exact (proj1 (report_raises_only_when_empty noon)).
  - apply (proj2 (report_raises_only_when_empty noon) staff).
    + discriminate.
    + reflexivity.
    + exact staff_small.
Defined.

Lemma staff_scores_ordered : scores_ordered staff.
Proof. repeat constructor. Qed.

Lemma top_performers_ranking_witness :
  get_top_performers staff 2 = firstn 2 (sorted_employees staff)
  /\ Permutation (sorted_employees staff) staff
  /\ StronglySorted not_below (sorted_employees staff)
  /\ (forall v, with_score v (sorted_employees staff) = with_score v staff)
  /\ get_top_performers staff 0 = []
  /\ (len staff <= 2 -> get_top_performers staff 2 = sorted_employees staff).
Proof.
  apply (top_performers_ranking staff 2); [exact staff_scores_ordered | lia].
Defined.



(** The report of the three employees in another order shows the same
    median. *)
Example median_of_shuffled_staff : median_salary shuffled_staff = Ok (Int 70000).
Proof. vm_compute. reflexivity. Qed.


(** A single employee: the line of the employee's range. *)
Example bar_of_single_employee :
  report_lines noon [ali]
  = Ok [ rule "="; "EMPLOYEE DATA ANALYSIS REPORT"; rule "=";
          "Generated: 2026-02-01 09:05:07";
          "Total Employees Analyzed: 1";
          "";
          "DEPARTMENT STATISTICS:"; rule "-";
          String LF "HR:";
          "  Number of Employees: 1";
          "  Average Salary: $50,000.00";
          "  Average Performance Score: 7.50/10";
          "";
          "TOP 10 PERFORMERS:"; rule "-";
          " 1. Ali Khan                  (HR          ) - Score: 7.5/10";
          "";
          "SALARY DISTRIBUTION:"; rule "-";
          "0-50k       :   0 employees (  0.0%) ";
          "50k-70k     :   1 employees (100.0%) " +++ py_str_mul BLOCK 50;
          "70k-90k     :   0 employees (  0.0%) ";
          "90k-100k    :   0 employees (  0.0%) ";
          "100k+       :   0 employees (  0.0%) ";
          "";
          "OVERALL STATISTICS:"; rule "-";
          "Average Salary (All Departments): $50,000.00";
          "Median Salary: $50,000.00";
          "Salary Range: $50,000.00 - $50,000.00";
          "Average Performance Score: 7.50/10";
          ""; rule "="; "End of Report"; rule "=" ].
Proof. vm_compute. reflexivity. Qed.

(** C10, the claim as stated fails on the empty list: the result for a
    negative [n] is the whole (empty) ranking. *)
Lemma top_performers_negative_on_empty :
  get_top_performers [] (-1) = sorted_employees [].
Proof. reflexivity. Qed.

Lemma top_performers_negative_witness :
  (- len staff < -1 ->
     get_top_performers staff (-1)
       = firstn (Z.to_nat (len staff + -1)) (sorted_employees staff)
     /\ 0 < len (get_top_performers staff (-1)) < len staff)
  /\ (-1 <= - len staff -> get_top_performers staff (-1) = [])
  /\ (staff <> [] -> get_top_performers staff (-1) <> sorted_employees staff).
Proof. apply (top_performers_negative staff (-1)). lia. Defined.

Lemma department_groups_nonempty_witness :
  exists stats,
    get_department_statistics staff = Ok stats
    /\ Forall (fun kv =>
                 1 <= count (snd kv)
                 /\ count (snd kv) = len (employees (snd kv))
                 /\ py_truediv (total_salary (snd kv)) (Int (count (snd kv)))
                    = Ok (avg_salary (snd kv))
                 /\ py_truediv (total_performance (snd kv)) (Int (count (snd kv)))
                    = Ok (avg_performance (snd kv))) stats.
Proof.
  destruct (get_department_statistics staff) as [stats|e] eqn:E.
  - exists stats. split; [reflexivity|].
    exact (proj2 (proj2 (department_groups_nonempty staff)) stats E).
  - vm_compute in E. discriminate.
Defined.

(** ** A deterministic environment *)

Lemma py_le_refl (a b : number) : py_le a b = true -> py_le a a = true.
Proof.
  unfold py_le, py_compare. destruct (value a) as [x|]; [|discriminate].
  intros _.
  assert (E : xcompare x x = Eq).
  { destruct x as [|q|]; simpl; try reflexivity. apply Qeq_alt. reflexivity. }
  rewrite E. reflexivity.
Qed.

Lemma demo_world_lawful : lawful demo_world.
Proof.
  unfold lawful, demo_world. cbn [randbelow uniform now fst].
  split; [|split].
  - intros n w Hn. apply Z.mod_pos_bound. exact Hn.
  - intros a b w Hab. unfold demo_uniform.
    destruct (py_le (Float a) (Float (nth (Nat.modulo (Nat.div w 6) 3) demo_candidates a))
              && py_le (Float (nth (Nat.modulo (Nat.div w 6) 3) demo_candidates a)) (Float b))
      eqn:E; cbn [fst].
    + apply andb_true_iff in E. exact E.
    + split; [exact (py_le_refl _ _ Hab) | exact Hab].
  - intros w. vm_compute. split; discriminate.
Qed.

Example generate_three : generate_employees demo_world 3 O = Ok (demo_staff, 18%nat).
Proof. vm_compute. reflexivity. Qed.

Lemma generate_employees_ids_witness :
  exists emps w',
    generate_employees demo_world 3 O = Ok (emps, w')
    /\ len emps = 3
    /\ map emp_id emps = map employee_id (py_range 1 (3 + 1))
    /\ NoDup (map emp_id emps)
    /\ (3 = 0 -> emps = [])
    /\ employee_id 1 = "EMP0001" /\ employee_id 42 = "EMP0042"
    /\ employee_id 12345 = "EMP12345".
Proof.
  apply (generate_employees_ids demo_world 3 O); [exact demo_world_lawful | lia].
Defined.

Lemma generated_records_drawn_witness : Forall (drawn demo_world) demo_staff.
Proof.
  apply (generated_records_drawn demo_world 3 O 18%nat demo_staff).
  - exact demo_world_lawful.
  - vm_compute. reflexivity.
Defined.

Lemma generated_records_in_range_witness : Forall generated demo_staff.
Proof.
  apply (generated_records_in_range demo_world 3 O 18%nat demo_staff).
  - exact demo_world_lawful.
  - vm_compute. reflexivity.
Defined.

(** ** Saving and reloading *)

(** Records without line endings in their text come back unchanged. *)
Example reload_staff :
  FileManager.csv_text staff
  = "emp_id,name,department,salary,joining_date,performance_score" +++ text [CR; LF] +++
    "EMP0001,Ali Khan,HR,50000,2025-06-01,7.5" +++ text [CR; LF] +++
    "EMP0002,Sara Malik,Engineering,70000,2024-11-15,9.1" +++ text [CR; LF] +++
    "EMP0003,Omar Ali,HR,90000,2023-02-28,7.5" +++ text [CR; LF]
  /\ match reload staff with
     | Ok loaded => forallb (fun ab => same_record (fst ab) (snd ab)) (combine staff loaded)
                    && (List.length loaded =? List.length staff)%nat
     | Raise _ => false
     end = true.
Proof. vm_compute. split; reflexivity. Qed.

(** C8, where the code departs from the claim: [load_from_csv] opens the
    file without [newline=''], so the carriage return that
    [save_to_csv] wrote inside the quoted name is read back as a line
    feed, and the reloaded record differs from the saved one. *)
Theorem reload_changes_carriage_return :
  FileManager.csv_text [karim]
  = "emp_id,name,department,salary,joining_date,performance_score" +++ text [CR; LF] +++
    "EMP0004," +++ text [QUOTE; "K"%char; CR] +++ "Karim" +++ text [QUOTE] +++
    ",Sales,61000,2025-01-20,8.8" +++ text [CR; LF]
  /\ reload [karim] = Ok [karim_reloaded]
  /\ same_record karim karim_reloaded = false
  /\ String.eqb (name karim) (name karim_reloaded) = false.
Proof. vm_compute. repeat split. Qed.

(** ** What a reloaded record holds *)

Lemma row_float_Ok (row : dict (option string)) (k : string) (x : number) :
  FileManager.row_float row k = Ok x -> exists f, x = Float f.
Proof.
  unfold FileManager.row_float. intros H.
  apply bind_Ok in H as (v & _ & H). destruct v as [s|]; [|discriminate].
  apply bind_Ok in H as (f & _ & H). injection H as <-. eauto.
Qed.

Lemma employee_of_row_floats (row : dict (option string)) (e : Employee) :
  FileManager.employee_of_row row = Ok e -> float_fields e.
Proof.
  unfold FileManager.employee_of_row. intros H.
  apply bind_Ok in H as (i & _ & H). apply bind_Ok in H as (n & _ & H).
  apply bind_Ok in H as (d & _ & H). apply bind_Ok in H as (s & Hs & H).
  apply bind_Ok in H as (j & _ & H). apply bind_Ok in H as (p & Hp & H).
  injection H as <-. split; cbn [salary performance_score].
  - exact (row_float_Ok _ _ _ Hs).
  - exact (row_float_Ok _ _ _ Hp).
Qed.


(* ================================================================== *)
(** * The csv round trip *)

Lemma scan_sound (cs cur0 : list ascii) (p0 p : parser) (row : list string)
  (rest : list ascii) :
  foldM (fun q ch => process_char q (Some ch)) (rev cur0) p0 = Ok p ->
  scan p cs = Some (row, rest) ->
  next_record p0 (split_lines cur0 cs) = Ok (Some row, split_lines [] rest).
Proof.
  revert cur0 p0 p. induction cs as [|c r IH]; intros cur0 p0 p Hp H; [discriminate|].
  cbn [scan] in H. cbn [split_lines].
  destruct (process_char p (Some c)) as [p1|] eqn:E1; [|discriminate].
  assert (Hp1 : foldM (fun q ch => process_char q (Some ch)) (rev (c :: cur0)) p0 = Ok p1).
  { cbn [rev]. rewrite foldM_snoc, Hp. exact E1. }
  destruct (Ascii.eqb c LF) eqn:Ec.
  - cbn [next_record]. unfold process_line. rewrite Hp1. cbn [bind].
    destruct (process_char p1 None) as [p2|] eqn:E2; [|discriminate]. cbn [bind].
    destruct (state p2) eqn:Es;
      try (apply (IH [] p2 p2); [reflexivity | exact H]).
    injection H as <- <-. reflexivity.
  - apply (IH (c :: cur0) p0 p1); assumption.
Qed.

Lemma cnt_cons (c : ascii) (s : list ascii) :
  cnt (c :: s) = (if is_continuation c then 0 else 1) + cnt s.
Proof.
  unfold cnt. simpl filter. destruct (is_continuation c); simpl negb; cbv iota.
  - lia.
  - simpl List.length. rewrite Nat2Z.inj_succ. lia.
Qed.

Lemma cnt_nonneg (s : list ascii) : 0 <= cnt s.
Proof. unfold cnt. lia. Qed.

Lemma add_char_Ok (p : parser) (c : ascii) (st : pstate) :
  cur_len p + cnt [c] <= FIELD_LIMIT ->
  add_char p c st = Ok (mk_parser st (c :: cur p) (cur_len p + cnt [c]) (fields p)).
Proof.
  intros H. unfold add_char. rewrite cnt_cons in *. change (cnt []) with 0 in *.
  destruct (is_continuation c).
  - repeat f_equal; try lia.
  - destruct (Z.leb_spec FIELD_LIMIT (cur_len p)); [lia|]. repeat f_equal; try lia.
Qed.

Lemma special_false (c : ascii) :
  special c = false ->
  Ascii.eqb c DELIMITER = false /\ Ascii.eqb c QUOTE = false
  /\ Ascii.eqb c CR = false /\ Ascii.eqb c LF = false.
Proof.
  unfold special. intros H.
  repeat (apply orb_false_iff in H as [H ?]). auto.
Qed.

(** An unquoted character, in a field or at its start. *)
Lemma process_plain (p : parser) (c : ascii) :
  special c = false ->
  state p = START_RECORD \/ state p = START_FIELD \/ state p = IN_FIELD ->
  process_char p (Some c) = add_char p c IN_FIELD.
Proof.
  intros Hc Hs. apply special_false in Hc as (Hd & Hq & Hr & Hl).
  unfold process_char, is_newline.
  destruct Hs as [-> | [-> | ->]]; rewrite ?Hl, ?Hr, ?Hq, ?Hd; reflexivity.
Qed.

Lemma scan_plain (s : list ascii) (p : parser) (more : list ascii) :
  state p = START_RECORD \/ state p = START_FIELD \/ state p = IN_FIELD ->
  s <> [] ->
  existsb special s = false ->
  cur_len p + cnt s <= FIELD_LIMIT ->
  scan p (s ++ more)
  = scan (mk_parser IN_FIELD (rev s ++ cur p) (cur_len p + cnt s) (fields p)) more.
Proof.
  revert p. induction s as [|c s IH]; intros p Hs Hne Hsp Hlen; [congruence|].
  cbn [existsb] in Hsp. apply orb_false_iff in Hsp as [Hc Hsp].
  rewrite cnt_cons in Hlen. pose proof (cnt_nonneg s).
  cbn [app scan]. rewrite (process_plain p c Hc Hs).
  rewrite add_char_Ok by (rewrite cnt_cons; change (cnt []) with 0;
                          destruct (is_continuation c); lia).
  destruct (special_false c Hc) as (_ & _ & _ & ->).
  destruct s as [|c' s'].
  - cbn [app rev]. rewrite cnt_cons. reflexivity.
  - rewrite IH; try assumption; try discriminate; cbn [state cur_len cur fields].
    + f_equal. f_equal.
      * cbn [rev]. rewrite <- !app_assoc. reflexivity.
      * rewrite (cnt_cons c (c' :: s')), (cnt_cons c []). change (cnt []) with 0. lia.
    + right; right; reflexivity.
    + rewrite (cnt_cons c []). change (cnt []) with 0. 
      destruct (is_continuation c); lia.
Qed.

Lemma scan_quoted_body (s : list ascii) (p : parser) (more : list ascii) :
  state p = IN_QUOTED_FIELD ->
  cur_len p + cnt s <= FIELD_LIMIT ->
  scan p (double_quotes s ++ more)
  = scan (mk_parser IN_QUOTED_FIELD (rev s ++ cur p) (cur_len p + cnt s) (fields p)) more.
Proof.
  revert p. induction s as [|c s IH]; intros p Hs Hlen.
  - cbn [double_quotes app rev]. change (cnt []) with 0.
    rewrite Z.add_0_r. destruct p; cbn in *; subst; reflexivity.
  - pose proof (cnt_nonneg s). pose proof (cnt_nonneg [c]).
    assert (Hk : cnt (c :: s) = cnt [c] + cnt s).
    { rewrite (cnt_cons c s), (cnt_cons c []). change (cnt []) with 0. lia. }
    assert (Hc1 : cur_len p + cnt [c] <= FIELD_LIMIT) by lia.
    assert (Hfin : mk_parser IN_QUOTED_FIELD (rev s ++ c :: cur p)
                     (cur_len p + cnt [c] + cnt s) (fields p)
                   = mk_parser IN_QUOTED_FIELD (rev (c :: s) ++ cur p)
                       (cur_len p + cnt (c :: s)) (fields p)).
    { f_equal.
      - cbn [rev]. rewrite <- app_assoc. reflexivity.
      - lia. }
    cbn [double_quotes]. destruct (Ascii.eqb_spec c QUOTE) as [->|Hq].
    + cbn [app scan]. unfold process_char at 1. rewrite Hs.
      change (Ascii.eqb QUOTE QUOTE) with true. cbv iota.
      change (Ascii.eqb QUOTE LF) with false. cbv iota.
      cbn [scan]. unfold process_char at 1. cbn [set_state state].
      change (Ascii.eqb QUOTE QUOTE) with true. cbv iota.
      change (add_char (set_state p QUOTE_IN_QUOTED_FIELD) QUOTE IN_QUOTED_FIELD)
        with (add_char p QUOTE IN_QUOTED_FIELD).
      rewrite (add_char_Ok p QUOTE IN_QUOTED_FIELD Hc1).
      change (Ascii.eqb QUOTE LF) with false. cbv iota.
      rewrite IH; cbn [state cur_len cur fields]; [rewrite Hfin; reflexivity | reflexivity | lia].
    + cbn [app scan]. unfold process_char at 1. rewrite Hs.
      apply Ascii.eqb_neq in Hq. rewrite Hq.
      rewrite (add_char_Ok p c IN_QUOTED_FIELD Hc1).
      destruct (Ascii.eqb c LF).
      * unfold process_char. cbn [state].
        rewrite IH; cbn [state cur_len cur fields]; [rewrite Hfin; reflexivity | reflexivity | lia].
      * rewrite IH; cbn [state cur_len cur fields]; [rewrite Hfin; reflexivity | reflexivity | lia].
Qed.

(** A quoted field, whatever it holds. *)
Lemma scan_quoted (s : list ascii) (p : parser) (more : list ascii) :
  boundary p -> cnt s <= FIELD_LIMIT ->
  scan p (QUOTE :: double_quotes s ++ QUOTE :: more)
  = scan (mk_parser QUOTE_IN_QUOTED_FIELD (rev s) (cnt s) (fields p)) more.
Proof.
  intros (Hc & Hl & Hs) Hlen.
  assert (E : process_char p (Some QUOTE) = Ok (set_state p IN_QUOTED_FIELD)).
  { unfold process_char. destruct Hs as [-> | ->]; reflexivity. }
  cbn [scan]. rewrite E. change (Ascii.eqb QUOTE LF) with false. cbv iota.
  rewrite scan_quoted_body; cbn [set_state state cur_len cur fields];
    [|reflexivity | lia].
  rewrite Hc, Hl, app_nil_r. cbn [scan]. unfold process_char at 1. cbn [state].
  change (Ascii.eqb QUOTE QUOTE) with true. cbv iota.
  change (Ascii.eqb QUOTE LF) with false. cbv iota. reflexivity.
Qed.

Lemma text_rev_rev (s : list ascii) : text (rev (rev s)) = text s.
Proof. rewrite rev_involutive. reflexivity. Qed.

(** A field and the delimiter after it. *)
Lemma field_then_delimiter (s : list ascii) (p : parser) (more : list ascii) :
  boundary p -> cnt s <= FIELD_LIMIT ->
  scan p (write_field s ++ DELIMITER :: more)
  = scan (mk_parser START_FIELD [] 0 (text s :: fields p)) more.
Proof.
  intros Hb Hlen. unfold write_field.
  destruct (existsb special s) eqn:Hsp.
  - cbn [app]. rewrite <- app_assoc. cbn [app].
    rewrite (scan_quoted s p _ Hb Hlen).
    cbn [scan]. unfold process_char at 1. cbn [state save_field cur fields].
    change (Ascii.eqb DELIMITER QUOTE) with false. cbv iota.
    change (Ascii.eqb DELIMITER DELIMITER) with true. cbv iota.
    change (Ascii.eqb DELIMITER LF) with false. cbv iota.
    unfold save_field, set_state; cbn [cur fields state cur_len];
      rewrite ?text_rev_rev; reflexivity.
  - destruct Hb as (Hc & Hl & Hs). destruct s as [|c s].
    + cbn [app scan].
      assert (E : process_char p (Some DELIMITER) = Ok (save_field p START_FIELD)).
      { unfold process_char. destruct Hs as [-> | ->]; reflexivity. }
      rewrite E. change (Ascii.eqb DELIMITER LF) with false. cbv iota.
      unfold save_field. rewrite Hc. reflexivity.
    + rewrite scan_plain; [|tauto | discriminate | exact Hsp | lia].
      rewrite Hc, Hl, app_nil_r, Z.add_0_l.
      cbn [scan]. unfold process_char at 1. cbn [state save_field cur fields].
      change (is_newline DELIMITER) with false. cbv iota.
      change (Ascii.eqb DELIMITER DELIMITER) with true. cbv iota.
      change (Ascii.eqb DELIMITER LF) with false. cbv iota.
      unfold save_field, set_state; cbn [cur fields state cur_len];
      rewrite ?text_rev_rev; reflexivity.
Qed.

(** The last field of a record and the line end after it. *)
Lemma field_then_end (s : list ascii) (p : parser) (more : list ascii) :
  boundary p -> cnt s <= FIELD_LIMIT ->
  state p = START_FIELD \/ s <> [] ->
  scan p (write_field s ++ LF :: more) = Some (rev (text s :: fields p), more).
Proof.
  intros Hb Hlen Hne. unfold write_field.
  destruct (existsb special s) eqn:Hsp.
  - cbn [app]. rewrite <- app_assoc. cbn [app].
    rewrite (scan_quoted s p _ Hb Hlen).
    cbn [scan]. unfold process_char. cbn [state save_field cur fields set_state].
    change (Ascii.eqb LF QUOTE) with false. cbv iota.
    change (Ascii.eqb LF DELIMITER) with false. cbv iota.
    change (is_newline LF) with true. cbv iota.
    change (Ascii.eqb LF LF) with true. cbv iota. cbn [state fields].
    unfold save_field, set_state; cbn [cur fields state cur_len];
      rewrite ?text_rev_rev; reflexivity.
  - destruct Hb as (Hc & Hl & Hs). destruct s as [|c s].
    + destruct Hne as [Hst|]; [|congruence].
      cbn [app scan]. unfold process_char. rewrite Hst.
      change (is_newline LF) with true. cbv iota.
      change (Ascii.eqb LF LF) with true. cbv iota.
      cbn [state save_field cur fields set_state]. rewrite Hc. reflexivity.
    + rewrite scan_plain; [|tauto | discriminate | exact Hsp | lia].
      rewrite Hc, Hl, app_nil_r, Z.add_0_l.
      cbn [scan]. unfold process_char. cbn [state save_field cur fields set_state].
      change (is_newline LF) with true. cbv iota.
      change (Ascii.eqb LF LF) with true. cbv iota. cbn [state fields].
      unfold save_field, set_state; cbn [cur fields state cur_len];
      rewrite ?text_rev_rev; reflexivity.
Qed.

Lemma text_chars (s : string) : text (chars s) = s.
Proof. apply string_of_list_ascii_of_string. Qed.

(** The fields of a record, written one after the other, and the line end. *)
Lemma scan_fields (row : list string) (p : parser) (more : list ascii) :
  boundary p -> row <> [] -> Forall fits row ->
  state p = START_FIELD \/ row <> [EmptyString] ->
  scan p (join_fields (map (fun s => write_field (chars s)) row) ++ LF :: more)
  = Some (rev (fields p) ++ row, more).
Proof.
  revert p. induction row as [|s row IH]; intros p Hb Hne Hfit Hst; [congruence|].
  inversion Hfit as [|? ? Hs Hfit']; subst.
  destruct row as [|s2 row].
  - cbn [map join_fields]. rewrite field_then_end; [| exact Hb | exact Hs |].
    + cbn [rev]. rewrite text_chars. reflexivity.
    + destruct Hst as [H|H]; [left; exact H|]. right. intros E. apply H.
      destruct s; [reflexivity | discriminate].
  - change (join_fields (map (fun s => write_field (chars s)) (s :: s2 :: row)))
      with (write_field (chars s)
            ++ DELIMITER :: join_fields (map (fun s => write_field (chars s)) (s2 :: row))).
    rewrite <- app_assoc. cbn [app].
    rewrite field_then_delimiter; [| exact Hb | exact Hs].
    rewrite IH; cbn [state cur cur_len fields].
    + cbn [rev]. rewrite text_chars, <- app_assoc. reflexivity.
    + repeat split. right; reflexivity.
    + discriminate.
    + exact Hfit'.
    + left; reflexivity.
Qed.

Lemma scan_record (row : list string) (more : list ascii) :
  Forall fits row -> scan reset (record_line row ++ more) = Some (row, more).
Proof.
  intros Hfit. destruct row as [|s row].
  - reflexivity.
  - destruct (list_eq_dec string_dec (s :: row) [EmptyString]) as [E|Hne].
    + injection E as -> ->. reflexivity.
    + assert (E : record_line (s :: row)
                  = join_fields (map (fun s => write_field (chars s)) (s :: row)) ++ [LF]).
      { unfold record_line. destruct s; [destruct row; [congruence|]|]; reflexivity. }
      rewrite E, <- app_assoc. cbn [app].
      rewrite scan_fields; [reflexivity | | discriminate | exact Hfit | right; exact Hne].
      repeat split. left; reflexivity.
Qed.

Lemma split_lines_app (a cur0 b : list ascii) :
  split_lines cur0 (a ++ LF :: b) = split_lines cur0 (a ++ [LF]) ++ split_lines [] b.
Proof.
  revert cur0. induction a as [|c a IH]; intros cur0; cbn [app split_lines].
  - change (Ascii.eqb LF LF) with true. cbv iota. reflexivity.
  - destruct (Ascii.eqb c LF); [cbn [app]; f_equal|]; apply IH.
Qed.

Lemma split_lines_end (a cur0 : list ascii) : split_lines cur0 (a ++ [LF]) <> [].
Proof.
  revert cur0. induction a as [|c a IH]; intros cur0; cbn [app split_lines].
  - change (Ascii.eqb LF LF) with true. discriminate.
  - destruct (Ascii.eqb c LF); [discriminate | apply IH].
Qed.

Lemma record_line_end (row : list string) : exists a, record_line row = a ++ [LF].
Proof.
  unfold record_line.
  destruct row as [|[|] [|]]; try (eexists; reflexivity).
  exists [QUOTE; QUOTE]. reflexivity.
Qed.

Lemma record_lines_length (rows : list (list string)) :
  (List.length rows <= List.length (split_lines [] (record_lines rows)))%nat.
Proof.
  induction rows as [|row rows IH]; [apply Nat.le_0_l|].
  unfold record_lines. cbn [map List.concat]. fold (record_lines rows).
  destruct (record_line_end row) as (a & ->).
  rewrite <- app_assoc. cbn [app]. rewrite split_lines_app, length_app.
  pose proof (split_lines_end a []) as H.
  destruct (split_lines [] (a ++ [LF])); [congruence|]. cbn [List.length]. lia.
Qed.

Lemma records_written (rows : list (list string)) (fuel : nat) :
  Forall (Forall fits) rows -> (List.length rows < fuel)%nat ->
  records fuel (split_lines [] (record_lines rows)) = Ok rows.
Proof.
  revert fuel. induction rows as [|row rows IH]; intros fuel Hfit Hfuel.
  - destruct fuel; [lia|]. reflexivity.
  - destruct fuel as [|fuel]; [lia|]. cbn [List.length] in Hfuel.
    inversion Hfit as [|? ? Hrow Hrows]; subst.
    unfold record_lines. cbn [map List.concat]. fold (record_lines rows).
    cbn [records].
    rewrite (scan_sound _ [] reset reset row (record_lines rows) eq_refl
               (scan_record row _ Hrow)).
    cbn [bind]. rewrite IH; [reflexivity | exact Hrows | lia].
Qed.

(** The reader gives back the records that were written. *)
Lemma reader_written (rows : list (list string)) :
  Forall (Forall fits) rows ->
  reader (split_lines [] (record_lines rows)) = Ok rows.
Proof.
  intros Hfit. unfold reader. apply records_written; [exact Hfit|].
  pose proof (record_lines_length rows). lia.
Qed.

(** ** Line endings *)

Lemma universal_newlines_app (a b : list ascii) :
  no_CR a -> universal_newlines (a ++ CR :: LF :: b) = a ++ LF :: universal_newlines b.
Proof.
  unfold no_CR. induction a as [|c a IH]; intros H.
  - reflexivity.
  - cbn [app universal_newlines].
    destruct (Ascii.eqb_spec c CR) as [->|Hc]; [exfalso; apply H; left; reflexivity|].
    rewrite IH; [reflexivity|]. intros Hin. apply H. right. exact Hin.
Qed.

Lemma double_quotes_In (c : ascii) (s : list ascii) :
  In c (double_quotes s) -> In c s.
Proof.
  induction s as [|x s IH]; cbn [double_quotes]; [tauto|].
  destruct (Ascii.eqb x QUOTE); cbn [In]; tauto.
Qed.

Lemma write_field_no_CR (s : list ascii) : no_CR s -> no_CR (write_field s).
Proof.
  unfold no_CR, write_field. intros H.
  destruct (existsb special s); [|exact H].
  cbn [In]. rewrite in_app_iff. cbn [In].
  intros [E|[Hin|[E|[]]]]; try discriminate.
  apply H. exact (double_quotes_In _ _ Hin).
Qed.

Lemma join_fields_no_CR (fs : list (list ascii)) :
  Forall no_CR fs -> no_CR (join_fields fs).
Proof.
  unfold no_CR. induction 1 as [|f fs Hf Hfs IH]; [tauto|].
  destruct fs as [|g fs]; [exact Hf|].
  change (join_fields (f :: g :: fs)) with (f ++ DELIMITER :: join_fields (g :: fs)).
  rewrite in_app_iff. cbn [In]. intros [H|[E|H]]; [tauto | discriminate | tauto].
Qed.

Lemma write_row_translated (row : list string) (rest : list ascii) :
  Forall field_ok row ->
  universal_newlines (write_row row ++ rest)
  = record_line row ++ universal_newlines rest.
Proof.
  intros Hrow.
  assert (G : universal_newlines
                ((join_fields (map (fun s => write_field (chars s)) row) ++ LINETERMINATOR)
                 ++ rest)
              = (join_fields (map (fun s => write_field (chars s)) row) ++ [LF])
                ++ universal_newlines rest).
  { unfold LINETERMINATOR. rewrite <- !app_assoc. cbn [app].
    apply universal_newlines_app. apply join_fields_no_CR.
    apply Forall_map. eapply Forall_impl; [|exact Hrow].
    intros s [H _]. apply write_field_no_CR. exact H. }
  unfold write_row, record_line.
  destruct row as [|[|] [|]]; try exact G. reflexivity.
Qed.

Lemma rows_translated (rows : list (list string)) :
  Forall (Forall field_ok) rows ->
  universal_newlines (List.concat (map write_row rows)) = record_lines rows.
Proof.
  induction 1 as [|row rows Hrow _ IH]; [reflexivity|].
  cbn [map List.concat]. rewrite write_row_translated by exact Hrow.
  rewrite IH. reflexivity.
Qed.

(** The csv round trip on rows of text: what the writer wrote (the file
    opened with [newline='']) is what the reader reads (the file opened
    without it), when no field holds a carriage return. *)
Lemma reader_of_writer (rows : list (list string)) :
  Forall (Forall field_ok) rows ->
  reader (split_lines [] (universal_newlines (List.concat (map write_row rows))))
  = Ok rows.
Proof.
  intros H. rewrite rows_translated by exact H.
  apply reader_written. eapply Forall_impl; [|exact H].
  intros row Hrow. eapply Forall_impl; [|exact Hrow]. intros s [_ Hs]. exact Hs.
Qed.

(** ** From rows of text to records *)

Lemma chars_text (l : list ascii) : chars (text l) = l.
Proof. apply list_ascii_of_string_of_list_ascii. Qed.

Lemma employee_of_zip (row : list string) :
  List.length row = 6%nat ->
  FileManager.employee_of_row (zip_row FileManager.fieldnames row [])
  = employee_of_fields row.
Proof.
  intros H.
  destruct row as [|a [|b [|c [|d [|e [|f [|]]]]]]]; try discriminate.
  unfold FileManager.employee_of_row, FileManager.row_str, FileManager.row_float,
    employee_of_fields.
  cbn [zip_row FileManager.fieldnames].
  change (dict_lookup _ "emp_id") with (Ok (Some a)).
  change (dict_lookup _ "name") with (Ok (Some b)).
  change (dict_lookup _ "department") with (Ok (Some c)).
  change (dict_lookup _ "salary") with (Ok (Some d)).
  change (dict_lookup _ "joining_date") with (Ok (Some e)).
  change (dict_lookup _ "performance_score") with (Ok (Some f)).
  cbn [bind].
  destruct (float_of_string d); cbn [bind]; [|reflexivity].
  destruct (float_of_string f); reflexivity.
Qed.

Lemma mapM_map {A B C : Type} (f : B -> result C) (g : A -> B) (l : list A) :
  mapM f (map g l) = mapM (fun x => f (g x)) l.
Proof.
  induction l as [|x l IH]; [reflexivity|].
  cbn [map mapM]. rewrite IH. reflexivity.
Qed.

Lemma mapM_ext_in {A B : Type} (f g : A -> result B) (l : list A) :
  (forall x, In x l -> f x = g x) -> mapM f l = mapM g l.
Proof.
  induction l as [|x l IH]; intros H; [reflexivity|].
  cbn [mapM]. rewrite (H x (or_introl eq_refl)), IH; [reflexivity|].
  intros y Hy. apply H. right. exact Hy.
Qed.

Lemma fieldnames_ok : Forall field_ok FileManager.fieldnames.
Proof.
  repeat constructor; unfold no_CR; try (vm_compute; intuition discriminate);
    vm_compute; discriminate.
Qed.

Lemma filter_not_blank (rows : list (list string)) :
  Forall row_ok rows -> filter (fun row => negb (is_blank row)) rows = rows.
Proof.
  induction 1 as [|row rows [Hlen _] _ IH]; [reflexivity|].
  cbn [filter]. destruct row; [discriminate|]. cbn [is_blank negb]. rewrite IH.
  reflexivity.
Qed.

(** Loading a file of well-formed rows: the records of the rows, in
    order, or the error of the first row whose numbers cannot be read. *)
Lemma load_rows (fs : filesystem) (filename : string) (rows : list (list string)) :
  Forall row_ok rows ->
  dict_get fs filename = Some (file_of_rows rows) ->
  FileManager.load_from_csv fs filename = mapM employee_of_fields rows.
Proof.
  intros Hrows Hfile. unfold FileManager.load_from_csv. rewrite Hfile.
  unfold file_of_rows. rewrite chars_text.
  unfold dict_reader. rewrite reader_of_writer.
  - cbn [bind]. rewrite (filter_not_blank rows Hrows). rewrite mapM_map.
    apply mapM_ext_in. intros row Hin. rewrite Forall_forall in Hrows.
    apply employee_of_zip. exact (proj1 (Hrows row Hin)).
  - constructor; [exact fieldnames_ok|].
    eapply Forall_impl; [|exact Hrows]. intros row [_ H]. exact H.
Qed.

Lemma csv_text_rows (emps : list Employee) :
  FileManager.csv_text emps = file_of_rows (map written_fields emps).
Proof.
  unfold FileManager.csv_text, file_of_rows. cbn [map List.concat].
  rewrite map_map. reflexivity.
Qed.

Lemma reload_reread (emps : list Employee) :
  Forall writable emps -> reload emps = mapM reread emps.
Proof.
  intros H. unfold reload.
  rewrite (load_rows _ _ (map written_fields emps)).
  - rewrite mapM_map. reflexivity.
  - apply Forall_map. eapply Forall_impl; [|exact H].
    intros e He. split; [reflexivity | exact He].
  - unfold FileManager.save_to_csv. rewrite dict_get_set_same, csv_text_rows.
    reflexivity.
Qed.

(** ** The decimal digits of an [int] *)

Lemma digits_value_fold (ds : list ascii) :
  digits_value ds = fold_left digit_step ds 0.
Proof. reflexivity. Qed.

Lemma of_uint_acc_fold (d : Decimal.uint) (acc : positive) :
  Zpos (Pos.of_uint_acc d acc)
  = fold_left digit_step (chars (NilEmpty.string_of_uint d)) (Zpos acc).
Proof.
  revert acc. unfold chars.
  induction d as [|d IH|d IH|d IH|d IH|d IH|d IH|d IH|d IH|d IH|d IH]; intros acc;
    [reflexivity|..];
    cbn [Pos.of_uint_acc NilEmpty.string_of_uint list_ascii_of_string fold_left];
    rewrite IH; f_equal; unfold digit_step;
    match goal with
    | |- context [code ?c] => let v := eval vm_compute in (code c) in change (code c) with v
    end; lia.
Qed.

Lemma of_uint_fold (d : Decimal.uint) :
  Z.of_N (Pos.of_uint d) = digits_value (chars (NilEmpty.string_of_uint d)).
Proof.
  rewrite digits_value_fold. unfold chars.
  induction d as [|d IH|d IH|d IH|d IH|d IH|d IH|d IH|d IH|d IH|d IH];
    [reflexivity | exact IH |..];
    cbn [Pos.of_uint NilEmpty.string_of_uint list_ascii_of_string fold_left Z.of_N];
    rewrite of_uint_acc_fold; reflexivity.
Qed.

Lemma string_of_uint_digits (d : Decimal.uint) :
  forallb is_digit (chars (NilEmpty.string_of_uint d)) = true.
Proof.
  unfold chars.
  induction d as [|d IH|d IH|d IH|d IH|d IH|d IH|d IH|d IH|d IH|d IH];
    [reflexivity|..];
    cbn [NilEmpty.string_of_uint list_ascii_of_string forallb]; rewrite IH;
    reflexivity.
Qed.

Lemma string_of_uint_length (d : Decimal.uint) :
  List.length (chars (NilEmpty.string_of_uint d)) = Decimal.nb_digits d.
Proof.
  unfold chars.
  induction d as [|d IH|d IH|d IH|d IH|d IH|d IH|d IH|d IH|d IH|d IH];
    [reflexivity|..];
    cbn [NilEmpty.string_of_uint list_ascii_of_string List.length Decimal.nb_digits];
    rewrite IH; reflexivity.
Qed.

Lemma of_uint_acc_lower (d : Decimal.uint) (acc : positive) :
  Zpos acc * 10 ^ Z.of_nat (Decimal.nb_digits d) <= Zpos (Pos.of_uint_acc d acc).
Proof.
  revert acc.
  induction d as [|d IH|d IH|d IH|d IH|d IH|d IH|d IH|d IH|d IH|d IH]; intros acc;
    [cbn; lia|..];
    cbn [Pos.of_uint_acc Decimal.nb_digits];
    rewrite Nat2Z.inj_succ, Z.pow_succ_r by lia;
    (eapply Z.le_trans; [|apply IH]);
    assert (0 < 10 ^ Z.of_nat (Decimal.nb_digits d)) by (apply Z.pow_pos_nonneg; lia);
    nia.
Qed.

(** The digits of a positive number start with a digit that is not zero. *)
Lemma to_uint_head (p : positive) (d : Decimal.uint) : Pos.to_uint p <> Decimal.D0 d.
Proof.
  pose proof (DecimalPos.Unsigned.to_of (Pos.to_uint p)) as H.
  rewrite DecimalPos.Unsigned.of_to in H. cbn [N.to_uint] in H.
  intros E.
  destruct (Decimal.uint_eq_dec (Decimal.nzhead (Pos.to_uint p)) Decimal.Nil) as [Hn|Hn].
  - apply DecimalFacts.unorm_0 in Hn. rewrite Hn in H.
    exact (DecimalPos.Unsigned.to_uint_nonzero p H).
  - rewrite (DecimalFacts.unorm_nzhead _ Hn) in H.
    apply (DecimalFacts.nzhead_nonzero (Pos.to_uint p) d). rewrite <- H. exact E.
Qed.

(** A number of [n] digits is at least [10^(n-1)]. *)
Lemma to_uint_lower (p : positive) :
  10 ^ (Z.of_nat (Decimal.nb_digits (Pos.to_uint p)) - 1) <= Zpos p.
Proof.
  pose proof (DecimalPos.Unsigned.of_to p) as Hv.
  pose proof (to_uint_head p) as Hh.
  pose proof (DecimalPos.Unsigned.to_uint_nonnil p) as Hn.
  destruct (Pos.to_uint p) as [|d|d|d|d|d|d|d|d|d|d]; [congruence | exfalso; eapply Hh; reflexivity |..];
    cbn [Pos.of_uint] in Hv; injection Hv as Hv; rewrite <- Hv;
    cbn [Decimal.nb_digits]; rewrite Nat2Z.inj_succ;
    replace (Z.succ (Z.of_nat (Decimal.nb_digits d)) - 1) with (Z.of_nat (Decimal.nb_digits d)) by lia;
    (eapply Z.le_trans; [|apply of_uint_acc_lower]);
    assert (0 < 10 ^ Z.of_nat (Decimal.nb_digits d)) by (apply Z.pow_pos_nonneg; lia);
    nia.
Qed.

Lemma str_of_int_pos (p : positive) :
  str_of_int (Zpos p) = NilEmpty.string_of_uint (Pos.to_uint p).
Proof.
  unfold str_of_int. cbn [Z.to_int NilZero.string_of_int].
  pose proof (DecimalPos.Unsigned.to_uint_nonnil p).
  unfold NilZero.string_of_uint. destruct (Pos.to_uint p); congruence.
Qed.

Lemma str_of_int_neg (p : positive) :
  str_of_int (Zneg p) = String "-" (str_of_int (Zpos p)).
Proof.
  rewrite str_of_int_pos. unfold str_of_int. cbn [Z.to_int NilZero.string_of_int].
  pose proof (DecimalPos.Unsigned.to_uint_nonnil p).
  unfold NilZero.string_of_uint. destruct (Pos.to_uint p); congruence.
Qed.

(** The digits of a positive [int]: they denote it, none is missing, and a
    number below [10^k] has at most [k] of them. *)
Lemma str_of_int_digits (p : positive) :
  digits_value (chars (str_of_int (Zpos p))) = Zpos p
  /\ forallb is_digit (chars (str_of_int (Zpos p))) = true
  /\ chars (str_of_int (Zpos p)) <> []
  /\ forall k, 0 <= k -> Zpos p < 10 ^ k ->
       Z.of_nat (List.length (chars (str_of_int (Zpos p)))) <= k.
Proof.
  rewrite str_of_int_pos. split; [|split; [|split]].
  - rewrite <- of_uint_fold, DecimalPos.Unsigned.of_to. reflexivity.
  - apply string_of_uint_digits.
  - intros E. apply (f_equal (@List.length ascii)) in E.
    rewrite string_of_uint_length in E. cbn in E.
    apply DecimalFacts.nb_digits_0 in E.
    exact (DecimalPos.Unsigned.to_uint_nonnil p E).
  - intros k Hk Hp. rewrite string_of_uint_length.
    pose proof (to_uint_lower p) as Hl.
    destruct (Z.le_gt_cases (Z.of_nat (Decimal.nb_digits (Pos.to_uint p))) k) as [|Hgt];
      [assumption|].
    assert (10 ^ k <= 10 ^ (Z.of_nat (Decimal.nb_digits (Pos.to_uint p)) - 1))
      by (apply Z.pow_le_mono_r; lia).
    lia.
Qed.

(** ** Reading the digits back *)

Lemma digit_facts (c : ascii) :
  is_digit c = true ->
  code c < 128 /\ is_space c = false /\ is_underscore c = false
  /\ lower c = c
  /\ Ascii.eqb c "-" = false /\ Ascii.eqb c "+" = false /\ Ascii.eqb c "." = false
  /\ Ascii.eqb c "i" = false /\ Ascii.eqb c "n" = false.
Proof.
  destruct c as [[] [] [] [] [] [] [] []]; vm_compute; intros H;
    try discriminate H; repeat split; discriminate.
Qed.

Lemma code_points_ascii (l : list ascii) :
  Forall (fun c => code c < 128) l -> code_points l = Some (map code l).
Proof.
  unfold code_points. induction 1 as [|c l Hc _ IH]; [reflexivity|].
  cbn [code_points_from map].
  destruct (Z.ltb_spec (code c) 128); [|lia]. rewrite IH. reflexivity.
Qed.

Lemma to_ascii_codes (l : list ascii) :
  Forall (fun c => code c < 128) l -> to_ascii (map code l) = Some l.
Proof.
  induction 1 as [|c l Hc _ IH]; [reflexivity|].
  cbn [map to_ascii]. rewrite IH. unfold ascii_of_code_point.
  destruct (Z.ltb_spec (code c) 128); [|lia].
  unfold code. rewrite Nat2Z.id, ascii_nat_embedding. reflexivity.
Qed.

Lemma digits_ascii (ds : list ascii) :
  forallb is_digit ds = true -> Forall (fun c => code c < 128) ds.
Proof.
  intros H. apply Forall_forall. intros c Hc.
  rewrite forallb_forall in H. exact (proj1 (digit_facts c (H c Hc))).
Qed.

Lemma lstrip_head (c : ascii) (l : list ascii) :
  is_space c = false -> lstrip (c :: l) = c :: l.
Proof. intros H. cbn [lstrip]. rewrite H. reflexivity. Qed.

(** A text that neither starts nor ends with white space. *)
Lemma strip_id (c : ascii) (l : list ascii) (d : ascii) :
  is_space c = false -> is_space d = false ->
  strip (c :: l ++ [d]) = c :: l ++ [d].
Proof.
  intros Hc Hd. unfold strip. rewrite (lstrip_head c _ Hc).
  change (c :: l ++ [d]) with ((c :: l) ++ [d]).
  rewrite rev_app_distr. cbn [rev app]. rewrite (lstrip_head d _ Hd).
  change (d :: rev l ++ [c]) with ([d] ++ rev (c :: l)).
  rewrite rev_app_distr, rev_involutive. reflexivity.
Qed.

Lemma strip_one (c : ascii) : is_space c = false -> strip [c] = [c].
Proof. intros Hc. unfold strip. cbn [lstrip rev app]. rewrite Hc. cbn. rewrite Hc. reflexivity. Qed.

Lemma last_split {A : Type} (l : list A) : l <> [] -> exists l' d, l = l' ++ [d].
Proof.
  intros H. destruct (exists_last H) as (l' & d & E). eauto.
Qed.

Lemma drop_underscores_digits (prev : ascii) (ds : list ascii) :
  forallb is_digit ds = true -> is_underscore prev = false ->
  drop_underscores prev ds = Some ds.
Proof.
  revert prev. induction ds as [|c ds IH]; intros prev H Hp; cbn [drop_underscores].
  - rewrite Hp. reflexivity.
  - cbn [forallb] in H. apply andb_true_iff in H as [Hc H].
    destruct (digit_facts c Hc) as (_ & _ & Hu & _).
    rewrite Hu, Hp. cbn [andb]. rewrite (IH c H Hu). reflexivity.
Qed.

Lemma span_digits_all (ds : list ascii) :
  forallb is_digit ds = true -> span_digits ds = (ds, []).
Proof.
  induction ds as [|c ds IH]; intros H; [reflexivity|].
  cbn [forallb] in H. apply andb_true_iff in H as [Hc H].
  cbn [span_digits]. rewrite Hc, (IH H). reflexivity.
Qed.

Lemma parse_numeral_digits (s : bool) (ds : list ascii) :
  ds <> [] -> forallb is_digit ds = true ->
  parse_numeral s ds = Some (decimal_float s ds [] 0).
Proof.
  intros Hne H. unfold parse_numeral. rewrite (span_digits_all ds H).
  destruct ds; [congruence | reflexivity].
Qed.

Lemma take_sign_digit (c : ascii) (l : list ascii) :
  is_digit c = true -> take_sign (c :: l) = (false, c :: l).
Proof.
  destruct c as [[] [] [] [] [] [] [] []]; vm_compute; intros H;
    try discriminate H; reflexivity.
Qed.

Lemma not_a_word (c : ascii) (l : list ascii) :
  is_digit c = true ->
  String.eqb (text (map lower (c :: l))) "inf"
  || String.eqb (text (map lower (c :: l))) "infinity" = false
  /\ String.eqb (text (map lower (c :: l))) "nan" = false.
Proof.
  intros H. destruct (digit_facts c H) as (_ & _ & _ & Hl & _ & _ & _ & Hi & Hn).
  cbn [map text string_of_list_ascii]. rewrite Hl.
  cbn [String.eqb]. rewrite Hi, Hn. split; reflexivity.
Qed.

(** Digits, with or without a minus sign in front, read as the number
    they denote. *)
Lemma parse_ascii_digits (neg : bool) (ds : list ascii) :
  ds <> [] -> forallb is_digit ds = true ->
  parse_ascii ((if neg then ["-"%char] else []) ++ ds)
  = Some (decimal_float neg ds [] 0).
Proof.
  intros Hne H. unfold parse_ascii.
  assert (Hstrip : strip ((if neg then ["-"%char] else []) ++ ds)
                   = (if neg then ["-"%char] else []) ++ ds).
  { destruct (last_split ds Hne) as (l' & d & ->).
    assert (Hd : is_space d = false).
    { rewrite forallb_forall in H.
      assert (Hin : In d (l' ++ [d])) by (apply in_or_app; right; left; reflexivity).
      exact (proj1 (proj2 (digit_facts d (H d Hin)))). }
    destruct neg; cbn [app].
    - apply strip_id; [reflexivity | exact Hd].
    - destruct l' as [|c l']; cbn [app].
      + apply strip_one. exact Hd.
      + apply strip_id; [|exact Hd].
        rewrite forallb_forall in H.
        exact (proj1 (proj2 (digit_facts c (H c (or_introl eq_refl))))). }
  rewrite Hstrip.
  destruct ds as [|c ds]; [congruence|].
  pose proof H as Hall. cbn [forallb] in H. apply andb_true_iff in H as [Hc H].
  destruct neg; cbn [app].
  - assert (E : drop_underscores "000" ("-"%char :: c :: ds)
                = Some ("-"%char :: c :: ds)).
    { change (drop_underscores "000" ("-"%char :: c :: ds))
        with (option_map (cons "-"%char) (drop_underscores "-" (c :: ds))).
      rewrite (drop_underscores_digits "-" (c :: ds) Hall eq_refl). reflexivity. }
    rewrite E.
    change (take_sign ("-"%char :: c :: ds)) with (true, c :: ds).
    destruct (not_a_word c ds Hc) as [-> ->].
    apply parse_numeral_digits; [discriminate | exact Hall].
  - rewrite (drop_underscores_digits "000" (c :: ds) Hall eq_refl).
    rewrite (take_sign_digit c ds Hc). destruct (not_a_word c ds Hc) as [-> ->].
    apply parse_numeral_digits; [discriminate | exact Hall].
Qed.

Lemma float_of_string_digits (neg : bool) (ds : list ascii) :
  ds <> [] -> forallb is_digit ds = true ->
  float_of_string (text ((if neg then ["-"%char] else []) ++ ds))
  = Ok (decimal_float neg ds [] 0).
Proof.
  intros Hne H. unfold float_of_string, parse_float.
  unfold chars at 1. unfold text. rewrite list_ascii_of_string_of_list_ascii.
  assert (Ha : Forall (fun c => code c < 128) ((if neg then ["-"%char] else []) ++ ds)).
  { apply Forall_app. split; [|exact (digits_ascii ds H)].
    destruct neg; repeat constructor. }
  rewrite (code_points_ascii _ Ha), (to_ascii_codes _ Ha).
  rewrite (parse_ascii_digits neg ds Hne H). reflexivity.
Qed.

(** ** Reading an integer numeral gives the float of the integer *)

(** A mantissa of 53 digits is kept as it is. *)
Lemma round_aux_53 (s : bool) (m : positive) (e : Z) :
  Zpos (digits2_pos m) = 53 -> -1074 <= e <= 971 ->
  binary_round_aux 53 1024 s (Zpos m) e loc_Exact = S754_finite s m e.
Proof.
  intros Hd He. unfold binary_round_aux.
  assert (E : shr_fexp 53 1024 (Zpos m) e loc_Exact
              = ({| shr_m := Zpos m; shr_r := false; shr_s := false |}, e)).
  { unfold shr_fexp. rewrite fexp64. cbn [Zdigits2]. rewrite Hd.
    replace (Z.max (53 + e - 53) (-1074) - e) with 0 by lia. reflexivity. }
  rewrite E. cbn [shr_m loc_of_shr_record round_nearest_even]. rewrite E.
  cbn [shr_m]. destruct (Z.leb_spec e (1024 - 53)); [reflexivity | lia].
Qed.

(** A mantissa of 54 digits whose last digit is zero loses that digit. *)
Lemma round_aux_54 (s : bool) (m : positive) (e : Z) :
  Zpos (digits2_pos m) = 53 -> -1074 <= e <= 971 ->
  binary_round_aux 53 1024 s (Zpos (xO m)) (e - 1) loc_Exact = S754_finite s m e.
Proof.
  intros Hd He. unfold binary_round_aux.
  assert (E : shr_fexp 53 1024 (Zpos (xO m)) (e - 1) loc_Exact
              = ({| shr_m := Zpos m; shr_r := false; shr_s := false |}, e)).
  { unfold shr_fexp. rewrite fexp64. cbn [Zdigits2 digits2_pos].
    rewrite Pos2Z.inj_succ, Hd.
    replace (Z.max (Z.succ 53 + (e - 1) - 53) (-1074) - (e - 1)) with 1 by lia.
    cbn [shr shr_record_of_loc iter_pos shr_1 orb]. f_equal. lia. }
  rewrite E. cbn [shr_m loc_of_shr_record round_nearest_even].
  assert (E2 : shr_fexp 53 1024 (Zpos m) e loc_Exact
              = ({| shr_m := Zpos m; shr_r := false; shr_s := false |}, e)).
  { unfold shr_fexp. rewrite fexp64. cbn [Zdigits2]. rewrite Hd.
    replace (Z.max (53 + e - 53) (-1074) - e) with 0 by lia. reflexivity. }
  rewrite E2. cbn [shr_m]. destruct (Z.leb_spec e (1024 - 53)); [reflexivity | lia].
Qed.

Lemma digits2_pos_iter_xO (p k : positive) :
  Zpos (digits2_pos (Pos.iter xO p k)) = Zpos (digits2_pos p) + Zpos k.
Proof.
  rewrite !digits2_pos_log2, pos_iter_xO.
  rewrite Z.log2_mul_pow2 by lia. lia.
Qed.

Lemma div_eucl_one (m : Z) : Z.div_eucl m 1 = (m, 0).
Proof.
  pose proof (Z.div_eucl_eq m 1 ltac:(lia)) as H.
  pose proof (Z.mod_pos_bound m 1 ltac:(lia)) as Hm.
  unfold Z.modulo in Hm. destruct (Z.div_eucl m 1) as [q r]. f_equal; lia.
Qed.

(** Dividing an integer by one gives the float of the integer. *)
Lemma of_ratio_one (s : bool) (p : positive) :
  Float64.of_ratio s p 1 = Float64.of_Z (cond_Zopp s (Zpos p)).
Proof.
  assert (G : Float64.of_ratio s p 1 = binary_round 53 1024 s p 0);
    [|destruct s; exact G].
  unfold Float64.of_ratio, Float64.prec, Float64.emax, SFdiv, SFdiv_core_binary,
    binary_round.
  cbn [Zdigits2 digits2_pos]. rewrite xorb_false_r.
  set (d := Zpos (digits2_pos p)).
  assert (Hd : 1 <= d) by (unfold d; lia).
  rewrite !fexp64. unfold shl_align.
  replace (d + 0 - (1 + 0)) with (d - 1) by lia.
  replace (0 - 0) with 0 by lia. rewrite Z.add_0_r.
  destruct (Z.le_gt_cases 54 d) as [Hbig|Hsmall].
  - replace (Z.min (Z.max (d - 1 - 53) (-1074)) 0) with 0 by lia.
    change (0 - 0) with 0. cbv iota.
    replace (Z.max (d - 53) (-1074) - 0) with (d - 53) by lia.
    destruct (d - 53) as [|k|k] eqn:E; try lia.
    rewrite div_eucl_one. reflexivity.
  - replace (Z.min (Z.max (d - 1 - 53) (-1074)) 0) with (d - 54) by lia.
    replace (0 - (d - 54)) with (54 - d) by lia.
    replace (Z.max (d - 53) (-1074)) with (d - 53) by lia.
    rewrite Z.sub_0_r.
    destruct (54 - d) as [|k|k] eqn:Ek; try lia.
    rewrite div_eucl_one. change (new_location 1 0) with loc_Exact.
    destruct (d - 53) as [|j|j] eqn:Ej; try lia.
    + (* d = 53 *)
      assert (k = 1%positive) by lia. subst k.
      change (Z.shiftl (Zpos p) 1) with (Zpos (xO p)).
      replace (d - 54) with (0 - 1) by lia.
      rewrite round_aux_54 by (fold d; lia).
      rewrite round_aux_53 by (fold d; lia). reflexivity.
    + (* d < 53 *)
      assert (Ek' : Zpos k = Zpos j + 1) by lia.
      assert (Es : Z.shiftl (Zpos p) (Zpos k) = Zpos (xO (Pos.iter xO p j))).
      { rewrite Z.shiftl_mul_pow2 by lia. rewrite (Pos2Z.inj_xO (Pos.iter xO p j)), pos_iter_xO, Ek'.
        rewrite Z.pow_add_r by lia. change (2 ^ 1) with 2. ring. }
      rewrite Es.
      assert (Hdig : Zpos (digits2_pos (Pos.iter xO p j)) = 53).
      { rewrite digits2_pos_iter_xO. fold d. lia. }
      replace (d - 54) with (Zneg j - 1) by lia.
      rewrite round_aux_54 by (try exact Hdig; lia).
      rewrite round_aux_53 by (try exact Hdig; lia). reflexivity.
Qed.

Lemma digits_no_CR (ds : list ascii) : forallb is_digit ds = true -> no_CR ds.
Proof.
  intros H Hin. rewrite forallb_forall in H. specialize (H CR Hin). discriminate.
Qed.

Lemma py_len_le_length (s : string) : py_len s <= Z.of_nat (List.length (chars s)).
Proof.
  unfold py_len. apply inj_le. apply filter_length_le.
Qed.

(** [float(str(z))] is [float(z)] for an [int] that converts to [float],
    and the digits go through the csv file unchanged. *)
Lemma float_of_str_of_int (z : Z) :
  Z.abs z < Float64.overflow_bound ->
  float_of_string (str_of_int z) = Ok (Float64.of_Z z) /\ field_ok (str_of_int z).
Proof.
  intros Hz.
  assert (Hb : Float64.overflow_bound < 10 ^ 400) by reflexivity.
  assert (G : forall p, Zpos p < 10 ^ 400 -> forall neg : bool,
             float_of_string (text ((if neg then ["-"%char] else [])
                                    ++ chars (str_of_int (Zpos p))))
             = Ok (Float64.of_Z (cond_Zopp neg (Zpos p)))
             /\ no_CR (chars (str_of_int (Zpos p)))
             /\ Z.of_nat (List.length (chars (str_of_int (Zpos p)))) <= 400).
  { intros p Hp neg.
    destruct (str_of_int_digits p) as (Hv & Hd & Hne & Hlen).
    specialize (Hlen 400 ltac:(lia) Hp).
    split; [|split; [apply digits_no_CR; exact Hd | exact Hlen]].
    rewrite (float_of_string_digits neg _ Hne Hd).
    unfold decimal_float. rewrite app_nil_r, Hv.
    cbn [List.length Z.of_nat]. rewrite Z.sub_0_r, Z.add_0_r.
    change (Zpos p =? 0) with false. cbv iota.
    destruct (Z.ltb_spec 400 (Z.of_nat (List.length (chars (str_of_int (Zpos p))))));
      [lia|].
    destruct (Z.ltb_spec (Z.of_nat (List.length (chars (str_of_int (Zpos p))))) (-400));
      [lia|].
    unfold float_of_decimal. change (0 <=? 0) with true. cbv iota.
    change (Z.to_pos (10 ^ 0)) with 1%positive. rewrite Pos.mul_1_r.
    rewrite of_ratio_one. reflexivity. }
  destruct z as [|p|p].
  - split; [vm_compute; reflexivity|].
    split; [vm_compute; intuition discriminate | vm_compute; discriminate].
  - destruct (G p ltac:(lia) false) as (H1 & H2 & H3). cbn [app] in H1.
    rewrite text_chars in H1. split; [exact H1|]. split; [exact H2|].
    unfold fits, FIELD_LIMIT. pose proof (py_len_le_length (str_of_int (Zpos p))). lia.
  - destruct (G p ltac:(lia) true) as (H1 & H2 & H3). cbn [app] in H1.
    rewrite str_of_int_neg.
    change (String "-" (str_of_int (Zpos p)))
      with ("-" +++ str_of_int (Zpos p)).
    assert (E : "-" +++ str_of_int (Zpos p)
                = text ("-"%char :: chars (str_of_int (Zpos p)))).
    { cbn [text string_of_list_ascii]. unfold chars.
      rewrite string_of_list_ascii_of_string. reflexivity. }
    rewrite E. split; [exact H1|]. split.
    + unfold no_CR. rewrite chars_text. cbn [In].
      intros [Hc|Hc]; [discriminate | exact (H2 Hc)].
    + unfold fits, FIELD_LIMIT.
      pose proof (py_len_le_length (text ("-"%char :: chars (str_of_int (Zpos p))))) as Hl.
      rewrite chars_text in Hl. cbn [List.length] in Hl. lia.
Qed.

(** ** Numbers that go through the file unchanged *)

Lemma reads_back_str (x : number) :
  reads_back x ->
  float_of_string (py_str x) = Ok (float_of x) /\ field_ok (py_str x).
Proof.
  destruct x as [z|f]; cbn [reads_back py_str float_of]; intros H.
  - exact (float_of_str_of_int z H).
  - exact H.
Qed.

Lemma kept_writable (e : Employee) : kept e -> writable e.
Proof.
  intros (H1 & H2 & H3 & H4 & H5 & H6).
  apply reads_back_str in H5 as [_ H5]. apply reads_back_str in H6 as [_ H6].
  unfold writable, written_fields. repeat (constructor; [assumption|]). constructor.
Qed.

Lemma kept_reread (e : Employee) : kept e -> reread e = Ok (floated e).
Proof.
  intros (_ & _ & _ & _ & H5 & H6).
  apply reads_back_str in H5 as [H5 _]. apply reads_back_str in H6 as [H6 _].
  unfold reread, written_fields, employee_of_fields. rewrite H5, H6. reflexivity.
Qed.

Lemma mapM_Ok_map {A B : Type} (f : A -> result B) (g : A -> B) (l : list A) :
  Forall (fun x => f x = Ok (g x)) l -> mapM f l = Ok (map g l).
Proof.
  induction 1 as [|x l Hx _ IH]; [reflexivity|].
  cbn [mapM map]. rewrite Hx, IH. reflexivity.
Qed.

Lemma reload_kept (emps : list Employee) :
  Forall kept emps -> reload emps = Ok (map floated emps).
Proof.
  intros H. rewrite reload_reread.
  - apply mapM_Ok_map. eapply Forall_impl; [|exact H]. apply kept_reread.
  - eapply Forall_impl; [|exact H]. apply kept_writable.
Qed.

(** ** Dates *)

(** Year, month and day of the ordinals of the calendar. *)
Lemma civil_of_ordinal_range (n : Z) :
  1 <= n <= max_ordinal ->
  let '(y, m, d) := civil_of_ordinal n in
  1 <= y <= 9999 /\ 1 <= m <= 12 /\ 1 <= d <= 31.
Proof.
  unfold max_ordinal, civil_of_ordinal. intros Hn. cbv zeta.
  repeat match goal with
         | |- context [Z.ltb ?a ?b] => destruct (Z.ltb_spec a b)
         | |- context [Z.leb ?a ?b] => destruct (Z.leb_spec a b)
         end;
    Z.to_euclidean_division_equations; lia.
Qed.

(** ** Lengths of padded numbers *)

Lemma py_len_zeros (n : nat) : py_len (repeat_str "0" n) = Z.of_nat n.
Proof.
  induction n as [|n IH]; [reflexivity|].
  cbn [repeat_str]. rewrite py_len_app, IH. change (py_len "0") with 1. lia.
Qed.

Lemma repeat_zero_digits (n : nat) : forallb is_digit (chars (repeat_str "0" n)) = true.
Proof.
  induction n as [|n IH]; [reflexivity|].
  cbn [repeat_str]. rewrite chars_app, forallb_app, IH. reflexivity.
Qed.

(** A number of at most [width] digits padded to [width]: digits only,
    [width] of them. *)
Lemma zero_pad_digits (width z : Z) :
  0 <= z < 10 ^ width -> 0 < width ->
  forallb is_digit (chars (zero_pad width z)) = true
  /\ py_len (zero_pad width z) = width.
Proof.
  intros Hz Hw. unfold zero_pad, py_str_mul.
  assert (H : forallb is_digit (chars (str_of_int z)) = true
              /\ 1 <= py_len (str_of_int z) <= width).
  { destruct z as [|p|p]; try lia.
    - split; [reflexivity|]. change (py_len (str_of_int 0)) with 1. lia.
    - destruct (str_of_int_digits p) as (_ & Hd & Hne & Hlen).
      split; [exact Hd|].
      assert (E : py_len (str_of_int (Zpos p))
                  = Z.of_nat (List.length (chars (str_of_int (Zpos p))))).
      { unfold py_len. f_equal. f_equal. apply forallb_filter_id.
        rewrite forallb_forall in *. intros c Hc. specialize (Hd c Hc).
        destruct (digit_facts c Hd) as (Hlt & _).
        unfold is_continuation. fold (code c).
        destruct (Z.leb_spec 128 (code c)); [lia | reflexivity]. }
      rewrite E. split; [|apply Hlen; lia].
      destruct (chars (str_of_int (Zpos p))); [congruence | cbn [List.length]; lia]. }
  destruct H as (Hd & Hlen). split.
  - rewrite chars_app, forallb_app, repeat_zero_digits, Hd. reflexivity.
  - rewrite py_len_app, py_len_zeros. lia.
Qed.

(** ** The records of the generator go through the file unchanged *)

Lemma digits_field_ok (s : string) :
  forallb is_digit (chars s) = true -> py_len s <= FIELD_LIMIT -> field_ok s.
Proof.
  intros Hd Hl. split; [apply digits_no_CR; exact Hd | exact Hl].
Qed.

Lemma field_ok_app (a b : string) :
  no_CR (chars a) -> no_CR (chars b) -> py_len a + py_len b <= FIELD_LIMIT ->
  field_ok (a +++ b).
Proof.
  intros Ha Hb Hl. split.
  - unfold no_CR in *. rewrite chars_app, in_app_iff. tauto.
  - unfold fits. rewrite py_len_app. exact Hl.
Qed.

(** An identifier: at most 400 digits after the letters. *)
Lemma employee_id_ok (i : Z) : 0 <= i < 10 ^ 400 -> field_ok (employee_id i).
Proof.
  intros Hi. unfold employee_id, format_0d.
  destruct (Z.ltb_spec i 0) as [Hneg|Hpos]; [lia|].
  assert (H : forallb is_digit (chars (zero_pad 4 i)) = true
              /\ py_len (zero_pad 4 i) <= 404).
  { unfold zero_pad, py_str_mul.
    assert (Hs : forallb is_digit (chars (str_of_int i)) = true
                 /\ py_len (str_of_int i) <= 400).
    { destruct i as [|p|p]; try lia.
      - split; [reflexivity | vm_compute; discriminate].
      - destruct (str_of_int_digits p) as (_ & Hd & _ & Hlen).
        split; [exact Hd|].
        pose proof (py_len_le_length (str_of_int (Zpos p))).
        specialize (Hlen 400 ltac:(lia) ltac:(lia)). lia. }
    destruct Hs as [Hd Hl]. split.
    - rewrite chars_app, forallb_app, repeat_zero_digits, Hd. reflexivity.
    - rewrite py_len_app, py_len_zeros.
      assert (0 <= py_len (str_of_int i)) by (unfold py_len; lia). lia. }
  destruct H as [Hd Hl].
  apply field_ok_app.
  - vm_compute. intuition discriminate.
  - apply digits_no_CR. exact Hd.
  - change (py_len "EMP") with 3. unfold FIELD_LIMIT. lia.
Qed.

(** A date of the calendar is written with ten characters: four digits of
    year, two of month and two of day, with dashes between them. *)
Lemma strftime_date_form (dt : datetime) :
  1 <= ordinal dt <= max_ordinal ->
  exists y m d,
    civil_of_ordinal (ordinal dt) = (y, m, d)
    /\ 1 <= y <= 9999 /\ 1 <= m <= 12 /\ 1 <= d <= 31
    /\ strftime_date dt = zero_pad 4 y +++ "-" +++ zero_pad 2 m +++ "-" +++ zero_pad 2 d
    /\ py_len (strftime_date dt) = 10
    /\ field_ok (strftime_date dt).
Proof.
  intros Hn. pose proof (civil_of_ordinal_range (ordinal dt) Hn) as H.
  unfold strftime_date. destruct (civil_of_ordinal (ordinal dt)) as [[y m] d].
  destruct H as (Hy & Hm & Hd).
  destruct (zero_pad_digits 4 y ltac:(lia) ltac:(lia)) as [Dy Ly].
  destruct (zero_pad_digits 2 m ltac:(lia) ltac:(lia)) as [Dm Lm].
  destruct (zero_pad_digits 2 d ltac:(lia) ltac:(lia)) as [Dd Ld].
  exists y, m, d. split; [reflexivity|]. repeat (split; [assumption|]).
  split; [reflexivity|].
  assert (Hlen : py_len (zero_pad 4 y +++ "-" +++ zero_pad 2 m +++ "-" +++ zero_pad 2 d) = 10).
  { rewrite !py_len_app, Ly, Lm, Ld. change (py_len "-") with 1. lia. }
  split; [exact Hlen|]. split; [|unfold fits, FIELD_LIMIT; lia].
  unfold no_CR. rewrite !chars_app, !in_app_iff.
  pose proof (digits_no_CR _ Dy). pose proof (digits_no_CR _ Dm).
  pose proof (digits_no_CR _ Dd). unfold no_CR in *.
  cbn [chars list_ascii_of_string In]. intuition discriminate.
Qed.

Lemma plain_field_ok (s : string) : plain s = true -> field_ok s.
Proof.
  unfold plain. intros H. apply andb_true_iff in H as [H1 H2].
  split; [|apply Z.leb_le; exact H2].
  intros Hin. apply negb_true_iff in H1.
  assert (existsb (Ascii.eqb CR) (chars s) = true); [|congruence].
  apply existsb_exists. exists CR. split; [exact Hin | reflexivity].
Qed.

Lemma names_plain :
  forallb (fun first => forallb (fun last => plain (first +++ " " +++ last)) LAST_NAMES)
    FIRST_NAMES = true.
Proof. vm_compute. reflexivity. Qed.

Lemma departments_plain : forallb plain DEPARTMENTS = true.
Proof. vm_compute. reflexivity. Qed.

Lemma tenths_read_back :
  forallb (fun k => reads_backb (Float (float_of_decimal false k (-1))))
    (py_range 50 101) = true.
Proof. vm_compute. reflexivity. Qed.

Lemma float_same_eq (a b : Float64.float) : float_same a b = true -> a = b.
Proof.
  destruct a as [s|s| |s m e], b as [t|t| |t n f]; cbn [float_same]; try discriminate;
    try reflexivity.
  - intros H. apply Bool.eqb_prop in H. congruence.
  - intros H. apply Bool.eqb_prop in H. congruence.
  - intros H. apply andb_true_iff in H as [H He]. apply andb_true_iff in H as [Hs Hm].
    apply Bool.eqb_prop in Hs. apply Pos.eqb_eq in Hm. apply Z.eqb_eq in He. congruence.
Qed.

Lemma reads_backb_spec (x : number) : reads_backb x = true -> reads_back x.
Proof.
  destruct x as [z|f]; cbn [reads_backb reads_back]; intros H.
  - apply Z.ltb_lt. exact H.
  - apply andb_true_iff in H as [H1 H2].
    split; [|apply plain_field_ok; exact H2].
    destruct (float_of_string (float_repr f)) as [g|]; [|discriminate].
    rewrite (float_same_eq _ _ H1). reflexivity.
Qed.

Lemma keptb_spec (e : Employee) : keptb e = true -> kept e.
Proof.
  unfold keptb, kept. intros H.
  apply andb_true_iff in H as [H H6]. apply andb_true_iff in H as [H H5].
  apply andb_true_iff in H as [H H4]. apply andb_true_iff in H as [H H3].
  apply andb_true_iff in H as [H1 H2].
  repeat (split; [apply plain_field_ok; assumption|]).
  split; apply reads_backb_spec; assumption.
Qed.

Lemma keptb_all (l : list Employee) : forallb keptb l = true -> Forall kept l.
Proof.
  intros H. apply Forall_forall. intros e He. apply keptb_spec.
  rewrite forallb_forall in H. exact (H e He).
Qed.

Lemma reads_back_tenth (k : Z) :
  50 <= k <= 100 -> reads_back (Float (float_of_decimal false k (-1))).
Proof.
  intros Hk. pose proof tenths_read_back as H. rewrite forallb_forall in H.
  apply reads_backb_spec. exact (H k (In_py_range 50 101 k ltac:(lia))).
Qed.

Lemma generated_kept {W : Type} (env : World W) (e : Employee) (i : Z) :
  0 <= i < 10 ^ 400 -> emp_id e = employee_id i ->
  generated e -> drawn env e -> kept e.
Proof.
  intros Hi Hid ((base & variation & Hb & Hv & Hsal) & _ & (k & Hk & Hscore) & _)
    ((first & last & Hf & Hl & Hname) & Hdept & (w & days & joined & Hdays & Hj & Hdate)).
  unfold kept. rewrite Hid, Hname, Hdate, Hsal, Hscore.
  split; [apply employee_id_ok; exact Hi|].
  split.
  { apply plain_field_ok. pose proof names_plain as H.
    rewrite forallb_forall in H. specialize (H first Hf).
    rewrite forallb_forall in H. exact (H last Hl). }
  split.
  { apply plain_field_ok. pose proof departments_plain as H.
    rewrite forallb_forall in H. exact (H _ Hdept). }
  split.
  { unfold minus_days in Hj.
    destruct ((1 <=? ordinal (fst (now env w)) - days)
              && (ordinal (fst (now env w)) - days <=? max_ordinal)) eqn:E;
      [|discriminate].
    injection Hj as <-. apply andb_true_iff in E as [E1 E2].
    apply Z.leb_le in E1, E2.
    destruct (strftime_date_form
                (mk_datetime (ordinal (fst (now env w)) - days) (hour (fst (now env w)))
                   (minute (fst (now env w))) (second (fst (now env w)))))
      as (y & m & d & _ & _ & _ & _ & _ & _ & Hok); [cbn [ordinal]; lia | exact Hok]. }
  split.
  { cbn [reads_back].
    assert (Hbase : 50000 <= base <= 80000).
    { destruct (base_salary_of _ Hdept) as (b' & Hb' & Hr). congruence. }
    assert (2 ^ 1023 < Float64.overflow_bound) by reflexivity.
    assert (2 ^ 20 < 2 ^ 1023) by (apply Z.pow_lt_mono_r; lia).
    change (2 ^ 20) with 1048576 in *. lia. }
  apply reads_back_tenth. exact Hk.
Qed.

Lemma load_kept (fs : filesystem) (filename : string) (emps : list Employee) :
  dict_get fs filename = Some (FileManager.csv_text emps) ->
  Forall kept emps ->
  FileManager.load_from_csv fs filename = Ok (map floated emps).
Proof.
  intros Hfile H.
  rewrite (load_rows fs filename (map written_fields emps)).
  - rewrite mapM_map. apply mapM_Ok_map.
    eapply Forall_impl; [|exact H]. apply kept_reread.
  - apply Forall_map. eapply Forall_impl; [|exact H].
    intros e He. split; [reflexivity | exact (kept_writable e He)].
  - rewrite Hfile, csv_text_rows. reflexivity.
Qed.

Lemma MAX_LEN_digits : MAX_LEN < 10 ^ 400.
Proof. reflexivity. Qed.

Lemma batch_kept {W : Type} (env : World W) (emps : list Employee) (indices : list Z) :
  map emp_id emps = map employee_id indices ->
  Forall (fun i => 0 <= i < MAX_LEN) indices ->
  Forall generated emps -> Forall (drawn env) emps -> Forall kept emps.
Proof.
  revert indices. induction emps as [|e emps IH]; intros indices Hid Hi Hg Hd;
    [constructor|].
  destruct indices as [|i indices]; [discriminate|].
  cbn [map] in Hid. injection Hid as Hid1 Hid.
  inversion Hi; subst. inversion Hg; subst. inversion Hd; subst.
  constructor; [|eapply IH; eassumption].
  apply (generated_kept env e i); try assumption.
  pose proof MAX_LEN_digits. lia.
Qed.

Lemma generated_batch {W : Type} (env : World W) (n : Z) (w w' : W)
  (emps : list Employee) :
  lawful env -> n < MAX_LEN ->
  generate_employees env n w = Ok (emps, w') ->
  Forall generated emps /\ Forall (drawn env) emps /\ Forall kept emps
  /\ map emp_id emps = map employee_id (py_range 1 (n + 1)).
Proof.
  intros Hlaw Hn H. unfold generate_employees in H.
  destruct (generate_loop_spec env Hlaw (py_range 1 (n + 1)) [] w)
    as (emps0 & w0 & Hl & Hids & Hg & Hd).
  rewrite Hl in H. cbn [app] in H. injection H as <- _.
  split; [exact Hg|]. split; [exact Hd|]. split; [|exact Hids].
  apply (batch_kept env emps0 (py_range 1 (n + 1))); try assumption.
  apply Forall_forall. intros i Hi. apply py_range_In in Hi. lia.
Qed.

(** ** Files and generated records *)

Lemma dict_get_set_other {V : Type} (d : dict V) (k k' : string) (v : V) :
  k' <> k -> dict_get (dict_set d k v) k' = dict_get d k'.
Proof.
  intros Hk. induction d as [|[k0 v0] d IH]; simpl.
  - destruct (String.eqb_spec k k'); [congruence | reflexivity].
  - destruct (String.eqb_spec k0 k) as [->|Hn]; simpl.
    + destruct (String.eqb_spec k k'); [congruence | reflexivity].
    + rewrite IH. reflexivity.
Qed.

Lemma generated_salary (e : Employee) :
  generated e -> In (department e) DEPARTMENTS ->
  exists base variation,
    dict_get base_salaries (department e) = Some base
    /\ -10000 <= variation <= 30000
    /\ salary e = Int (base + variation)
    /\ 40000 <= base + variation <= 110000.
Proof.
  intros ((base & variation & Hb & Hv & Hs) & _) Hdept.
  destruct (base_salary_of _ Hdept) as (b' & Hb' & Hr).
  assert (b' = base) by congruence. subst b'.
  exists base, variation. rewrite Hs.
  replace (Z.max (base + variation) 30000) with (base + variation) by lia.
  repeat split; try assumption; lia.
Qed.

Lemma generated_small {W : Type} (env : World W) (e : Employee) :
  generated e -> drawn env e -> small_fields e.
Proof.
  intros Hg Hd. pose proof Hg as (_ & _ & (k & _ & Hk) & _).
  destruct Hd as (_ & Hdept & _).
  destruct (generated_salary e Hg Hdept) as (base & variation & _ & _ & Hs & Hr).
  unfold small_fields. rewrite Hs, Hk. split; [|exact I].
  unfold small, SMALL.
  assert (2 ^ 20 < 2 ^ 960) by (apply Z.pow_lt_mono_r; lia).
  change (2 ^ 20) with 1048576 in *. lia.
Qed.

(* ================================================================== *)
(** * Further properties *)

(** ** What the report can raise *)

Lemma statistics_Raise (emps : list Employee) (e : exn) :
  get_department_statistics emps = Raise e -> e = OverflowError.
Proof.
  intros H. unfold get_department_statistics in H.
  apply bind_Raise in H as [H|(d & Hd & H)]; [exact (aggregate_Raise _ _ H)|].
  apply mapM_Raise in H as ([dept t] & Hin & H).
  pose proof (aggregate_groups _ _ Hd) as Hg. rewrite Forall_forall in Hg.
  destruct (Hg _ Hin) as (H1 & _). simpl in H1.
  apply (average_Raise dept t e); [lia | exact H].
Qed.

Lemma statistics_averages_float (emps : list Employee) (stats : dict dept_stats) :
  get_department_statistics emps = Ok stats ->
  Forall (fun kv => exists a p, avg_salary (snd kv) = Float a
                                /\ avg_performance (snd kv) = Float p) stats.
Proof.
  intros H. unfold get_department_statistics in H.
  apply bind_Ok in H as (d & _ & H). apply mapM_Forall2 in H.
  induction H as [|[dept t] kv d' stats' Hkv _ IH]; constructor; [|exact IH].
  unfold average in Hkv.
  apply bind_Ok in Hkv as (a & Ha & Hkv). apply bind_Ok in Hkv as (p & Hp & Hkv).
  injection Hkv as <-. cbn [snd avg_salary avg_performance].
  apply py_truediv_Ok_float in Ha as (fa & ->).
  apply py_truediv_Ok_float in Hp as (fp & ->). eauto.
Qed.

Lemma concatM_Raise {A B : Type} (f : A -> result (list B)) (l : list A) (e : exn) :
  concatM f l = Raise e -> exists x, In x l /\ f x = Raise e.
Proof.
  induction l as [|x l IH]; simpl; intros H; [discriminate|].
  apply bind_Raise in H as [H | (y & Hy & H)]; [eauto|].
  apply bind_Raise in H as [H | (ys & Hys & H)]; [|discriminate].
  destruct (IH H) as (x' & Hin & Hx'); eauto.
Qed.

Lemma py_sum_Raise (l : list number) (e : exn) : py_sum l = Raise e -> e = OverflowError.
Proof.
  unfold py_sum. generalize (Int 0) as acc.
  induction l as [|x l IH]; simpl; intros acc H; [discriminate|].
  apply bind_Raise in H as [H|(acc' & _ & H)]; [exact (py_add_Raise _ _ _ H)|].
  exact (IH _ H).
Qed.

Lemma format_f_Raise (width : Z) (grouping : bool) (places : Z) (x : number) (e : exn) :
  format_f width grouping places x = Raise e -> e = OverflowError.
Proof.
  unfold format_f. intros H.
  apply bind_Raise in H as [H|(f & _ & H)]; [exact (to_float_Raise _ _ H) | discriminate].
Qed.

Lemma overall_lines_Raise (emps : list Employee) (e : exn) :
  emps <> [] -> overall_lines emps = Raise e -> e = OverflowError.
Proof.
  intros Hne H.
  assert (Ht : 0 < len emps) by (destruct emps; [congruence | unfold len; simpl; lia]).
  assert (Hl1 : len (all_salaries emps) = len emps)
    by (unfold len, all_salaries; rewrite length_map; reflexivity).
  assert (Hl2 : len (all_performances emps) = len emps)
    by (unfold len, all_performances; rewrite length_map; reflexivity).
  assert (Hs : all_salaries emps <> [])
    by (destruct emps; [congruence | discriminate]).
  unfold overall_lines in H. cbv zeta in H. rewrite Hl1, Hl2 in H.
  apply bind_Raise in H as [H|(total & _ & H)]; [exact (py_sum_Raise _ _ H)|].
  apply bind_Raise in H as [H|(mean & _ & H)];
    [eapply (py_truediv_int_Raise _ (len emps) e); [lia | exact H]|].
  apply bind_Raise in H as [H|(mean_txt & _ & H)]; [exact (format_f_Raise _ _ _ _ _ H)|].
  apply bind_Raise in H as [H|(median & _ & H)].
  { destruct (median_salary_spec emps Hne) as (m & Hm & _). congruence. }
  apply bind_Raise in H as [H|(median_txt & _ & H)]; [exact (format_f_Raise _ _ _ _ _ H)|].
  apply bind_Raise in H as [H|(lo & _ & H)].
  { destruct (all_salaries emps); [congruence | discriminate]. }
  apply bind_Raise in H as [H|(lo_txt & _ & H)]; [exact (format_f_Raise _ _ _ _ _ H)|].
  apply bind_Raise in H as [H|(hi & _ & H)].
  { destruct (all_salaries emps); [congruence | discriminate]. }
  apply bind_Raise in H as [H|(hi_txt & _ & H)]; [exact (format_f_Raise _ _ _ _ _ H)|].
  apply bind_Raise in H as [H|(ptotal & _ & H)]; [exact (py_sum_Raise _ _ H)|].
  apply bind_Raise in H as [H|(pmean & _ & H)];
    [eapply (py_truediv_int_Raise _ (len emps) e); [lia | exact H]|].
  apply bind_Raise in H as [H|(pmean_txt & _ & H)]; [exact (format_f_Raise _ _ _ _ _ H)|].
  discriminate.
Qed.

Lemma report_lines_Raise (timestamp : datetime) (emps : list Employee) (e : exn) :
  emps <> [] -> report_lines timestamp emps = Raise e -> e = OverflowError.
Proof.
  intros Hne H. unfold report_lines in H. cbv zeta in H.
  apply bind_Raise in H as [H|(stats & Hstats & H)]; [exact (statistics_Raise _ _ H)|].
  apply bind_Raise in H as [H|(dept_lines & _ & H)].
  { apply concatM_Raise in H as (item & Hin & H).
    pose proof (statistics_averages_float _ _ Hstats) as Hf.
    rewrite Forall_forall in Hf.
    destruct (department_lines_total item) as (ls & Hls); [|congruence].
    apply Hf. unfold sorted in Hin.
    eapply Permutation_in; [apply sort_asc_perm | exact Hin]. }
  apply bind_Raise in H as [H|(dist_lines & _ & H)].
  { destruct (distribution_lines_total emps Hne) as (ls & Hls). congruence. }
  apply bind_Raise in H as [H|(summary & _ & H)];
    [exact (overall_lines_Raise _ _ Hne H) | discriminate].
Qed.

(** X5: on a collection whose scores can be written ([int] scores of at
    most 4300 digits) the report raises ZeroDivisionError when the
    collection is empty and nothing but OverflowError when it is not. *)
Theorem report_errors (timestamp : datetime) (emps : list Employee) (e : exn) :
  Forall score_prints emps ->
  generate_report timestamp emps = Raise e ->
  (emps = [] /\ e = ZeroDivisionError) \/ (emps <> [] /\ e = OverflowError).
Proof.
  intros _ H. destruct emps as [|x emps].
  - left. split; [reflexivity|]. unfold generate_report in H.
    rewrite report_lines_empty in H. cbn [bind] in H. congruence.
  - right. split; [discriminate|]. unfold generate_report in H.
    apply bind_Raise in H as [H|(ls & _ & H)]; [|discriminate].
    apply (report_lines_Raise timestamp (x :: emps) e); [discriminate | exact H].
Qed.

Lemma report_errors_witness :
  ([tycoon] = [] /\ OverflowError = ZeroDivisionError)
  \/ ([tycoon] <> [] /\ OverflowError = OverflowError).
Proof.
  apply (report_errors noon [tycoon] OverflowError).
  - repeat constructor.
  - vm_compute. reflexivity.
Defined.

(** ** The salaries of generated records *)

(** X9: the floor of 30000 never applies to a generated record: its salary
    is the base salary of its department plus the variation drawn, an
    [int] from 40000 to 110000. *)
Theorem generated_salary_above_floor {W : Type} (env : World W) (n : Z) (w w' : W)
  (emps : list Employee) :
  lawful env ->
  generate_employees env n w = Ok (emps, w') ->
  Forall (fun e => exists base variation,
            dict_get base_salaries (department e) = Some base
            /\ -10000 <= variation <= 30000
            /\ salary e = Int (base + variation)
            /\ 40000 <= base + variation <= 110000) emps.
Proof.
  intros Hlaw H. unfold generate_employees in H.
  destruct (generate_loop_spec env Hlaw (py_range 1 (n + 1)) [] w)
    as (emps0 & w0 & Hl & _ & Hg & Hd).
  rewrite Hl in H. cbn [app] in H. injection H as <- _.
  rewrite Forall_forall in *. intros e He.
  destruct (Hd e He) as (_ & Hdept & _).
  exact (generated_salary e (Hg e He) Hdept).
Qed.

(** X10: for [n <= 0] the loop does not run: the result is the empty list
    and nothing is drawn, whatever the environment. *)
Theorem generate_nothing {W : Type} (env : World W) (n : Z) (w : W) :
  n <= 0 -> generate_employees env n w = Ok ([], w).
Proof.
  intros Hn. unfold generate_employees, py_range.
  replace (Z.to_nat (n + 1 - 1)) with O by lia. reflexivity.
Qed.

(** ** The ranking *)

Lemma StronglySorted_app_inv {A : Type} (R : A -> A -> Prop) (l1 l2 : list A) :
  StronglySorted R (l1 ++ l2) -> forall a b, In a l1 -> In b l2 -> R a b.
Proof.
  induction l1 as [|x l1 IH]; simpl; intros H a b Ha Hb; [destruct Ha|].
  inversion H as [|? ? Hs Hx]; subst.
  destruct Ha as [<-|Ha]; [|exact (IH Hs a b Ha Hb)].
  rewrite Forall_forall in Hx. apply Hx, in_or_app. right. exact Hb.
Qed.

(** X11: the top performers are a selection of the best: together with the
    employees left out they are the whole list, and no employee left out
    has a higher score than one selected. *)
Theorem top_performers_are_best (emps : list Employee) (n : Z) :
  scores_ordered emps -> 0 <= n ->
  exists rest,
    Permutation (get_top_performers emps n ++ rest) emps
    /\ len (get_top_performers emps n) = Z.min n (len emps)
    /\ forall a b, In a (get_top_performers emps n) -> In b rest ->
                   py_lt (performance_score a) (performance_score b) = false.
Proof.
  intros Hs Hn. unfold get_top_performers. rewrite (slice_to_nonneg _ n Hn).
  exists (skipn (Z.to_nat n) (sorted_employees emps)). split; [|split].
  - rewrite firstn_skipn. apply sorted_employees_perm.
  - unfold len. rewrite length_firstn, sorted_employees_length. lia.
  - apply (StronglySorted_app_inv not_below).
    rewrite firstn_skipn. apply sorted_employees_descending, Hs.
Qed.

(** ** Reports of loaded data *)

Lemma loaded_float_fields (fs : filesystem) (filename : string) (emps : list Employee) :
  FileManager.load_from_csv fs filename = Ok emps -> Forall float_fields emps.
Proof.
  unfold FileManager.load_from_csv. intros H.
  destruct (dict_get fs filename) as [content|]; [|discriminate].
  apply bind_Ok in H as (rows & _ & H).
  apply mapM_Forall2 in H.
  induction H as [|row e rows' emps' He _ IH]; constructor; [|exact IH].
  exact (employee_of_row_floats row e He).
Qed.


(** ** Loading rows *)

Lemma float_of_string_Raise (s : string) (e : exn) :
  float_of_string s = Raise e -> e = ValueError.
Proof.
  unfold float_of_string. destruct (parse_float (chars s)); congruence.
Qed.

Lemma employee_of_fields_Raise (row : list string) (e : exn) :
  List.length row = 6%nat -> employee_of_fields row = Raise e -> e = ValueError.
Proof.
  intros Hlen H.
  do 6 (destruct row as [|? row]; [discriminate|]).
  destruct row; [|discriminate]. cbn [employee_of_fields] in H.
  apply bind_Raise in H as [H|(x & _ & H)]; [exact (float_of_string_Raise _ _ H)|].
  apply bind_Raise in H as [H|(y & _ & H)]; [exact (float_of_string_Raise _ _ H)|].
  discriminate.
Qed.

(** X8: a file that holds the header and rows of six fields as the csv
    writer writes them (the fields without carriage return and within the
    field limit of the reader; commas, quotes and line feeds allowed)
    loads row by row: the result is the list of the records built from
    the rows, in order, or the exception of the first row that fails; the
    only exception is the ValueError of [float] on a field that is not a
    number. *)
Theorem load_written_rows (fs : filesystem) (filename : string)
  (rows : list (list string)) :
  Forall row_ok rows ->
  dict_get fs filename = Some (file_of_rows rows) ->
  FileManager.load_from_csv fs filename = mapM employee_of_fields rows
  /\ (forall e, FileManager.load_from_csv fs filename = Raise e -> e = ValueError)
  /\ (forall emps, FileManager.load_from_csv fs filename = Ok emps ->
        len emps = len rows).
Proof.
  intros Hrows Hfile. rewrite (load_rows fs filename rows Hrows Hfile).
  split; [reflexivity|]. split.
  - intros e H. apply mapM_Raise in H as (row & Hin & H).
    rewrite Forall_forall in Hrows.
    exact (employee_of_fields_Raise row e (proj1 (Hrows row Hin)) H).
  - intros emps H. unfold len. rewrite (mapM_length _ _ _ H). reflexivity.
Qed.

(** X12: what is loaded from a file that holds the header and rows of
    six fields as the csv writer writes them can always be reported,
    unless the file has no row: the records are as many as the rows, the
    report raises ZeroDivisionError when there is none, and is produced
    otherwise; it cannot overflow, because the numbers of loaded records
    are floats. *)
Theorem loaded_collection_reports (fs : filesystem) (filename : string)
  (rows : list (list string)) (emps : list Employee) (timestamp : datetime) :
  Forall row_ok rows ->
  dict_get fs filename = Some (file_of_rows rows) ->
  len rows < MAX_LEN ->
  FileManager.load_from_csv fs filename = Ok emps ->
  len emps = len rows
  /\ (rows = [] -> generate_report timestamp emps = Raise ZeroDivisionError)
  /\ (rows <> [] -> exists text, generate_report timestamp emps = Ok text).
Proof.
  intros Hrows Hfile Hmax H.
  assert (Hlen : len emps = len rows).
  { rewrite (load_rows fs filename rows Hrows Hfile) in H.
    unfold len. rewrite (mapM_length _ _ _ H). reflexivity. }
  split; [exact Hlen|]. split.
  - intros ->. destruct emps; [reflexivity | discriminate].
  - intros Hne. unfold generate_report.
    destruct (report_lines_total timestamp emps) as (ls & ->).
    + intros ->. destruct rows; [congruence | discriminate].
    + rewrite Hlen. exact Hmax.
    + eapply Forall_impl; [|exact (loaded_float_fields _ _ _ H)].
      intros e ((s & Hs) & (p & Hp)). unfold small_fields. rewrite Hs, Hp.
      split; exact I.
    + cbn [bind]. eauto.
Qed.

(** X6: saving and loading give the records back: for every list of
    records whose text fields hold no carriage return and fit the field
    limit of the reader, whose [int] numbers convert to [float] and whose
    [float] numbers are read back from their [repr], [load_from_csv] of
    the file [save_to_csv] wrote returns the same records in the same
    order, the numbers as floats. *)
Theorem saved_records_reload (fs : filesystem) (filename : string)
  (emps : list Employee) :
  Forall kept emps ->
  FileManager.load_from_csv (FileManager.save_to_csv fs emps filename) filename
  = Ok (map floated emps).
Proof.
  intros H. apply load_kept; [|exact H].
  unfold FileManager.save_to_csv. apply dict_get_set_same.
Qed.

(** X7: the records of a generated batch come back from the file as they
    were, the salaries as floats of the same value. *)
Theorem generated_batch_reloads {W : Type} (env : World W) (n : Z) (w w' : W)
  (emps : list Employee) (fs : filesystem) (filename : string) :
  lawful env -> n < MAX_LEN ->
  generate_employees env n w = Ok (emps, w') ->
  FileManager.load_from_csv (FileManager.save_to_csv fs emps filename) filename
  = Ok (map floated emps).
Proof.
  intros Hlaw Hn H.
  destruct (generated_batch env n w w' emps Hlaw Hn H) as (_ & _ & Hk & _).
  apply load_kept; [|exact Hk].
  unfold FileManager.save_to_csv. apply dict_get_set_same.
Qed.

(** ** The joining dates of generated records *)

Lemma civil_of_ordinal_year (n : Z) :
  EPOCH - 1825 <= n <= max_ordinal ->
  1965 <= fst (fst (civil_of_ordinal n)) <= 9999.
Proof.
  unfold EPOCH, max_ordinal, civil_of_ordinal. cbv zeta. cbn [fst]. intros Hn.
  repeat match goal with
         | |- context [?a <? ?b] => destruct (Z.ltb_spec a b)
         | |- context [?a <=? ?b] => destruct (Z.leb_spec a b)
         end;
    Z.to_euclidean_division_equations; lia.
Qed.

(** X13: the joining date of every generated record is written with ten
    characters, YYYY-MM-DD: four digits of a year from 1965 on, two of a
    month from 1 to 12 and two of a day from 1 to 31. *)
Theorem generated_joining_dates {W : Type} (env : World W) (n : Z) (w w' : W)
  (emps : list Employee) :
  lawful env ->
  generate_employees env n w = Ok (emps, w') ->
  Forall (fun e => exists y m d,
            1965 <= y <= 9999 /\ 1 <= m <= 12 /\ 1 <= d <= 31
            /\ joining_date e
               = zero_pad 4 y +++ "-" +++ zero_pad 2 m +++ "-" +++ zero_pad 2 d
            /\ py_len (zero_pad 4 y) = 4 /\ py_len (zero_pad 2 m) = 2
            /\ py_len (zero_pad 2 d) = 2
            /\ py_len (joining_date e) = 10) emps.
Proof.
  intros Hlaw H. unfold generate_employees in H.
  destruct (generate_loop_spec env Hlaw (py_range 1 (n + 1)) [] w)
    as (emps0 & w0 & Hl & _ & _ & Hd).
  rewrite Hl in H. cbn [app] in H. injection H as <- _.
  eapply Forall_impl; [|exact Hd]. clear Hd Hl.
  intros e (_ & _ & (v & days & joined & Hdays & Hj & Hdate)).
  destruct Hlaw as (_ & _ & Hclock). specialize (Hclock v).
  unfold minus_days in Hj.
  destruct ((1 <=? ordinal (fst (now env v)) - days)
            && (ordinal (fst (now env v)) - days <=? max_ordinal)) eqn:E;
    [|discriminate].
  injection Hj as <-. apply andb_true_iff in E as [E1 E2].
  apply Z.leb_le in E1, E2.
  destruct (strftime_date_form
              (mk_datetime (ordinal (fst (now env v)) - days) (hour (fst (now env v)))
                 (minute (fst (now env v))) (second (fst (now env v)))))
    as (y & m & d & Hc & Hy & Hm & Hdd & Hform & Hlen & _); [cbn [ordinal]; lia|].
  cbn [ordinal] in Hc.
  pose proof (civil_of_ordinal_year (ordinal (fst (now env v)) - days) ltac:(lia)) as Hyear.
  rewrite Hc in Hyear. cbn [fst] in Hyear.
  exists y, m, d. rewrite Hdate.
  destruct (zero_pad_digits 4 y ltac:(lia) ltac:(lia)) as [_ Ly].
  destruct (zero_pad_digits 2 m ltac:(lia) ltac:(lia)) as [_ Lm].
  destruct (zero_pad_digits 2 d ltac:(lia) ltac:(lia)) as [_ Ld].
  repeat (split; [first [assumption | lia]|]). exact Hlen.
Qed.

(** ** The program *)

(** The steps of the program on a system that accepts every write. *)
Lemma pthen_print {W : Type} (sys : System W) {A : Type} (s : string)
  (k : Main.prog A) (w : W) (fs : filesystem) (out : list string) :
  accepting sys ->
  Main.pthen (Main.print sys s) k (mk_machine w fs out)
  = k (mk_machine w fs (out ++ [s])).
Proof.
  intros [_ Hc]. unfold Main.pthen, Main.pbind, Main.print.
  rewrite Hc. reflexivity.
Qed.

Lemma pthen_write {W : Type} (sys : System W) {A : Type} (filename text : string)
  (k : Main.prog A) (w : W) (fs : filesystem) (out : list string) :
  accepting sys ->
  Main.pthen (Main.write sys filename text) k (mk_machine w fs out)
  = k (mk_machine w (dict_set fs filename text) out).
Proof.
  intros [Hf _]. unfold Main.pthen, Main.pbind, Main.write.
  rewrite Hf. reflexivity.
Qed.

Lemma pthen_save_to_csv {W : Type} (sys : System W) {A : Type}
  (employees : list Employee) (filename : string)
  (k : Main.prog A) (w : W) (fs : filesystem) (out : list string) :
  accepting sys ->
  Main.pthen (Main.save_to_csv sys employees filename) k (mk_machine w fs out)
  = k (mk_machine w (FileManager.save_to_csv fs employees filename)
         (out ++ ["✅ Employee data saved to: " +++ filename])).
Proof.
  intros [Hf Hc].
  unfold Main.save_to_csv, Main.pthen, Main.pbind, Main.write, Main.print.
  rewrite Hf. cbn [world files console]. rewrite Hc. reflexivity.
Qed.

Lemma pthen_save_report {W : Type} (sys : System W) {A : Type}
  (report_text filename : string)
  (k : Main.prog A) (w : W) (fs : filesystem) (out : list string) :
  accepting sys ->
  Main.pthen (Main.save_report sys report_text filename) k (mk_machine w fs out)
  = k (mk_machine w (FileManager.save_report fs report_text filename)
         (out ++ ["✅ Analysis report saved to: " +++ filename])).
Proof.
  intros [Hf Hc].
  unfold Main.save_report, Main.pthen, Main.pbind, Main.write, Main.print.
  rewrite Hf. cbn [world files console]. rewrite Hc. reflexivity.
Qed.

Lemma pbind_generate {W : Type} (env : World W) {A : Type} (n : Z)
  (k : list Employee -> Main.prog A) (w w1 : W) (fs : filesystem)
  (out : list string) (emps : list Employee) :
  generate_employees env n w = Ok (emps, w1) ->
  Main.pbind (Main.generate_employees env n) k (mk_machine w fs out)
  = k emps (mk_machine w1 fs out).
Proof.
  intros H. unfold Main.pbind, Main.generate_employees. cbn [world files console].
  rewrite H. reflexivity.
Qed.

Lemma pbind_report {W : Type} (env : World W) {A : Type} (emps : list Employee)
  (k : string -> Main.prog A) (w w2 : W) (fs : filesystem) (out : list string)
  (t : datetime) (report : string) :
  now env w = (t, w2) -> generate_report t emps = Ok report ->
  Main.pbind (Main.generate_report env emps) k (mk_machine w fs out)
  = k report (mk_machine w2 fs out).
Proof.
  intros Hnow H. unfold Main.pbind, Main.generate_report. cbn [world files console].
  rewrite Hnow, H. reflexivity.
Qed.

(** The steps of the program raise nothing of their own. *)
Lemma passes_on_print {W : Type} (sys : System W) (s : string) :
  passes_on sys (Main.print sys s).
Proof.
  intros m e m' H. unfold Main.print in H.
  destruct (write_console sys m s) as [r c] eqn:E.
  injection H as -> _. right. exists m, s. rewrite E. reflexivity.
Qed.

Lemma passes_on_write {W : Type} (sys : System W) (filename text : string) :
  passes_on sys (Main.write sys filename text).
Proof.
  intros m e m' H. unfold Main.write in H.
  destruct (write_file sys m filename text) as [r fs] eqn:E.
  injection H as -> _. left. exists m, filename, text. rewrite E. reflexivity.
Qed.

Lemma passes_on_pbind {W A B : Type} (sys : System W) (c : Main.prog A)
  (k : A -> Main.prog B) (Q : A -> Prop) :
  passes_on sys c ->
  (forall m a m', c m = (Ok a, m') -> Q a) ->
  (forall a, Q a -> passes_on sys (k a)) ->
  passes_on sys (Main.pbind c k).
Proof.
  intros Hc HQ Hk m e m' H. unfold Main.pbind in H.
  destruct (c m) as [[a|e0] m1] eqn:E.
  - exact (Hk a (HQ m a m1 E) m1 e m' H).
  - injection H as <- _. exact (Hc m e0 m1 E).
Qed.

Lemma passes_on_pthen {W A : Type} (sys : System W) (c : Main.prog unit)
  (k : Main.prog A) :
  passes_on sys c -> passes_on sys k -> passes_on sys (Main.pthen c k).
Proof.
  intros Hc Hk. unfold Main.pthen.
  apply (passes_on_pbind sys c (fun _ => k) (fun _ => True)); auto.
Qed.

Lemma passes_on_save_to_csv {W : Type} (sys : System W) (employees : list Employee)
  (filename : string) :
  passes_on sys (Main.save_to_csv sys employees filename).
Proof.
  apply passes_on_pthen; [apply passes_on_write | apply passes_on_print].
Qed.

Lemma passes_on_save_report {W : Type} (sys : System W) (report_text filename : string) :
  passes_on sys (Main.save_report sys report_text filename).
Proof.
  apply passes_on_pthen; [apply passes_on_write | apply passes_on_print].
Qed.

(** A batch of 100 records: it is generated without exception, and its
    report is produced. *)
Lemma batch_of_100 {W : Type} (env : World W) (w : W) :
  lawful env ->
  exists emps w1,
    generate_employees env 100 w = Ok (emps, w1)
    /\ len emps = 100
    /\ Forall kept emps
    /\ forall t, exists report, generate_report t emps = Ok report.
Proof.
  intros Hlaw.
  destruct (generate_loop_spec env Hlaw (py_range 1 (100 + 1)) [] w)
    as (emps & w1 & Hgen & Hids & _).
  cbn [app] in Hgen. fold (generate_employees env 100 w) in Hgen.
  assert (Hlen : len emps = 100).
  { unfold len. rewrite <- (length_map emp_id), Hids, length_map. reflexivity. }
  destruct (generated_batch env 100 w w1 emps Hlaw ltac:(reflexivity) Hgen)
    as (Hg & Hd & Hk & _).
  assert (Hne : emps <> []) by (intros ->; discriminate).
  assert (Hsmall : Forall small_fields emps).
  { rewrite Forall_forall in *. intros e He.
    exact (generated_small env e (Hg e He) (Hd e He)). }
  exists emps, w1. split; [exact Hgen|]. split; [exact Hlen|]. split; [exact Hk|].
  intros t. unfold generate_report.
  destruct (report_lines_total t emps Hne ltac:(rewrite Hlen; reflexivity) Hsmall)
    as (ls & ->).
  cbn [bind]. eauto.
Qed.

Lemma passes_on_main {W : Type} (env : World W) (sys : System W) :
  lawful env -> passes_on sys (Main.main env sys).
Proof.
  intros Hlaw. unfold Main.main.
  repeat (apply passes_on_pthen; [apply passes_on_print|]).
  apply (passes_on_pbind sys _ _
           (fun emps => forall t, exists report, generate_report t emps = Ok report)).
  { intros m e m' H. unfold Main.generate_employees in H.
    destruct (batch_of_100 env (world m) Hlaw) as (emps & w1 & Hgen & _).
    rewrite Hgen in H. discriminate. }
  { intros m a m' H. unfold Main.generate_employees in H.
    destruct (batch_of_100 env (world m) Hlaw) as (emps & w1 & Hgen & _ & _ & Hrep).
    rewrite Hgen in H. injection H as <- _. exact Hrep. }
  intros employees Hrep.
  repeat (apply passes_on_pthen;
          [first [apply passes_on_print | apply passes_on_save_to_csv]|]).
  apply (passes_on_pbind sys _ _ (fun _ => True)).
  { intros m e m' H. unfold Main.generate_report in H.
    destruct (now env (world m)) as [t w2].
    destruct (Hrep t) as (report & Hr). rewrite Hr in H. discriminate. }
  { intros; exact I. }
  intros report _.
  repeat (apply passes_on_pthen;
          [first [apply passes_on_print | apply passes_on_save_report]|]).
  apply passes_on_print.
Qed.

(** The run of [main] once the batch and the report are known. *)
Lemma main_run {W : Type} (env : World W) (sys : System W) (w w1 w2 : W)
  (fs : filesystem) (out : list string) (emps : list Employee) (t : datetime)
  (report : string) :
  accepting sys ->
  generate_employees env 100 w = Ok (emps, w1) ->
  now env w1 = (t, w2) ->
  generate_report t emps = Ok report ->
  exists printed,
    Main.main env sys (mk_machine w fs out)
    = (Ok tt,
       mk_machine w2
         (FileManager.save_report (FileManager.save_to_csv fs emps "employees.csv")
            report "analysis_report.txt")
         (out ++ printed))
    /\ In report printed
    /\ In ("✅ Generated " +++ str_of_int (len emps) +++ " employee records") printed.
Proof.
  intros Hacc Hgen Hnow Hrep. unfold Main.main.
  rewrite !(pthen_print sys _ _ _ _ _ Hacc).
  rewrite (pbind_generate env _ _ _ _ _ _ _ Hgen).
  rewrite !(pthen_print sys _ _ _ _ _ Hacc).
  rewrite (pthen_save_to_csv sys _ _ _ _ _ _ Hacc).
  rewrite !(pthen_print sys _ _ _ _ _ Hacc).
  rewrite (pbind_report env _ _ _ _ _ _ _ _ Hnow Hrep).
  rewrite !(pthen_print sys _ _ _ _ _ Hacc).
  rewrite (pthen_save_report sys _ _ _ _ _ _ Hacc).
  rewrite !(pthen_print sys _ _ _ _ _ Hacc).
  destruct Hacc as [_ Hc]. unfold Main.print. rewrite Hc. cbn [world files console].
  rewrite <- !app_assoc. cbn [app].
  eexists. split; [reflexivity|]. split.
  - repeat first [left; reflexivity | right].
  - repeat first [left; reflexivity | right].
Qed.

(** X14: in a lawful environment [main] raises nothing of its own:
    whatever it raises, the system raised when it refused a write to a
    file or to the console.  On a system that accepts every write,
    [main] runs to its end without an exception: it generates 100
    records, writes them to employees.csv and their report to
    analysis_report.txt, leaves every other file as it was, and prints
    the report; loading employees.csv afterwards gives the records back,
    the salaries as floats. *)
Theorem main_completes {W : Type} (env : World W) (sys : System W) (w : W)
  (fs : filesystem) (out : list string) :
  lawful env ->
  (forall e m, Main.main env sys (mk_machine w fs out) = (Raise e, m) -> refused sys e)
  /\ (accepting sys ->
      exists emps w1 report m printed,
        Main.main env sys (mk_machine w fs out) = (Ok tt, m)
        /\ generate_employees env 100 w = Ok (emps, w1)
        /\ len emps = 100
        /\ generate_report (fst (now env w1)) emps = Ok report
        /\ dict_get (files m) "employees.csv" = Some (FileManager.csv_text emps)
        /\ dict_get (files m) "analysis_report.txt" = Some report
        /\ (forall f, f <> "employees.csv" -> f <> "analysis_report.txt" ->
              dict_get (files m) f = dict_get fs f)
        /\ FileManager.load_from_csv (files m) "employees.csv" = Ok (map floated emps)
        /\ console m = out ++ printed
        /\ In report printed
        /\ In "✅ Generated 100 employee records" printed).
Proof.
  intros Hlaw. split.
  { intros e m H. exact (passes_on_main env sys Hlaw _ e m H). }
  intros Hacc.
  destruct (batch_of_100 env w Hlaw) as (emps & w1 & Hgen & Hlen & Hk & Hreport).
  destruct (now env w1) as [t w2] eqn:Hnow. cbn [fst].
  destruct (Hreport t) as (report & Hrep).
  destruct (main_run env sys w w1 w2 fs out emps t report Hacc Hgen Hnow Hrep)
    as (printed & Hrun & Hin1 & Hin2).
  rewrite Hlen in Hin2.
  assert (Hcsv : forall fs', dict_get
            (FileManager.save_report (FileManager.save_to_csv fs' emps "employees.csv")
               report "analysis_report.txt") "employees.csv"
          = Some (FileManager.csv_text emps)).
  { intros fs'. unfold FileManager.save_report, FileManager.save_to_csv.
    rewrite dict_get_set_other by discriminate. apply dict_get_set_same. }
  exists emps, w1, report.
  eexists. exists printed. split; [exact Hrun|]. cbn [files console].
  split; [exact Hgen|]. split; [exact Hlen|].
  split; [rewrite Hnow; exact Hrep|].
  split; [apply Hcsv|]. split.
  { unfold FileManager.save_report. apply dict_get_set_same. }
  split.
  { intros f Hf1 Hf2. unfold FileManager.save_report, FileManager.save_to_csv.
    rewrite !dict_get_set_other by assumption. reflexivity. }
  split; [apply load_kept; [apply Hcsv | exact Hk]|].
  split; [reflexivity|]. split; [exact Hin1 | exact Hin2].
Qed.

(** ** Witnesses *)

Lemma staff_kept : Forall kept staff.
Proof. apply keptb_all. vm_compute. reflexivity. Qed.

Lemma load_written_rows_witness :
  FileManager.load_from_csv
    [("staff.csv", file_of_rows (map written_fields staff))] "staff.csv"
  = mapM employee_of_fields (map written_fields staff).
Proof.
  apply (load_written_rows
           [("staff.csv", file_of_rows (map written_fields staff))] "staff.csv"
           (map written_fields staff)).
  - apply Forall_map. eapply Forall_impl; [|exact staff_kept].
    intros e He. split; [reflexivity | exact (kept_writable e He)].
  - reflexivity.
Defined.

Lemma saved_records_reload_witness :
  FileManager.load_from_csv (FileManager.save_to_csv [] staff "employees.csv")
    "employees.csv"
  = Ok (map floated staff).
Proof. exact (saved_records_reload [] "employees.csv" staff staff_kept). Defined.

Lemma generated_batch_reloads_witness :
  FileManager.load_from_csv (FileManager.save_to_csv [] demo_staff "employees.csv")
    "employees.csv"
  = Ok (map floated demo_staff).
Proof.
  apply (generated_batch_reloads demo_world 3 O 18%nat demo_staff [] "employees.csv").
  - exact demo_world_lawful.
  - reflexivity.
  - vm_compute. reflexivity.
Defined.

Lemma generated_salary_above_floor_witness :
  Forall (fun e => exists base variation,
            dict_get base_salaries (department e) = Some base
            /\ -10000 <= variation <= 30000
            /\ salary e = Int (base + variation)
            /\ 40000 <= base + variation <= 110000) demo_staff.
Proof.
  apply (generated_salary_above_floor demo_world 3 O 18%nat demo_staff).
  - exact demo_world_lawful.
  - vm_compute. reflexivity.
Defined.

Lemma generate_nothing_witness : generate_employees demo_world (-2) O = Ok ([], O).
Proof. apply (generate_nothing demo_world (-2) O). lia. Defined.

Lemma top_performers_are_best_witness :
  exists rest,
    Permutation (get_top_performers staff 2 ++ rest) staff
    /\ len (get_top_performers staff 2) = Z.min 2 (len staff)
    /\ forall a b, In a (get_top_performers staff 2) -> In b rest ->
                   py_lt (performance_score a) (performance_score b) = false.
Proof.
  apply (top_performers_are_best staff 2).
  - repeat constructor.
  - lia.
Defined.

Lemma loaded_collection_reports_witness :
  exists loaded text,
    FileManager.load_from_csv
      [("staff.csv", file_of_rows (map written_fields staff))] "staff.csv" = Ok loaded
    /\ generate_report noon loaded = Ok text.
Proof.
  destruct (FileManager.load_from_csv
              [("staff.csv", file_of_rows (map written_fields staff))] "staff.csv")
    as [loaded|e] eqn:E; [|vm_compute in E; discriminate].
  destruct (loaded_collection_reports
              [("staff.csv", file_of_rows (map written_fields staff))] "staff.csv"
              (map written_fields staff) loaded noon) as (_ & _ & H).
  - apply Forall_map. eapply Forall_impl; [|exact staff_kept].
    intros e He. split; [reflexivity | exact (kept_writable e He)].
  - reflexivity.
  - reflexivity.
  - exact E.
  - destruct H as (text & Ht); [discriminate|].
    exists loaded, text. split; [reflexivity | exact Ht].
Defined.

Lemma generated_joining_dates_witness :
  Forall (fun e => exists y m d,
            1965 <= y <= 9999 /\ 1 <= m <= 12 /\ 1 <= d <= 31
            /\ joining_date e
               = zero_pad 4 y +++ "-" +++ zero_pad 2 m +++ "-" +++ zero_pad 2 d
            /\ py_len (zero_pad 4 y) = 4 /\ py_len (zero_pad 2 m) = 2
            /\ py_len (zero_pad 2 d) = 2
            /\ py_len (joining_date e) = 10) demo_staff.
Proof.
  apply (generated_joining_dates demo_world 3 O 18%nat demo_staff).
  - exact demo_world_lawful.
  - vm_compute. reflexivity.
Defined.

Lemma demo_system_accepting : accepting demo_system.
Proof. split; reflexivity. Qed.

Lemma main_completes_witness :
  exists emps w1 report m printed,
    Main.main demo_world demo_system (mk_machine O [] []) = (Ok tt, m)
    /\ generate_employees demo_world 100 O = Ok (emps, w1)
    /\ len emps = 100
    /\ generate_report (fst (now demo_world w1)) emps = Ok report
    /\ dict_get (files m) "employees.csv" = Some (FileManager.csv_text emps)
    /\ dict_get (files m) "analysis_report.txt" = Some report
    /\ (forall f, f <> "employees.csv" -> f <> "analysis_report.txt" ->
          dict_get (files m) f = dict_get [] f)
    /\ FileManager.load_from_csv (files m) "employees.csv" = Ok (map floated emps)
    /\ console m = [] ++ printed
    /\ In report printed
    /\ In "✅ Generated 100 employee records" printed.
Proof.
  exact (proj2 (main_completes demo_world demo_system O [] [] demo_world_lawful)
           demo_system_accepting).
Defined.

(** When the files cannot be written, [main] stops with the exception of
    the system at the first file: what was printed before stays printed,
    and no file is written. *)
Example main_refused :
  exists m,
    Main.main demo_world read_only_system (mk_machine O [] []) = (Raise OSError, m)
    /\ files m = []
    /\ console m
       = [py_str_mul "=" 80; "EMPLOYEE DATA ANALYSIS SYSTEM"; py_str_mul "=" 80; "";
          "Step 1: Generating employee data..."; py_str_mul "-" 80;
          "✅ Generated 100 employee records"; "";
          "Step 2: Saving data to CSV..."; py_str_mul "-" 80].
Proof. eexists. split; [vm_compute; reflexivity|]. split; reflexivity. Qed.
